(** * PPTGenerator: a shallow embedding of [ppt_generator.py]

    The wrapper class [PPTGenerator] drives the python-pptx document model.
    The development has three layers:

    - the Python string and path functions the wrapper calls
      ([str.endswith], [str.split], [os.path.abspath], ...);
    - the part of the python-pptx object model the wrapper reads and writes
      (layouts, slides, placeholders, text frames, charts), together with a
      small POSIX file store for templates, images and saved decks;
    - the methods of [PPTGenerator] themselves, written statement by
      statement in a state-and-exception monad over the object [self].

    The theorems at the end relate the wrapper to the statements of the
    design specification. *)

From Stdlib Require Import ZArith QArith String Ascii DecimalString.
From stdpp Require Import base option list strings gmap.

Local Open Scope string_scope.
Local Open Scope nat_scope.

(** ** Python strings *)

(** The line feed written ["\n"] in the source. *)
Definition LF : string := String "010"%char "".

(** [s.startswith(prefix)] *)
Fixpoint startswith (s prefix : string) {struct prefix} : bool :=
  match prefix with
  | EmptyString => true
  | String c prefix' =>
      match s with
      | EmptyString => false
      | String d s' => Ascii.eqb d c && startswith s' prefix'
      end
  end.

(** [s.endswith(suffix)]: some tail of [s] is [suffix]. *)
Fixpoint endswith (s suffix : string) : bool :=
  String.eqb s suffix ||
  match s with
  | EmptyString => false
  | String _ s' => endswith s' suffix
  end.

(** [s.split(sep)] for a one-character separator. *)
Fixpoint split (sep : ascii) (s : string) : list string :=
  match s with
  | EmptyString => [""]
  | String c s' =>
      if Ascii.eqb c sep then "" :: split sep s'
      else match split sep s' with
           | w :: ws => String c w :: ws
           | [] => [String c ""]
           end
  end.

(** [sep.join(l)] *)
Fixpoint join (sep : string) (l : list string) : string :=
  match l with
  | [] => ""
  | x :: xs =>
      match xs with
      | [] => x
      | _ :: _ => x +:+ sep +:+ join sep xs
      end
  end.

(** [str(n)] for a non-negative integer, as used by the f-string
    [f"{i+1}. {item}"]. *)
Definition str_of_nat (n : nat) : string :=
  NilZero.string_of_uint (Nat.to_uint n).

(** Truthiness of a Python string: the empty string is falsy. *)
Definition truthy (s : string) : bool := negb (String.eqb s "").

(** ** Exceptions *)

Inductive exception : Type :=
| ValueError (msg : string)
| IndexError (msg : string)
| KeyError (key : string)
| AttributeError (msg : string)
| OSError (path : string)
| PackageNotFoundError (path : string)
| UnidentifiedImageError (path : string).

(** ** POSIX paths ([posixpath]) *)

Definition isabs (p : string) : bool := startswith p "/".

(** [os.path.join(a, b)] *)
Definition os_path_join (a b : string) : string :=
  if startswith b "/" then b
  else if String.eqb a "" || endswith a "/" then a +:+ b
  else a +:+ "/" +:+ b.

(** The loop of [normpath] over the components, with the list
    [new_comps] kept in reverse (its head is [new_comps[-1]]). *)
Fixpoint normpath_comps (initial_slashes : nat) (comps rev_new : list string)
  : list string :=
  match comps with
  | [] => rev rev_new
  | comp :: rest =>
      if String.eqb comp "" || String.eqb comp "." then
        normpath_comps initial_slashes rest rev_new
      else if negb (String.eqb comp "..")
              || ((initial_slashes =? 0) && bool_decide (rev_new = []))
              || match rev_new with
                 | last :: _ => String.eqb last ".."
                 | [] => false
                 end
      then normpath_comps initial_slashes rest (comp :: rev_new)
      else normpath_comps initial_slashes rest (tail rev_new)
  end.

(** [os.path.normpath(path)] *)
Definition os_path_normpath (path : string) : string :=
  if String.eqb path "" then "."
  else
    let initial_slashes :=
      if startswith path "/" then
        if startswith path "//" && negb (startswith path "///") then 2 else 1
      else 0 in
    let comps := normpath_comps initial_slashes (split "/"%char path) [] in
    let path' := join "/" comps in
    let path' := join "" (replicate initial_slashes "/") +:+ path' in
    if String.eqb path' "" then "." else path'.

(** [os.path.abspath(path)], given the working directory. *)
Definition os_path_abspath (cwd path : string) : string :=
  os_path_normpath (if isabs path then path else os_path_join cwd path).

(** [s.rstrip("/")] *)
Fixpoint rstrip_slash (s : string) : string :=
  match s with
  | EmptyString => ""
  | String c s' =>
      match rstrip_slash s' with
      | EmptyString => if Ascii.eqb c "/"%char then "" else String c ""
      | r => String c r
      end
  end.

(** [os.path.dirname(p)] *)
Definition os_path_dirname (p : string) : string :=
  let comps := split "/"%char p in
  let head :=
    match removelast comps with
    | [] => ""
    | front => join "/" front +:+ "/"
    end in
  match rstrip_slash head with
  | EmptyString => head
  | stripped => stripped
  end.

(** ** The python-pptx object model

    Only what the wrapper touches is modelled.  Lengths are English Metric
    Units, as in [pptx.util]. *)

Local Open Scope Z_scope.

(** [Pt(n)] *)
Definition Pt (n : Z) : Z := n * 12700.

(** [Inches(x)] is [int(x * 914400)], and [int] rounds towards zero.  The
    wrapper passes multiples of one half only, for which the floating-point
    product is the exact one. *)
Definition Inches (x : Q) : Z :=
  let emu := (x * 914400)%Q in Z.quot (Qnum emu) (Z.pos (Qden emu)).

Record RGBColor : Type := mkRGB { red : Z; green : Z; blue : Z }.

(** [RGBColor(r, g, b)]: the constructor rejects a channel outside 0..255. *)
Definition RGBColor_new (r g b : Z) : exception + RGBColor :=
  if forallb (fun val => (0 <=? val) && (val <=? 255)) [r; g; b]
  then inr (mkRGB r g b)
  else inl (ValueError "RGBColor() takes three integer values 0-255").

(** [RGBColor] applied to an unpacked 3-tuple. *)
Definition RGBColor_of_tuple (color : Z * Z * Z) : exception + RGBColor :=
  let '(r, g, b) := color in RGBColor_new r g b.

Inductive PP_ALIGN : Type := CENTER.

Inductive XL_CHART_TYPE : Type := COLUMN_CLUSTERED | LINE | PIE.

Record Paragraph : Type := mkParagraph {
  p_text : string;
  p_font_size : option Z;
  p_font_color : option RGBColor;
  p_font_bold : option bool;
  p_level : Z;
  p_alignment : option PP_ALIGN
}.

Definition empty_paragraph : Paragraph := mkParagraph "" None None None 0 None.

(** What [p.text] reads after [p.text = t]: python-pptx cuts [t] into runs
    at every line feed and vertical tab with a line break [a:br] between
    them, and a line break reads as a vertical tab. *)
Fixpoint stored_text (t : string) : string :=
  match t with
  | EmptyString => EmptyString
  | String c t' =>
      String (if Ascii.eqb c "010"%char then "011"%char else c) (stored_text t')
  end.

(** Whether [t] holds no line feed. *)
Fixpoint one_line (t : string) : bool :=
  match t with
  | EmptyString => true
  | String c t' => negb (Ascii.eqb c "010"%char) && one_line t'
  end.

Definition with_p_text (t : string) (p : Paragraph) : Paragraph :=
  mkParagraph t (p_font_size p) (p_font_color p) (p_font_bold p) (p_level p) (p_alignment p).

(** [p.text = t]: the runs are replaced, the paragraph properties stay. *)
Definition set_p_text (t : string) (p : Paragraph) : Paragraph :=
  with_p_text (stored_text t) p.
Definition set_p_font_size (v : Z) (p : Paragraph) : Paragraph :=
  mkParagraph (p_text p) (Some v) (p_font_color p) (p_font_bold p) (p_level p) (p_alignment p).
Definition set_p_font_color (v : RGBColor) (p : Paragraph) : Paragraph :=
  mkParagraph (p_text p) (p_font_size p) (Some v) (p_font_bold p) (p_level p) (p_alignment p).
Definition set_p_font_bold (v : bool) (p : Paragraph) : Paragraph :=
  mkParagraph (p_text p) (p_font_size p) (p_font_color p) (Some v) (p_level p) (p_alignment p).
Definition set_p_level (v : Z) (p : Paragraph) : Paragraph :=
  mkParagraph (p_text p) (p_font_size p) (p_font_color p) (p_font_bold p) v (p_alignment p).
Definition set_p_alignment (v : PP_ALIGN) (p : Paragraph) : Paragraph :=
  mkParagraph (p_text p) (p_font_size p) (p_font_color p) (p_font_bold p) (p_level p) (Some v).

(** A text frame is its list of paragraphs; python-pptx keeps at least one. *)
Definition TextFrame : Type := list Paragraph.

(** [text_frame.text = t] (also [shape.text = t]): the content is replaced
    by one fresh paragraph per line of [t]. *)
Definition text_frame_set_text (t : string) : TextFrame :=
  (fun line => set_p_text line empty_paragraph) <$> split "010"%char t.

(** [text_frame.clear()]: all paragraphs but the first are removed and the
    first loses its text, keeping its paragraph properties. *)
Definition text_frame_clear (tf : TextFrame) : TextFrame :=
  match tf with
  | [] => []
  | p :: _ => [set_p_text "" p]
  end.

(** [CategoryChartData]: the labels and the series added so far. *)
Record CategoryChartData : Type := mkChartData {
  categories : list string;
  chart_series : list (string * list Z)
}.

Inductive Shape : Type :=
| PlaceholderShape (idx : nat) (text_frame : TextFrame)
| TextBoxShape (left top width height : Z) (text_frame : TextFrame)
| PictureShape (image_file : string) (left top width : Z)
| ChartShape (chart_type : XL_CHART_TYPE) (x y cx cy : Z) (chart_data : CategoryChartData).

Definition ph_idx (sh : Shape) : option nat :=
  match sh with
  | PlaceholderShape idx _ => Some idx
  | _ => None
  end.

Definition shape_text_frame (sh : Shape) : option TextFrame :=
  match sh with
  | PlaceholderShape _ tf | TextBoxShape _ _ _ _ tf => Some tf
  | _ => None
  end.

Definition shape_alter_text_frame (f : TextFrame -> TextFrame) (sh : Shape) : Shape :=
  match sh with
  | PlaceholderShape idx tf => PlaceholderShape idx (f tf)
  | TextBoxShape l t w h tf => TextBoxShape l t w h (f tf)
  | _ => sh
  end.

(** A slide layout, by the [idx] of the placeholders a new slide inherits
    from it (date, footer and slide-number placeholders are not inherited).
    The layouts considered carry text placeholders only, as those of the
    default template the wrapper's layout numbers refer to. *)
Record SlideLayout : Type := mkLayout {
  layout_name : string;
  layout_placeholders : list nat
}.

(** The background fill of a slide: inherited from the layout, or solid
    with a foreground colour once one is assigned. *)
Inductive Fill : Type :=
| FillInherited
| FillSolid (fore_color : option RGBColor).

Record Slide : Type := mkSlide {
  slide_layout : SlideLayout;
  shapes : list Shape;
  background_fill : Fill
}.

Definition set_shapes (shs : list Shape) (s : Slide) : Slide :=
  mkSlide (slide_layout s) shs (background_fill s).
Definition set_background_fill (f : Fill) (s : Slide) : Slide :=
  mkSlide (slide_layout s) (shapes s) f.

Record Presentation : Type := mkPresentation {
  slide_layouts : list SlideLayout;
  slides : list Slide
}.

(** [Presentation()] with no argument opens the built-in default template:
    eleven layouts and no slide. *)
Definition default_layouts : list SlideLayout :=
  [ mkLayout "Title Slide" [0; 1]%nat;
    mkLayout "Title and Content" [0; 1]%nat;
    mkLayout "Section Header" [0; 1]%nat;
    mkLayout "Two Content" [0; 1; 2]%nat;
    mkLayout "Comparison" [0; 1; 2; 3; 4]%nat;
    mkLayout "Title Only" [0]%nat;
    mkLayout "Blank" [];
    mkLayout "Content with Caption" [0; 1; 2]%nat;
    mkLayout "Picture with Caption" [0; 1; 2]%nat;
    mkLayout "Title and Vertical Text" [0; 1]%nat;
    mkLayout "Vertical Title and Text" [0; 1]%nat ].

Definition default_presentation : Presentation :=
  mkPresentation default_layouts [].

(** The slide [slides.add_slide(layout)] creates: one empty placeholder per
    inherited placeholder of the layout. *)
Definition new_slide (layout : SlideLayout) : Slide :=
  mkSlide layout
          ((fun idx => PlaceholderShape idx [empty_paragraph]) <$> layout_placeholders layout)
          FillInherited.

(** ** The file store

    Files are kept under their absolute path; a relative path is taken from
    the working directory.  Aliases of one file (symbolic links, [..]
    components) and permissions are outside the model. *)

Inductive File : Type :=
| Directory
| PptxFile (prs : Presentation)
| ImageFile
| OtherFile.

Record FileSystem : Type := mkFS {
  cwd : string;
  files : gmap string File
}.

Definition fs_key (fs : FileSystem) (path : string) : string :=
  if isabs path then path else os_path_join (cwd fs) path.

(** [os.path.exists(path)] *)
Definition os_path_exists (fs : FileSystem) (path : string) : bool :=
  negb (String.eqb path "") && bool_decide (is_Some (files fs !! fs_key fs path)).

(** [Presentation(pptx)]: the default template for [None], the deck stored
    in the file otherwise.  A directory is read as an unpacked package, and
    the directories of the store hold none. *)
Definition Presentation_open (fs : FileSystem) (pptx : option string)
  : exception + Presentation :=
  match pptx with
  | None => inr default_presentation
  | Some path =>
      match files fs !! fs_key fs path with
      | Some (PptxFile prs) => inr prs
      | Some Directory => inl (KeyError "no member '/[Content_Types].xml' in package")
      | _ => inl (PackageNotFoundError path)
      end
  end.

(** Whether a file can be created or overwritten at [path]: its directory
    exists and [path] itself is not a directory. *)
Definition is_directory (f : option File) : bool :=
  match f with
  | Some Directory => true
  | _ => false
  end.

Definition can_write (fs : FileSystem) (path : string) : bool :=
  let key := fs_key fs path in
  is_directory (files fs !! os_path_dirname key)
  && negb (is_directory (files fs !! key)).

(** [presentation.save(path)] *)
Definition Presentation_save (prs : Presentation) (path : string) (fs : FileSystem)
  : (exception + unit) * FileSystem :=
  if can_write fs path
  then (inr tt, mkFS (cwd fs) (<[fs_key fs path := PptxFile prs]> (files fs)))
  else (inl (OSError path), fs).

(** ** State and exceptions

    A Python method mutates an object and either returns or raises; what it
    did before raising stays done.  [St S A] is such a computation over a
    mutable object of type [S]. *)

Definition St (S A : Type) : Type := S -> (exception + A) * S.

Definition ret {S A} (a : A) : St S A := fun s => (inr a, s).

Definition bind {S A B} (m : St S A) (k : A -> St S B) : St S B :=
  fun s =>
    match m s with
    | (inr a, s') => k a s'
    | (inl e, s') => (inl e, s')
    end.

Definition raise {S A} (e : exception) : St S A := fun s => (inl e, s).

Definition get {S} : St S S := fun s => (inr s, s).

Definition modify {S} (f : S -> S) : St S unit := fun s => (inr tt, f s).

(** The outcome of an expression that cannot touch the object. *)
Definition lift {S A} (r : exception + A) : St S A := fun s => (r, s).

Declare Scope st_scope.
Delimit Scope st_scope with st.
Notation "x <- c1 ;; c2" := (bind c1 (fun x => c2))
  (at level 100, c1 at next level, right associativity) : st_scope.
Notation "c1 ;;; c2" := (bind c1 (fun _ => c2))
  (at level 100, right associativity) : st_scope.
Local Open Scope st_scope.

(** [if cond: body] with no [else]. *)
Definition when {S} (cond : bool) (body : St S unit) : St S unit :=
  if cond then body else ret tt.

(** [for i, item in enumerate(l, start)] over a body that cannot raise. *)
Fixpoint for_enumerate {T A} (body : nat -> A -> T -> T) (start : nat) (l : list A) (s : T) : T :=
  match l with
  | [] => s
  | item :: rest => for_enumerate body (S start) rest (body start item s)
  end.

(** ** Operations on the slide a method is building

    [add_slide] puts the new slide into the presentation at once and hands
    the method a reference to it; every later statement of the method goes
    through that reference.  The slide is therefore the mutable object of
    the method body, and a shape is referred to by its position among the
    slide's shapes. *)

Definition SlideM : Type -> Type := St Slide.

(** The position of the first element of [l] that satisfies [p]. *)
Fixpoint find_index {A} (p : A -> bool) (l : list A) : option nat :=
  match l with
  | [] => None
  | x :: rest => if p x then Some 0%nat else S <$> find_index p rest
  end.

Definition is_placeholder (sh : Shape) : bool :=
  match ph_idx sh with
  | Some _ => true
  | None => false
  end.

Definition has_ph_idx (idx : nat) (sh : Shape) : bool :=
  match ph_idx sh with
  | Some i => (i =? idx)%nat
  | None => false
  end.

(** [slide.shapes.title]: the first placeholder with [idx] 0, or [None]. *)
Definition shapes_title : SlideM (option nat) :=
  s <- get ;;
  ret (find_index (has_ph_idx 0) (shapes s)).

(** [len(slide.placeholders)] *)
Definition len_placeholders : SlideM nat :=
  s <- get ;;
  ret (length (List.filter is_placeholder (shapes s))).

(** [slide.placeholders[idx]]: lookup by [idx], not by position. *)
Definition placeholders_getitem (idx : nat) : SlideM nat :=
  s <- get ;;
  match find_index (has_ph_idx idx) (shapes s) with
  | Some pos => ret pos
  | None => raise (KeyError ("no placeholder on this slide with idx == " +:+ str_of_nat idx))
  end.

(** An update of the text frame of the shape at [pos]. *)
Definition alter_text_frame (pos : nat) (f : TextFrame -> TextFrame) : SlideM unit :=
  modify (fun s => set_shapes (alter (shape_alter_text_frame f) pos (shapes s)) s).

(** Access to attribute [attr] of a value that may be [None]. *)
Definition not_none (shape : option nat) (attr : string) : SlideM nat :=
  match shape with
  | Some pos => ret pos
  | None => raise (AttributeError ("'NoneType' object has no attribute '" +:+ attr +:+ "'"))
  end.

(** [shape.text = t] *)
Definition shape_set_text (pos : nat) (t : string) : SlideM unit :=
  alter_text_frame pos (fun _ => text_frame_set_text t).

(** Assignments to [shape.text_frame.paragraphs[0]]. *)
Definition alter_first_paragraph (pos : nat) (f : Paragraph -> Paragraph) : SlideM unit :=
  alter_text_frame pos (alter f 0%nat).

(** [slide.shapes.add_textbox(left, top, width, height)] *)
Definition shapes_add_textbox (left top width height : Z) : SlideM nat :=
  s <- get ;;
  modify (set_shapes (shapes s ++ [TextBoxShape left top width height [empty_paragraph]])) ;;;
  ret (length (shapes s)).

(** [slide.shapes.add_picture(image_file, left, top, width=width)]: the
    file must hold an image. *)
Definition shapes_add_picture (fs : FileSystem) (image_file : string) (left top width : Z)
  : SlideM nat :=
  match files fs !! fs_key fs image_file with
  | Some ImageFile =>
      s <- get ;;
      modify (set_shapes (shapes s ++ [PictureShape image_file left top width])) ;;;
      ret (length (shapes s))
  | Some Directory | None => raise (OSError image_file)
  | Some _ => raise (UnidentifiedImageError image_file)
  end.

(** What stops python-pptx from writing the chart part for [chart_data].
    A pie chart is written from the first series, [chart_data[0]]; the
    other kinds from every series.  Writing a series needs the worksheet
    range of the categories, which does not exist without a category, and
    the worksheet column of the series: the labels fill column 1, the
    series the columns from 2 on, and the last column is 16384. *)
Definition chart_part_error (chart_type : XL_CHART_TYPE) (chart_data : CategoryChartData)
  : option exception :=
  match chart_type, chart_series chart_data, categories chart_data with
  | PIE, [], _ => Some (IndexError "list index out of range")
  | _, _ :: _, [] => Some (ValueError "chart data contains no categories")
  | PIE, _, _ => None
  | _, series, _ =>
      if 16383 <? Z.of_nat (length series)
      then Some (ValueError "column_number must be in range 1-16384")
      else None
  end.

(** [slide.shapes.add_chart(chart_type, x, y, cx, cy, chart_data)]: the
    chart part is written first, the shape is added after it. *)
Definition shapes_add_chart (chart_type : XL_CHART_TYPE) (x y cx cy : Z)
    (chart_data : CategoryChartData) : SlideM nat :=
  match chart_part_error chart_type chart_data with
  | Some e => raise e
  | None =>
      s <- get ;;
      modify (set_shapes (shapes s ++ [ChartShape chart_type x y cx cy chart_data])) ;;;
      ret (length (shapes s))
  end.

(** ** The class [PPTGenerator] *)

Record PPTGenerator : Type := mkGen {
  presentation : Presentation;
  title_font_size : Z;
  subtitle_font_size : Z;
  content_font_size : Z;
  primary_color : RGBColor;
  accent_color : RGBColor
}.

Definition set_presentation (prs : Presentation) (self : PPTGenerator) : PPTGenerator :=
  mkGen prs (title_font_size self) (subtitle_font_size self) (content_font_size self)
        (primary_color self) (accent_color self).
Definition set_primary_color (c : RGBColor) (self : PPTGenerator) : PPTGenerator :=
  mkGen (presentation self) (title_font_size self) (subtitle_font_size self)
        (content_font_size self) c (accent_color self).
Definition set_accent_color (c : RGBColor) (self : PPTGenerator) : PPTGenerator :=
  mkGen (presentation self) (title_font_size self) (subtitle_font_size self)
        (content_font_size self) (primary_color self) c.

Definition M : Type -> Type := St PPTGenerator.

(** [self.presentation.slide_layouts[i]] *)
Definition slide_layouts_getitem (i : nat) : M SlideLayout :=
  self <- get ;;
  match slide_layouts (presentation self) !! i with
  | Some layout => ret layout
  | None => raise (IndexError "slide layout index out of range")
  end.

(** [slide = self.presentation.slides.add_slide(slide_layout)] followed by
    the rest of the method, [body], which works on [slide].  The slide is
    part of the presentation from the first statement on, so it stays there,
    as far as [body] got, when [body] raises.  The method's result is the
    reference to the slide: its position in [slides]. *)
Definition slides_add_slide {A} (layout : SlideLayout) (body : SlideM A) : M nat :=
  fun self =>
    let prs := presentation self in
    let '(r, slide) := body (new_slide layout) in
    (match r with
     | inr _ => inr (length (slides prs))
     | inl e => inl e
     end,
     set_presentation (mkPresentation (slide_layouts prs) (slides prs ++ [slide])) self).

(** [__init__(self, template_path=None)] *)
Definition __init__ (fs : FileSystem) (template_path : option string)
  : exception + PPTGenerator :=
  let use_template :=
    match template_path with
    | Some p => truthy p && os_path_exists fs p
    | None => false
    end in
  match (if use_template then Presentation_open fs template_path
         else Presentation_open fs None) with
  | inl e => inl e
  | inr prs =>
      inr (mkGen prs (Pt 44) (Pt 28) (Pt 18) (mkRGB 31 73 125) (mkRGB 79 129 189))
  end.

(** The three assignments every method makes to its title paragraph. *)
Definition title_format (size : Z) (color : RGBColor) : Paragraph -> Paragraph :=
  set_p_font_bold true ∘ set_p_font_color color ∘ set_p_font_size size.

(** [add_title_slide(self, title, subtitle="", author="")] *)
Definition add_title_slide (title subtitle author : string) : M nat :=
  self <- get ;;
  slide_layout <- slide_layouts_getitem 0 ;;
  slides_add_slide slide_layout (
    title_shape <- shapes_title ;;
    title_shape <- not_none title_shape "text" ;;
    shape_set_text title_shape title ;;;
    alter_first_paragraph title_shape
      (title_format (title_font_size self) (primary_color self)) ;;;
    n <- len_placeholders ;;
    when (1 <? n)%nat (
      subtitle_shape <- placeholders_getitem 1 ;;
      let full_subtitle :=
        if truthy author then subtitle +:+ LF +:+ LF +:+ "Presented by: " +:+ author
        else subtitle in
      when (truthy full_subtitle) (
        shape_set_text subtitle_shape full_subtitle ;;;
        alter_first_paragraph subtitle_shape
          (set_p_font_color (accent_color self) ∘ set_p_font_size (subtitle_font_size self))))).

(** The body of the loop that fills a text frame with the items of
    [content]; [numbered] is [layout_type == "numbered"], and the
    two-column loops are the case without level and numbering. *)
Definition content_paragraph (self : PPTGenerator) (set_level numbered : bool)
    (i : nat) (item : string) (text_frame : TextFrame) : TextFrame :=
  (* p = text_frame.paragraphs[0] if i == 0 else text_frame.add_paragraph() *)
  let '(p, text_frame) :=
    if (i =? 0)%nat then (0%nat, text_frame)
    else (length text_frame, (text_frame ++ [empty_paragraph])%list) in
  let text_frame := alter (set_p_text item) p text_frame in
  let text_frame := alter (set_p_font_size (content_font_size self)) p text_frame in
  let text_frame := alter (set_p_font_color (mkRGB 64 64 64)) p text_frame in
  let text_frame := if set_level then alter (set_p_level 0) p text_frame else text_frame in
  if numbered
  then alter (set_p_text (str_of_nat (i + 1) +:+ ". " +:+ item)) p text_frame
  else text_frame.

(** [add_content_slide(self, title, content, layout_type="bullet")] *)
Definition add_content_slide (title : string) (content : list string)
    (layout_type : string) : M nat :=
  self <- get ;;
  slide_layout <- slide_layouts_getitem 1 ;;
  slides_add_slide slide_layout (
    title_shape <- shapes_title ;;
    title_shape <- not_none title_shape "text" ;;
    shape_set_text title_shape title ;;;
    alter_first_paragraph title_shape
      (title_format (Pt 36) (primary_color self)) ;;;
    n <- len_placeholders ;;
    when (1 <? n)%nat (
      content_shape <- placeholders_getitem 1 ;;
      alter_text_frame content_shape text_frame_clear ;;;
      alter_text_frame content_shape
        (for_enumerate
           (content_paragraph self true (String.eqb layout_type "numbered"))
           0 content))).

(** [add_two_column_slide(self, title, left_content, right_content)] *)
Definition add_two_column_slide (title : string) (left_content right_content : list string)
  : M nat :=
  self <- get ;;
  slide_layout <- slide_layouts_getitem 3 ;;
  slides_add_slide slide_layout (
    title_shape <- shapes_title ;;
    title_shape <- not_none title_shape "text" ;;
    shape_set_text title_shape title ;;;
    alter_first_paragraph title_shape
      (title_format (Pt 36) (primary_color self)) ;;;
    n <- len_placeholders ;;
    when (1 <? n)%nat (
      left_shape <- placeholders_getitem 1 ;;
      alter_text_frame left_shape text_frame_clear ;;;
      alter_text_frame left_shape
        (for_enumerate (content_paragraph self false false) 0 left_content)) ;;;
    n <- len_placeholders ;;
    when (2 <? n)%nat (
      right_shape <- placeholders_getitem 2 ;;
      alter_text_frame right_shape text_frame_clear ;;;
      alter_text_frame right_shape
        (for_enumerate (content_paragraph self false false) 0 right_content))).

(** [add_image_slide(self, title, image_path, caption="")] *)
Definition add_image_slide (fs : FileSystem) (title image_path caption : string) : M nat :=
  self <- get ;;
  slide_layout <- slide_layouts_getitem 6 ;;
  slides_add_slide slide_layout (
    title_box <- shapes_add_textbox (Inches 1) (Inches 0.5) (Inches 8) (Inches 1) ;;
    shape_set_text title_box title ;;;
    alter_first_paragraph title_box
      (set_p_alignment CENTER ∘ title_format (Pt 36) (primary_color self)) ;;;
    (* Add image if it exists *)
    when (os_path_exists fs image_path) (
      shapes_add_picture fs image_path (Inches 2) (Inches 2) (Inches 6) ;;;
      (* Add caption if provided *)
      when (truthy caption) (
        caption_box <- shapes_add_textbox (Inches 1) (Inches 6.5) (Inches 8) (Inches 0.5) ;;
        shape_set_text caption_box caption ;;;
        alter_first_paragraph caption_box
          (set_p_alignment CENTER ∘ set_p_font_color (mkRGB 96 96 96)
           ∘ set_p_font_size (Pt 14))))).

(** The argument [chart_data] of [add_chart_slide]: a dictionary that may
    hold the keys ["categories"] and ["series"], the latter a list of
    dictionaries that may hold ["name"] and ["values"].  An absent key is
    [None]. *)
Record SeriesDict : Type := mkSeries {
  series_name : option string;
  series_values : option (list Z)
}.

Record ChartDataDict : Type := mkChartDict {
  dict_categories : option (list string);
  dict_series : option (list SeriesDict)
}.

(** [d[key]] *)
Definition getitem {A} (key : string) (v : option A) : exception + A :=
  match v with
  | Some a => inr a
  | None => inl (KeyError key)
  end.

(** The loop [for series in ...: chart_data_obj.add_series(series["name"],
    series["values"])]. *)
Fixpoint add_all_series (l : list SeriesDict) (obj : CategoryChartData)
  : exception + CategoryChartData :=
  match l with
  | [] => inr obj
  | series :: rest =>
      match getitem "name" (series_name series) with
      | inl e => inl e
      | inr name =>
          match getitem "values" (series_values series) with
          | inl e => inl e
          | inr values =>
              add_all_series rest
                (mkChartData (categories obj) (chart_series obj ++ [(name, values)]))
          end
      end
  end.

(** [chart_type_map.get(chart_type, XL_CHART_TYPE.COLUMN_CLUSTERED)] *)
Definition chart_type_map_get (chart_type : string) : XL_CHART_TYPE :=
  if String.eqb chart_type "column" then COLUMN_CLUSTERED
  else if String.eqb chart_type "line" then LINE
  else if String.eqb chart_type "pie" then PIE
  else COLUMN_CLUSTERED.

(** [add_chart_slide(self, title, chart_data, chart_type="column")] *)
Definition add_chart_slide (title : string) (chart_data : ChartDataDict)
    (chart_type : string) : M nat :=
  self <- get ;;
  slide_layout <- slide_layouts_getitem 5 ;;
  slides_add_slide slide_layout (
    title_shape <- shapes_title ;;
    title_shape <- not_none title_shape "text" ;;
    shape_set_text title_shape title ;;;
    alter_first_paragraph title_shape
      (title_format (Pt 36) (primary_color self)) ;;;
    (* Prepare chart data *)
    let chart_data_obj := mkChartData (default [] (dict_categories chart_data)) [] in
    chart_data_obj <- lift (add_all_series (default [] (dict_series chart_data)) chart_data_obj) ;;
    (* Add chart *)
    shapes_add_chart (chart_type_map_get chart_type)
      (Inches 2) (Inches 2) (Inches 6) (Inches 4.5) chart_data_obj).

(** [add_section_slide(self, section_title, background_color=None)] *)
Definition add_section_slide (section_title : string)
    (background_color : option (Z * Z * Z)) : M nat :=
  slide_layout <- slide_layouts_getitem 2 ;;
  slides_add_slide slide_layout (
    title_shape <- shapes_title ;;
    title_shape <- not_none title_shape "text" ;;
    shape_set_text title_shape section_title ;;;
    alter_first_paragraph title_shape
      (set_p_alignment CENTER ∘ title_format (Pt 54) (mkRGB 255 255 255)) ;;;
    (* Set background color if provided *)
    match background_color with
    | Some color =>
        modify (set_background_fill (FillSolid None)) ;;;
        rgb <- lift (RGBColor_of_tuple color) ;;
        modify (set_background_fill (FillSolid (Some rgb)))
    | None => ret tt
    end).

(** [save(self, filename)]: the object and the file store after the call,
    with the returned path or the exception raised. *)
Definition save (filename : string) (fs : FileSystem) (self : PPTGenerator)
  : (exception + string) * PPTGenerator * FileSystem :=
  let filename :=
    if negb (endswith filename ".pptx") then filename +:+ ".pptx" else filename in
  let full_path := os_path_abspath (cwd fs) filename in
  match Presentation_save (presentation self) full_path fs with
  | (inr _, fs') => (inr full_path, self, fs')
  | (inl e, fs') => (inl e, self, fs')
  end.

(** [get_slide_count(self)] *)
Definition get_slide_count : M nat :=
  self <- get ;;
  ret (length (slides (presentation self))).

(** [set_theme_colors(self, primary_color, accent_color)] *)
Definition set_theme_colors (primary accent : Z * Z * Z) : M unit :=
  rgb <- lift (RGBColor_of_tuple primary) ;;
  modify (set_primary_color rgb) ;;;
  rgb <- lift (RGBColor_of_tuple accent) ;;
  modify (set_accent_color rgb).

(** ** Sequences of [add_*] calls *)

Inductive Call : Type :=
| AddTitleSlide (title subtitle author : string)
| AddContentSlide (title : string) (content : list string) (layout_type : string)
| AddTwoColumnSlide (title : string) (left_content right_content : list string)
| AddImageSlide (title image_path caption : string)
| AddChartSlide (title : string) (chart_data : ChartDataDict) (chart_type : string)
| AddSectionSlide (section_title : string) (background_color : option (Z * Z * Z)).

Definition run_call (fs : FileSystem) (c : Call) : M nat :=
  match c with
  | AddTitleSlide title subtitle author => add_title_slide title subtitle author
  | AddContentSlide title content layout_type => add_content_slide title content layout_type
  | AddTwoColumnSlide title l r => add_two_column_slide title l r
  | AddImageSlide title image_path caption => add_image_slide fs title image_path caption
  | AddChartSlide title chart_data chart_type => add_chart_slide title chart_data chart_type
  | AddSectionSlide title color => add_section_slide title color
  end.

(** The calls of a script in order; the script stops at the first call that
    raises.  The result lists the slide references the calls returned. *)
Fixpoint run_calls (fs : FileSystem) (cs : list Call) : M (list nat) :=
  match cs with
  | [] => ret []
  | c :: rest =>
      slide <- run_call fs c ;;
      slides <- run_calls fs rest ;;
      ret (slide :: slides)
  end.

(** [slide_count self] is what [get_slide_count] returns on [self]. *)
Definition slide_count (self : PPTGenerator) : nat :=
  length (slides (presentation self)).

(** [appended self slide] is [self] with [slide] put after its slides and
    nothing else changed. *)
Definition appended (self : PPTGenerator) (slide : Slide) : PPTGenerator :=
  set_presentation
    (mkPresentation (slide_layouts (presentation self))
                    (slides (presentation self) ++ [slide]))
    self.

(** ** Reading a slide back *)

(** The text frame of the placeholder [slide.placeholders[idx]]. *)
Definition placeholder_text_frame (idx : nat) (s : Slide) : option TextFrame :=
  match find_index (has_ph_idx idx) (shapes s) with
  | Some pos =>
      match shapes s !! pos with
      | Some sh => shape_text_frame sh
      | None => None
      end
  | None => None
  end.

(** The font colour of the first paragraph of the title. *)
Definition title_color (s : Slide) : option RGBColor :=
  match placeholder_text_frame 0 s with
  | Some (p :: _) => p_font_color p
  | _ => None
  end.

(** The paragraph texts of the body placeholder, [idx] 1. *)
Definition body_texts (s : Slide) : option (list string) :=
  option_map (List.map p_text) (placeholder_text_frame 1 s).

Definition is_picture (sh : Shape) : bool :=
  match sh with
  | PictureShape _ _ _ _ => true
  | _ => false
  end.

(** The chart types of the charts on a slide. *)
Definition chart_types (s : Slide) : list XL_CHART_TYPE :=
  omap (fun sh => match sh with
                  | ChartShape chart_type _ _ _ _ _ => Some chart_type
                  | _ => None
                  end) (shapes s).

(** ** Colour tuples *)

Definition valid_channel (v : Z) : Prop := 0 <= v <= 255.

Definition valid_color (color : Z * Z * Z) : Prop :=
  let '(r, g, b) := color in valid_channel r /\ valid_channel g /\ valid_channel b.

Definition rgb_of (color : Z * Z * Z) : RGBColor :=
  let '(r, g, b) := color in mkRGB r g b.

(** ** Datasets of the documented format

    [{"categories": [...], "series": [{"name": ..., "values": [...]}, ...]}],
    with no constraint between the lengths. *)

Definition series_dict (s : string * list Z) : SeriesDict :=
  mkSeries (Some (fst s)) (Some (snd s)).

Definition chart_dict (cats : list string) (series : list (string * list Z)) : ChartDataDict :=
  mkChartDict (Some cats) (Some (series_dict <$> series)).

(** The invariant the specification asks of a dataset. *)
Definition lengths_match (cats : list string) (series : list (string * list Z)) : Prop :=
  Forall (fun s => length (snd s) = length cats) series.

(** What python-pptx needs of a dataset to write it as a chart of the
    given type, and it is not a matter of matching lengths: a series to
    draw the pie from, a category as soon as there is a series, and for the
    other kinds no more than the 16383 series a worksheet has columns for
    beside the labels. *)
Definition chart_data_writable (chart_type : XL_CHART_TYPE) (cats : list string)
    (series : list (string * list Z)) : Prop :=
  match chart_type with
  | PIE => series <> [] /\ cats <> []
  | _ => (series = [] \/ cats <> []) /\ Z.of_nat (length series) <= 16383
  end.

(** ** Saved files *)

(** The name [save] gives to the file: [filename] with the extension
    appended when it does not end with it, made absolute. *)
Definition save_path (fs : FileSystem) (filename : string) : string :=
  os_path_abspath (cwd fs)
    (if endswith filename ".pptx" then filename else filename +:+ ".pptx").

(** The file store after [prs] was written at [path]: one entry set. *)
Definition written (fs : FileSystem) (path : string) (prs : Presentation) : FileSystem :=
  mkFS (cwd fs) (<[path := PptxFile prs]> (files fs)).

(** The number of slides of the deck stored at [path]. *)
Definition file_slide_count (fs : FileSystem) (path : string) : option nat :=
  match files fs !! path with
  | Some (PptxFile prs) => Some (length (slides prs))
  | _ => None
  end.

(** The text a numbered content slide holds for the item at position [i],
    counted from 0. *)
Definition numbered_text (i : nat) (item : string) : string :=
  str_of_nat (i + 1) +:+ ". " +:+ item.

(** The paragraph the content loop makes of paragraph [p] for the item at
    position [i]: every assignment of the loop body applied in order. *)
Definition content_format (self : PPTGenerator) (set_level numbered : bool)
    (i : nat) (item : string) (p : Paragraph) : Paragraph :=
  let p := set_p_text item p in
  let p := set_p_font_size (content_font_size self) p in
  let p := set_p_font_color (mkRGB 64 64 64) p in
  let p := if set_level then set_p_level 0 p else p in
  if numbered then set_p_text (numbered_text i item) p else p.

(** ** Resolved paths

    What the specification calls the resolved absolute path of a file, said
    of directories rather than of strings.  A directory is given by the
    names that lead to it from the root. *)






(** The vertical tab, and an item of two lines. *)
Definition VT : string := String "011"%char "".

Definition two_lines : string := "x" +:+ LF +:+ "y".

(** ** Sample objects

    The generator [PPTGenerator()] builds, a working directory, a template
    file that already holds a slide, and a script using every slide kind. *)

Definition blank_generator : PPTGenerator :=
  mkGen default_presentation (Pt 44) (Pt 28) (Pt 18) (mkRGB 31 73 125) (mkRGB 79 129 189).

Definition work_fs : FileSystem :=
  mkFS "/work" (<["/work" := Directory]> (<["/" := Directory]> ∅)).

Definition one_slide_deck : Presentation :=
  mkPresentation default_layouts [new_slide (mkLayout "Title Slide" [0; 1]%nat)].

Definition template_fs : FileSystem :=
  mkFS "/work" (<["/work/base.pptx" := PptxFile one_slide_deck]> (files work_fs)).

Definition quarterly : ChartDataDict :=
  chart_dict ["Q1"; "Q2"] [("Sales", [10; 20])].

(** [categories=["Q1","Q2"]] with a series [values=[1,2,3]]. *)
Definition mismatched : ChartDataDict :=
  chart_dict ["Q1"; "Q2"] [("Sales", [1; 2; 3])].

Definition mixed_script : list Call :=
  [ AddTitleSlide "Deck" "Overview" "Team";
    AddSectionSlide "Intro" (Some (31, 73, 125));
    AddContentSlide "Steps" ["A"; "B"] "numbered";
    AddTwoColumnSlide "Pro and con" ["a"] ["b"; "c"];
    AddImageSlide "Picture" "missing.png" "caption";
    AddChartSlide "Sales" quarterly "line" ].

(** Every [add_*] method either raises at the layout lookup, leaving the
    object as it was, or appends exactly one slide, whether or not it
    raises afterwards. *)
Definition appends_one (m : M nat) : Prop :=
  forall self,
    (exists e, m self = (inl e, self)) \/
    (exists slide r, m self = (r, appended self slide)
                     /\ (forall n, r = inr n -> n = slide_count self)).

(** ** Further notions used by the properties *)

(** The number of the layout a call asks the presentation for. *)
Definition layout_index (c : Call) : nat :=
  match c with
  | AddTitleSlide _ _ _ => 0
  | AddContentSlide _ _ _ => 1
  | AddTwoColumnSlide _ _ _ => 3
  | AddImageSlide _ _ _ => 6
  | AddChartSlide _ _ _ => 5
  | AddSectionSlide _ _ => 2
  end%nat.

(** Whether the method starts with [slide.shapes.title]; only
    [add_image_slide] draws its title in a text box of its own. *)
Definition uses_title_placeholder (c : Call) : bool :=
  match c with
  | AddImageSlide _ _ _ => false
  | _ => true
  end.

(** Everything of the generator but the list of slides. *)
Definition same_settings (a b : PPTGenerator) : Prop :=
  slide_layouts (presentation a) = slide_layouts (presentation b)
  /\ title_font_size a = title_font_size b
  /\ subtitle_font_size a = subtitle_font_size b
  /\ content_font_size a = content_font_size b
  /\ primary_color a = primary_color b
  /\ accent_color a = accent_color b.

(** The paragraph texts of the placeholder with the given [idx]. *)
Definition placeholder_texts (idx : nat) (s : Slide) : option (list string) :=
  option_map (List.map p_text) (placeholder_text_frame idx s).

(** A generator opened on a template that offers three layouts only. *)
Definition three_layout_generator : PPTGenerator :=
  mkGen (mkPresentation (take 3 default_layouts) [])
        (Pt 44) (Pt 28) (Pt 18) (mkRGB 31 73 125) (mkRGB 79 129 189).

(** A generator opened on a template whose layouts have no placeholder. *)
Definition bare_layout_generator : PPTGenerator :=
  mkGen (mkPresentation (replicate 7 (mkLayout "Bare" [])) [])
        (Pt 44) (Pt 28) (Pt 18) (mkRGB 31 73 125) (mkRGB 79 129 189).

(** A computation on a slide keeps the slide's layout and its placeholders:
    it may add other shapes and change text, nothing else. *)
Definition keeps_placeholders {A} (m : SlideM A) : Prop :=
  forall s,
    slide_layout (snd (m s)) = slide_layout s
    /\ omap ph_idx (shapes (snd (m s))) = omap ph_idx (shapes s).

(** The first paragraph of the title placeholder. *)
Definition title_paragraph (s : Slide) : option Paragraph :=
  match placeholder_text_frame 0 s with
  | Some (p :: _) => Some p
  | _ => None
  end.

(** The key a series dictionary lacks, ["name"] being looked up first. *)
Definition missing_key (s : SeriesDict) : option string :=
  match series_name s, series_values s with
  | None, _ => Some "name"
  | Some _, None => Some "values"
  | Some _, Some _ => None
  end.

(** The texts of a frame filled from [items]: a cleared frame keeps one
    empty paragraph when there is no item. *)
Definition texts_or_blank (items : list string) : list string :=
  match items with
  | [] => [""]
  | _ :: _ => items
  end.

(** The character formatting the content loops give a paragraph. *)
Definition content_formatted (self : PPTGenerator) (p : Paragraph) : Prop :=
  p_font_size p = Some (content_font_size self)
  /\ p_font_color p = Some (mkRGB 64 64 64).

(** Generators opened on templates whose layouts are all of one shape:
    title and one body, title only, title and a body with [idx] 13. *)
Definition single_body_generator : PPTGenerator :=
  mkGen (mkPresentation (replicate 7 (mkLayout "Title and Content" [0; 1]%nat)) [])
        (Pt 44) (Pt 28) (Pt 18) (mkRGB 31 73 125) (mkRGB 79 129 189).

Definition title_only_generator : PPTGenerator :=
  mkGen (mkPresentation (replicate 7 (mkLayout "Title Only" [0%nat])) [])
        (Pt 44) (Pt 28) (Pt 18) (mkRGB 31 73 125) (mkRGB 79 129 189).

Definition custom_idx_generator : PPTGenerator :=
  mkGen (mkPresentation (replicate 7 (mkLayout "Custom" [0; 13]%nat)) [])
        (Pt 44) (Pt 28) (Pt 18) (mkRGB 31 73 125) (mkRGB 79 129 189).

(** The working directory with an image in it. *)
Definition photo_fs : FileSystem :=
  mkFS "/work" (<["/work/photo.png" := ImageFile]> (files work_fs)).

(** ** The example scripts

    [create_simple_presentation], [create_sample_devops_presentation],
    [create_comprehensive_demo] and [create_python_introduction_ppt] have
    one shape: a new generator, a theme or none, a straight sequence of
    [add_*] calls with literal arguments, and [save] under a fixed or
    time-stamped name, whose result they return.  An exception anywhere ends
    the script.  Strings are the UTF-8 bytes of the source literals; what
    the scripts print is not modelled. *)

Definition run_script (fs : FileSystem) (theme : option ((Z * Z * Z) * (Z * Z * Z)))
    (calls : list Call) (filename : string) : (exception + string) * FileSystem :=
  match __init__ fs None with
  | inl e => (inl e, fs)
  | inr ppt =>
      match (match theme with
             | Some (primary, accent) => set_theme_colors primary accent
             | None => ret tt
             end ;;; run_calls fs calls) ppt with
      | (inl e, _) => (inl e, fs)
      | (inr _, ppt) =>
          match save filename fs ppt with
          | (inl e, _, fs') => (inl e, fs')
          | (inr saved_path, _, fs') => (inr saved_path, fs')
          end
      end
  end.

Definition simple_calls : list Call :=
  [ AddTitleSlide "My First PowerPoint" "Created with Python" "Python Developer";
    AddContentSlide "Why Use Python for PPT?"
      [ "Automation saves time";
        "Consistent formatting";
        "Data-driven presentations";
        "Integration with other tools";
        "Version control friendly" ]
      "bullet";
    AddTwoColumnSlide "Pros and Cons"
      [ "Pros:";
        "• Fast creation";
        "• Reproducible";
        "• Scriptable";
        "• Customizable" ]
      [ "Cons:";
        "• Learning curve";
        "• Limited design flexibility";
        "• Requires programming knowledge" ];
    AddSectionSlide "Thank You!" None ].

Definition devops_calls : list Call :=
  [ AddTitleSlide "DevOps Best Practices 2025" "Automation, CI/CD, and Infrastructure as Code" "DevOps Team";
    AddSectionSlide "Introduction" (Some (31, 73, 125));
    AddContentSlide "What is DevOps?"
      [ "Cultural and professional movement focused on collaboration";
        "Emphasizes communication between development and operations";
        "Automates processes and infrastructure";
        "Improves deployment frequency and reliability";
        "Reduces time to market for new features" ]
      "bullet";
    AddTwoColumnSlide "DevOps: Benefits vs Challenges"
      [ "Benefits:";
        "‚Ä¢ Faster deployment cycles";
        "‚Ä¢ Improved collaboration";
        "‚Ä¢ Higher quality software";
        "‚Ä¢ Better customer satisfaction";
        "‚Ä¢ Reduced costs" ]
      [ "Challenges:";
        "‚Ä¢ Cultural resistance";
        "‚Ä¢ Tool complexity";
        "‚Ä¢ Security concerns";
        "‚Ä¢ Skill gaps";
        "‚Ä¢ Legacy system integration" ];
    AddSectionSlide "CI/CD Pipeline" (Some (79, 129, 189));
    AddContentSlide "CI/CD Pipeline Stages"
      [ "Source Code Management (Git, GitLab, GitHub)";
        "Build Automation (Maven, Gradle, npm)";
        "Automated Testing (Unit, Integration, E2E)";
        "Code Quality Analysis (SonarQube, ESLint)";
        "Artifact Repository (Nexus, Artifactory)";
        "Deployment Automation (Jenkins, GitLab CI, GitHub Actions)";
        "Monitoring and Feedback (Prometheus, Grafana)" ]
      "bullet";
    AddChartSlide "Deployment Frequency Comparison"
      (chart_dict
         [ "Traditional";
            "Agile";
            "DevOps";
            "Elite DevOps" ]
         [ ("Deployments per Month", [1; 4; 30; 200]) ])
      "column";
    AddSectionSlide "Infrastructure as Code" (Some (125, 73, 31));
    AddContentSlide "Infrastructure as Code Tools"
      [ "Terraform - Multi-cloud infrastructure provisioning";
        "AWS CloudFormation - AWS native IaC";
        "Azure Resource Manager - Azure native templates";
        "Ansible - Configuration management and automation";
        "Kubernetes - Container orchestration";
        "Docker - Containerization platform";
        "Helm - Kubernetes package manager" ]
      "bullet";
    AddSectionSlide "Monitoring & Observability" (Some (189, 129, 79));
    AddTwoColumnSlide "Monitoring Stack"
      [ "Metrics & Monitoring:";
        "‚Ä¢ Prometheus";
        "‚Ä¢ Grafana";
        "‚Ä¢ DataDog";
        "‚Ä¢ New Relic";
        "‚Ä¢ CloudWatch" ]
      [ "Logging & Tracing:";
        "‚Ä¢ ELK Stack (Elasticsearch, Logstash, Kibana)";
        "‚Ä¢ Fluentd";
        "‚Ä¢ Jaeger";
        "‚Ä¢ Zipkin";
        "‚Ä¢ Splunk" ];
    AddContentSlide "DevOps Best Practices"
      [ "Start small and iterate - Begin with pilot projects";
        "Automate everything - Reduce manual processes";
        "Implement comprehensive monitoring";
        "Foster collaboration culture";
        "Practice infrastructure as code";
        "Maintain security throughout (DevSecOps)";
        "Continuously learn and improve" ]
      "bullet";
    AddContentSlide "Key Takeaways"
      [ "DevOps is a cultural transformation, not just tooling";
        "Start with small, manageable improvements";
        "Invest in automation and monitoring";
        "Focus on collaboration and communication";
        "Security should be integrated, not an afterthought";
        "Continuous learning and adaptation are essential" ]
      "bullet";
    AddTitleSlide "Thank You!" "Questions & Discussion" "DevOps Team" ].

Definition demo_calls : list Call :=
  [ AddTitleSlide "PowerPoint Generator Demo" "Showcasing All Features and Capabilities" "Python Automation Team";
    AddSectionSlide "Introduction" (Some (45, 85, 140));
    AddContentSlide "Key Features"
      [ "Programmatic PowerPoint creation";
        "Multiple slide layouts and types";
        "Chart generation (column, line, pie)";
        "Image integration with captions";
        "Two-column layouts for comparisons";
        "Section dividers with custom colors";
        "Professional formatting and themes";
        "Perfect for automation and CI/CD" ]
      "bullet";
    AddTwoColumnSlide "Manual vs Automated Presentations"
      [ "Manual Creation:";
        "• Time-consuming";
        "• Inconsistent formatting";
        "• Error-prone";
        "• Hard to reproduce";
        "• Limited automation";
        "• Manual data updates" ]
      [ "Automated Creation:";
        "• Fast and efficient";
        "• Consistent formatting";
        "• Reliable and repeatable";
        "• Version controlled";
        "• CI/CD integration";
        "• Real-time data updates" ];
    AddSectionSlide "Chart Capabilities" (Some (70, 130, 200));
    AddChartSlide "Quarterly Performance"
      (chart_dict
         [ "Q1 2024";
            "Q2 2024";
            "Q3 2024";
            "Q4 2024" ]
         [ ("Revenue ($M)", [120; 145; 162; 188]);
           ("Costs ($M)", [80; 90; 95; 105]) ])
      "column";
    AddChartSlide "Website Traffic Trends"
      (chart_dict
         [ "Jan";
            "Feb";
            "Mar";
            "Apr";
            "May";
            "Jun" ]
         [ ("Website Traffic", [1200; 1350; 1100; 1800; 2100; 2400]) ])
      "line";
    AddChartSlide "Device Usage Distribution"
      (chart_dict
         [ "Desktop";
            "Mobile";
            "Tablet" ]
         [ ("Usage Share", [45; 40; 15]) ])
      "pie";
    AddSectionSlide "Technical Implementation" (Some (140, 85, 45));
    AddContentSlide "Implementation Details"
      [ "Built with python-pptx library";
        "Object-oriented design for extensibility";
        "Support for custom templates";
        "Configurable themes and colors";
        "Type hints for better development experience";
        "Error handling and validation";
        "Cross-platform compatibility";
        "Minimal external dependencies" ]
      "bullet";
    AddSectionSlide "Code Examples" (Some (85, 140, 45));
    AddContentSlide "Simple Usage Example"
      [ "from ppt_generator import PPTGenerator";
        "";
        "# Create presentation";
        "ppt = PPTGenerator()";
        "";
        "# Add slides";
        "ppt.add_title_slide('Title', 'Subtitle')";
        "ppt.add_content_slide('Points', ['A', 'B', 'C'])";
        "";
        "# Save presentation";
        "ppt.save('presentation.pptx')" ]
      "bullet";
    AddTwoColumnSlide "Advanced Features"
      [ "Customization:";
        "• Custom color themes";
        "• Font size control";
        "• Layout variations";
        "• Template support";
        "• Background colors" ]
      [ "Integration:";
        "• CI/CD pipelines";
        "• Data visualization";
        "• Report automation";
        "• Dashboard exports";
        "• API integrations" ];
    AddSectionSlide "Use Cases" (Some (200, 130, 70));
    AddContentSlide "DevOps & Automation Use Cases"
      [ "Automated status reports from CI/CD pipelines";
        "Infrastructure documentation generation";
        "Performance metrics visualization";
        "Incident post-mortem presentations";
        "Sprint review and retrospective slides";
        "Architecture documentation";
        "Training material generation";
        "Compliance and audit reports" ]
      "bullet";
    AddContentSlide "Business & Analytics Use Cases"
      [ "KPI dashboard exports";
        "Monthly/quarterly business reviews";
        "A/B testing results presentation";
        "Customer analytics reports";
        "Sales performance tracking";
        "Market research summaries";
        "Financial reporting automation";
        "Executive summary generation" ]
      "bullet";
    AddSectionSlide "Performance & Benefits" (Some (130, 200, 70));
    AddChartSlide "Efficiency Comparison"
      (chart_dict
         [ "Manual Creation";
            "Automated Creation" ]
         [ ("Time (minutes)", [120; 2]);
           ("Error Rate (%)", [15; 1]) ])
      "column";
    AddContentSlide "Key Benefits"
      [ "Time Savings: 98% reduction in creation time";
        "Consistency: Uniform formatting across all presentations";
        "Reliability: Automated processes reduce human error";
        "Scalability: Generate hundreds of presentations effortlessly";
        "Integration: Seamless CI/CD and data pipeline integration";
        "Maintenance: Version controlled, easy to update";
        "Accessibility: No PowerPoint license required for generation";
        "Data-driven: Real-time data integration capabilities" ]
      "bullet";
    AddContentSlide "Future Enhancements"
      [ "Additional chart types (scatter, bubble, radar)";
        "Advanced image manipulation and positioning";
        "Table generation and formatting";
        "Animation and transition support";
        "Multiple template support";
        "Web-based interface";
        "API endpoints for remote generation";
        "Integration with popular data sources" ]
      "bullet";
    AddSectionSlide "Conclusion" (Some (45, 85, 140));
    AddContentSlide "Summary"
      [ "PowerPoint Generator enables programmatic presentation creation";
        "Perfect for DevOps automation and data-driven workflows";
        "Significant time savings and improved consistency";
        "Easy to integrate into existing development processes";
        "Extensible and customizable for specific needs";
        "Professional results with minimal effort";
        "Ideal for teams embracing automation culture" ]
      "bullet";
    AddTitleSlide "Thank You!" ("Questions & Discussion" +:+ LF +:+ "" +:+ LF +:+ "Start automating your presentations today!") "PowerPoint Generator Team" ].

Definition python_introduction_calls : list Call :=
  [ AddTitleSlide "Introduction to Python Programming" ("Your Journey into the World's Most Popular Programming Language" +:+ LF +:+ "" +:+ LF +:+ "From Beginner to Developer") "Python Programming Course";
    AddContentSlide "What We'll Cover Today"
      [ "What is Python? - Understanding the Language";
        "Why Choose Python? - Benefits and Advantages";
        "Real-World Applications - Where Python Shines";
        "Installation Guide - Step-by-Step Setup";
        "Your First Python Program - Hello World!";
        "Development Environment - VS Code Setup";
        "Next Steps - Your Python Journey" ]
      "bullet";
    AddSectionSlide "What is Python?" (Some (55, 118, 171));
    AddContentSlide "What is Python?"
      [ "One of the most popular programming languages today";
        "Beginner-friendly with simple and readable syntax";
        "Requires fewer lines of code compared to C++ or Java";
        "High-level, interpreted programming language";
        "Created by Guido van Rossum in 1991";
        "Named after 'Monty Python's Flying Circus'";
        "Open-source and completely free to use" ]
      "bullet";
    AddTwoColumnSlide "Python vs Other Languages"
      [ "Python Code:";
        "print('Hello, World!')";
        "";
        "# Simple and readable";
        "# Just 1 line of code";
        "# No complex syntax";
        "# Beginner-friendly" ]
      [ "Java Code:";
        "public class HelloWorld {";
        "  public static void main(";
        "    String[] args) {";
        "    System.out.println(";
        "      'Hello, World!');";
        "  }";
        "}" ];
    AddContentSlide "Why Choose Python?"
      [ "🚀 Easy to Learn - Simple, English-like syntax";
        "📚 Extensive Libraries - Thousands of pre-built modules";
        "🌍 Cross-Platform - Works on Windows, Mac, and Linux";
        "👥 Large Community - Millions of developers worldwide";
        "💼 High Demand - Top-paying programming jobs";
        "🔧 Versatile - Used in many different fields";
        "🆓 Open Source - Free to use and modify" ]
      "bullet";
    AddSectionSlide "Real-World Applications" (Some (255, 212, 59));
    AddContentSlide "Where Python is Used"
      [ "🌐 Web Development - Django, Flask frameworks";
        "🤖 Data Science & AI - Pandas, NumPy, TensorFlow";
        "⚙️ Automation & DevOps - Scripting, CI/CD pipelines";
        "🎮 Game Development - Pygame, Panda3D";
        "📱 Desktop Applications - Tkinter, PyQt";
        "🔬 Scientific Computing - SciPy, Matplotlib";
        "🔐 Cybersecurity - Penetration testing, security tools" ]
      "bullet";
    AddTwoColumnSlide "Companies Using Python"
      [ "Tech Giants:";
        "• Google - Search, YouTube";
        "• Netflix - Recommendation engine";
        "• Instagram - Backend systems";
        "• Spotify - Data analysis";
        "• Uber - Dynamic pricing" ]
      [ "Other Industries:";
        "• NASA - Space missions";
        "• Bank of America - Trading";
        "• Pixar - Animation tools";
        "• Dropbox - File sync";
        "• Reddit - Platform backend" ];
    AddChartSlide "Python's Growing Popularity"
      (chart_dict
         [ "2019";
            "2020";
            "2021";
            "2022";
            "2023";
            "2024" ]
         [ ("Python Popularity Index", [85; 88; 92; 95; 98; 100]) ])
      "line";
    AddSectionSlide "Installation Guide" (Some (171, 55, 118));
    AddContentSlide "Installation Steps Overview"
      [ "Step 1: Download Python from python.org";
        "Step 2: Run the installer (important settings!)";
        "Step 3: Verify installation works";
        "Step 4: Install VS Code editor";
        "Step 5: Install Python extension";
        "Step 6: Create your first program";
        "Step 7: Run and celebrate! 🎉" ]
      "bullet";
    AddContentSlide "Step 1: Download Python"
      [ "🌐 Go to python.org/downloads";
        "📥 Click 'Download Python' (latest version)";
        "💡 Tip: Always download the latest stable version";
        "✅ Recommended: Python 3.11+ or 3.12+";
        "⚠️ Avoid Python 2.x (deprecated)";
        "📱 Available for Windows, Mac, and Linux";
        "🔒 Official downloads are safe and verified" ]
      "bullet";
    AddTwoColumnSlide "Step 2: Install Python"
      [ "Windows Installation:";
        "• Run the downloaded .exe file";
        "• ✅ Check 'Add Python to PATH'";
        "• ✅ Check 'Install for all users'";
        "• Click 'Install Now'";
        "• Wait for completion" ]
      [ "Mac/Linux Installation:";
        "• Mac: Run the .pkg file";
        "• Linux: Use package manager";
        "• Ubuntu: sudo apt install python3";
        "• Follow installation prompts";
        "• Python may be pre-installed" ];
    AddContentSlide "Step 3: Verify Installation"
      [ "Open Command Prompt (Windows) or Terminal (Mac/Linux)";
        "Type: python --version";
        "Or try: python3 --version";
        "You should see: Python 3.x.x";
        "If it works: ✅ Installation successful!";
        "If not working: Check PATH settings";
        "Alternative: Type 'python' to enter interactive mode" ]
      "bullet";
    AddContentSlide "Step 4: Install VS Code"
      [ "🌐 Download from code.visualstudio.com";
        "🎯 VS Code is free and highly recommended";
        "📦 Install the Python Extension (by Microsoft)";
        "🔧 Extensions → Search 'Python' → Install";
        "✨ Features: Syntax highlighting, debugging, IntelliSense";
        "🎨 Customize with themes and extensions";
        "💡 Alternative editors: PyCharm, Sublime Text, Atom" ]
      "bullet";
    AddSectionSlide "Your First Python Program" (Some (118, 171, 55));
    AddContentSlide "Step 5: Create Your First Program"
      [ "In VS Code, create a new file";
        "Save it as 'hello.py'";
        "Type: print('Hello, World!')";
        "Save the file (Ctrl+S or Cmd+S)";
        "Right-click → 'Run Python File in Terminal'";
        "Or use terminal: python hello.py";
        "Congratulations! You're now a Python programmer! 🎉" ]
      "bullet";
    AddTwoColumnSlide "Basic Python Concepts"
      [ "Variables & Data Types:";
        "name = 'John'  # String";
        "age = 25       # Integer";
        "height = 5.9   # Float";
        "is_student = True # Boolean";
        "";
        "Print & Input:";
        "print('Hello!')";
        "name = input('Your name: ')" ]
      [ "Lists & Operations:";
        "fruits = ['apple', 'banana']";
        "fruits.append('orange')";
        "print(fruits[0])  # apple";
        "";
        "Simple Functions:";
        "def greet(name):";
        "    return f'Hello, {name}!'";
        "print(greet('World'))" ];
    AddContentSlide "Fun Practice Projects"
      [ "🎲 Number Guessing Game - Random numbers and loops";
        "🧮 Simple Calculator - Basic math operations";
        "📝 To-Do List - Lists and user input";
        "🌡️ Temperature Converter - Functions and formulas";
        "📊 Grade Calculator - Conditionals and averages";
        "🎵 Rock Paper Scissors - Logic and randomness";
        "📚 Personal Library - File handling and data" ]
      "bullet";
    AddSectionSlide "Next Steps & Resources" (Some (212, 171, 55));
    AddContentSlide "Your Python Learning Journey"
      [ "📖 Week 1-2: Basic syntax, variables, data types";
        "🔄 Week 3-4: Loops, conditionals, functions";
        "📚 Week 5-6: Lists, dictionaries, file handling";
        "🎯 Week 7-8: Object-oriented programming";
        "🌐 Week 9-10: Web development or data science";
        "🚀 Week 11-12: Build real projects";
        "💼 Month 4+: Specialize in your area of interest" ]
      "bullet";
    AddTwoColumnSlide "Learning Resources"
      [ "Free Online Resources:";
        "• Python.org tutorial";
        "• freeCodeCamp Python course";
        "• Codecademy Python track";
        "• YouTube Python tutorials";
        "• W3Schools Python section";
        "• Real Python website" ]
      [ "Books & Paid Courses:";
        "• 'Automate the Boring Stuff'";
        "• 'Python Crash Course'";
        "• Udemy Python courses";
        "• Coursera Python specialization";
        "• edX MIT Python course";
        "• PyCharm educational edition" ];
    AddChartSlide "Python Career Opportunities"
      (chart_dict
         [ "Python Developer";
            "Data Scientist";
            "DevOps Engineer";
            "AI/ML Engineer";
            "Web Developer" ]
         [ ("Average Salary (USD)", [95000; 120000; 110000; 130000; 85000]) ])
      "column";
    AddContentSlide "Tips for Python Success"
      [ "💪 Practice Daily - Even 30 minutes makes a difference";
        "🏗️ Build Projects - Apply what you learn immediately";
        "🤝 Join Communities - Stack Overflow, Reddit r/Python";
        "📖 Read Others' Code - Learn from open-source projects";
        "🐛 Debug Fearlessly - Errors are learning opportunities";
        "📚 Stay Curious - Explore new libraries and frameworks";
        "🎯 Focus on Fundamentals - Master the basics first" ]
      "bullet";
    AddTwoColumnSlide "Common Mistakes to Avoid"
      [ "❌ Common Mistakes:";
        "• Skipping error messages";
        "• Not using version control";
        "• Trying to memorize everything";
        "• Jumping to advanced topics";
        "• Not practicing regularly";
        "• Giving up too quickly" ]
      [ "✅ Best Practices:";
        "• Read error messages carefully";
        "• Use Git from day one";
        "• Focus on understanding";
        "• Master basics first";
        "• Code every day";
        "• Be patient with yourself" ];
    AddContentSlide "Why You'll Love Python"
      [ "🎯 Quick Results - See your programs work immediately";
        "🌟 Endless Possibilities - From games to AI to websites";
        "👥 Amazing Community - Helpful and welcoming developers";
        "📈 Career Growth - High-demand, well-paying opportunities";
        "🧠 Problem Solving - Develops logical thinking skills";
        "🔄 Continuous Learning - Always something new to discover";
        "🎉 Fun Factor - Programming can be genuinely enjoyable!" ]
      "bullet";
    AddSectionSlide "Conclusion" (Some (55, 118, 171));
    AddContentSlide "Key Takeaways"
      [ "🐍 Python is beginner-friendly and powerful";
        "🌍 Used by top companies worldwide";
        "📥 Easy to install and get started";
        "💻 VS Code is an excellent development environment";
        "🚀 Start with simple programs and build up";
        "📚 Abundant learning resources available";
        "💼 Excellent career opportunities await";
        "🎯 Your Python journey starts today!" ]
      "bullet";
    AddTitleSlide "Thank You!" ("Welcome to the Python Community!" +:+ LF +:+ "" +:+ LF +:+ "🐍 Happy Coding! 🐍" +:+ LF +:+ "" +:+ LF +:+ "Questions & Discussion") "Python Programming Course Team" ].

(** [create_simple_presentation()] of [simple_ppt_example.py] *)
Definition create_simple_presentation (fs : FileSystem) : (exception + string) * FileSystem :=
  run_script fs None simple_calls "simple_example.pptx".

(** [create_sample_devops_presentation()]; [now] is the value of
    [datetime.now().strftime('%Y%m%d_%H%M%S')]. *)
Definition create_sample_devops_presentation (now : string) (fs : FileSystem)
  : (exception + string) * FileSystem :=
  run_script fs (Some ((31, 73, 125), (79, 129, 189))) devops_calls
    ("devops_presentation_" +:+ now +:+ ".pptx").

(** [create_comprehensive_demo()] of [demo_all_features.py] *)
Definition create_comprehensive_demo (now : string) (fs : FileSystem)
  : (exception + string) * FileSystem :=
  run_script fs (Some ((45, 85, 140), (70, 130, 200))) demo_calls
    ("comprehensive_demo_" +:+ now +:+ ".pptx").

(** [create_python_introduction_ppt()] of [python_introduction_ppt.py] *)
Definition create_python_introduction_ppt (now : string) (fs : FileSystem)
  : (exception + string) * FileSystem :=
  run_script fs (Some ((55, 118, 171), (255, 212, 59))) python_introduction_calls
    ("python_introduction_" +:+ now +:+ ".pptx").

(** An entry of the list [run_all_examples] collects. *)
Record Example : Type := mkExample {
  example_name : string;
  example_path : string;
  example_description : string
}.

(** One [try: ... examples.append({...}) except Exception: ...] block. *)
Definition try_example (name description : string)
    (create : FileSystem -> (exception + string) * FileSystem)
    (state : list Example * FileSystem) : list Example * FileSystem :=
  let '(examples, fs) := state in
  match create fs with
  | (inr path, fs') => ((examples ++ [mkExample name path description])%list, fs')
  | (inl _, fs') => (examples, fs')
  end.

(** [run_all_examples()] of [run_all_examples.py]; the two time stamps are
    the clock readings of the second and the third script. *)
Definition run_all_examples (now_devops now_demo : string) (fs : FileSystem)
  : list Example * FileSystem :=
  let state := ([], fs) in
  let state :=
    try_example "Simple Example" "Basic demonstration with 4 slides"
      create_simple_presentation state in
  let state :=
    try_example "DevOps Best Practices" "Comprehensive DevOps presentation with charts"
      (create_sample_devops_presentation now_devops) state in
  let state :=
    try_example "Comprehensive Demo" "23-slide showcase of all features"
      (create_comprehensive_demo now_demo) state in
  state.

(** The generator a script has built when it reaches [save]. *)
Definition script_generator (theme : option ((Z * Z * Z) * (Z * Z * Z)))
    (calls : list Call) : PPTGenerator :=
  snd ((match theme with
        | Some (primary, accent) => set_theme_colors primary accent
        | None => ret tt
        end ;;; run_calls work_fs calls) blank_generator).

(** The names of the layouts of the slides, in order. *)
Definition layout_names (prs : Presentation) : list string :=
  (fun s => layout_name (slide_layout s)) <$> slides prs.

(** The chart types of the charts of a deck, slide by slide. *)
Definition deck_chart_types (prs : Presentation) : list XL_CHART_TYPE :=
  concat (chart_types <$> slides prs).

(** What a script leaves when [save] is its last step: the path and the
    written deck, or the error of [save] and the store as it was. *)
Definition saved_or_raised (fs : FileSystem) (path : string) (prs : Presentation)
  : (exception + string) * FileSystem :=
  if can_write fs path then (inr path, written fs path prs)
  else (inl (OSError path), fs).

(** The working directory with a directory in the place of the file the
    DevOps script of 1 January 2025, noon, would write. *)
Definition blocked_fs : FileSystem :=
  mkFS "/work"
       (<["/work/devops_presentation_20250101_120000.pptx" := Directory]> (files work_fs)).

(** ** The interactive builder

    [create_custom_presentation] and [main] talk to the user through
    [input].  The world they run in holds the answers still to come, each
    already stripped as by [input(...).strip()], the file store, and the
    number of clock readings taken so far; [clock n] is the time stamp the
    [n]-th reading formats.  What the functions print is not modelled. *)

Record World : Type := mkWorld {
  stdin : list string;
  world_fs : FileSystem;
  ticks : nat
}.

Definition set_stdin (answers : list string) (w : World) : World :=
  mkWorld answers (world_fs w) (ticks w).
Definition set_world_fs (fs : FileSystem) (w : World) : World :=
  mkWorld (stdin w) fs (ticks w).

(** How an interactive function ends without returning: [input] at the end
    of the answers, an exception nothing catches, or, in the model only, a
    loop that used up its budget of iterations. *)
Inductive Stop : Type :=
| EOFError
| Uncaught (e : exception)
| OutOfFuel.

Definition IO (A : Type) : Type := World -> (Stop + A) * World.

Definition io_ret {A} (a : A) : IO A := fun w => (inr a, w).

Definition io_bind {A B} (m : IO A) (k : A -> IO B) : IO B :=
  fun w =>
    match m w with
    | (inr a, w') => k a w'
    | (inl stop, w') => (inl stop, w')
    end.

Declare Scope io_scope.
Delimit Scope io_scope with io.
Notation "x <~ c1 ;; c2" := (io_bind c1 (fun x => c2))
  (at level 100, c1 at next level, right associativity) : io_scope.

(** [input(prompt).strip()] *)
Definition input : IO string :=
  fun w =>
    match stdin w with
    | [] => (inl EOFError, w)
    | answer :: rest => (inr answer, set_stdin rest w)
    end.

(** [datetime.now().strftime('%Y%m%d_%H%M%S')] *)
Definition strftime_now (clock : nat -> string) : IO string :=
  fun w => (inr (clock (ticks w)), mkWorld (stdin w) (world_fs w) (S (ticks w))).

(** A method call on the local generator [ppt]: the generator after the
    call, or the exception, which nothing in the caller catches. *)
Definition call {A} (m : M A) (ppt : PPTGenerator) : IO PPTGenerator :=
  fun w =>
    match m ppt with
    | (inr _, ppt') => (inr ppt', w)
    | (inl e, _) => (inl (Uncaught e), w)
    end.

(** The loop that reads points until an empty answer:
    [while True: point = input(...).strip(); if not point: break;
    content.append(point)]. *)
Fixpoint read_points_from (answers : list string) : (Stop + list string) * list string :=
  match answers with
  | [] => (inl EOFError, [])
  | point :: rest =>
      if truthy point then
        match read_points_from rest with
        | (inr content, rest') => (inr (point :: content), rest')
        | (inl stop, rest') => (inl stop, rest')
        end
      else (inr [], rest)
  end.

Definition read_points : IO (list string) :=
  fun w => let '(r, rest) := read_points_from (stdin w) in (r, set_stdin rest w).

(** Truthiness of a Python list. *)
Definition nonempty {A} (l : list A) : bool :=
  match l with
  | [] => false
  | _ :: _ => true
  end.

(** The menu loop of [create_custom_presentation]; [fuel] bounds the
    number of iterations. *)
Fixpoint custom_loop (clock : nat -> string) (fuel : nat) (ppt : PPTGenerator) : IO unit :=
  match fuel with
  | O => fun w => (inl OutOfFuel, w)
  | S fuel =>
      (slide_choice <~ input ;;
       if String.eqb slide_choice "1" then
         slide_title <~ input ;;
         content <~ read_points ;;
         ppt <~ (if nonempty content
                 then call (add_content_slide slide_title content "bullet") ppt
                 else io_ret ppt) ;;
         custom_loop clock fuel ppt
       else if String.eqb slide_choice "2" then
         slide_title <~ input ;;
         left_content <~ read_points ;;
         right_content <~ read_points ;;
         ppt <~ (if nonempty left_content || nonempty right_content
                 then call (add_two_column_slide slide_title left_content right_content) ppt
                 else io_ret ppt) ;;
         custom_loop clock fuel ppt
       else if String.eqb slide_choice "3" then
         section_title <~ input ;;
         ppt <~ (if truthy section_title
                 then call (add_section_slide section_title None) ppt
                 else io_ret ppt) ;;
         custom_loop clock fuel ppt
       else if String.eqb slide_choice "4" then
         filename <~ input ;;
         filename <~ (if truthy filename then io_ret filename
                      else now <~ strftime_now clock ;;
                           io_ret ("custom_presentation_" +:+ now)) ;;
         fun w =>
           match save filename (world_fs w) ppt with
           | (inr _, _, fs') => (inr tt, set_world_fs fs' w)
           | (inl _, _, fs') => custom_loop clock fuel ppt (set_world_fs fs' w)
           end
       else custom_loop clock fuel ppt)%io
  end.

(** [create_custom_presentation()]: every iteration of the menu loop reads
    an answer, so one more than the number of answers is budget enough. *)
Definition create_custom_presentation (clock : nat -> string) : IO unit :=
  fun w =>
    match __init__ (world_fs w) None with
    | inl e => (inl (Uncaught e), w)
    | inr ppt =>
        (title <~ input ;;
         subtitle <~ input ;;
         author <~ input ;;
         ppt <~ call (add_title_slide title subtitle author) ppt ;;
         fun w => custom_loop clock (S (length (stdin w))) ppt w)%io w
    end.

(** The menu loop of [main]. *)
Fixpoint main_loop (clock : nat -> string) (fuel : nat) : IO unit :=
  match fuel with
  | O => fun w => (inl OutOfFuel, w)
  | S fuel =>
      (choice <~ input ;;
       if String.eqb choice "1" then
         now <~ strftime_now clock ;;
         fun w =>
           match create_sample_devops_presentation now (world_fs w) with
           | (_, fs') => main_loop clock fuel (set_world_fs fs' w)
           end
       else if String.eqb choice "2" then
         _ <~ create_custom_presentation clock ;;
         main_loop clock fuel
       else if String.eqb choice "3" then io_ret tt
       else main_loop clock fuel)%io
  end.

(** [main()] *)
Definition main (clock : nat -> string) : IO unit :=
  fun w => main_loop clock (S (length (stdin w))) w.

(** The generator works on the layouts of the default template. *)
Definition on_default_template (ppt : PPTGenerator) : Prop :=
  slide_layouts (presentation ppt) = default_layouts.

(** How an interactive session that started on file store [fs] with
    [count] slides can end: by a [save] that wrote one deck of at least
    [count] slides, or at the end of the answers with the store as it was.
    Nothing else. *)
Definition ended_well (fs : FileSystem) (count : nat) (out : (Stop + unit) * World) : Prop :=
  match fst out with
  | inr _ =>
      exists filename ppt,
        world_fs (snd out) = written fs (save_path fs filename) (presentation ppt)
        /\ (count <= slide_count ppt)%nat
  | inl EOFError => world_fs (snd out) = fs /\ stdin (snd out) = []
  | inl _ => False
  end.

(** A session ready to choose from the menu, and the shortest session. *)
Definition menu_world (answers : list string) (fs : FileSystem) : World :=
  mkWorld answers fs 0.

(** No step of a session puts answers back: what is left to read afterwards
    is a final part of what was left before. *)
Definition reads_ahead {A} (m : IO A) : Prop :=
  forall w, stdin (snd (m w)) `suffix_of` stdin w.

(** How a run of the main menu can end: by the answer "3", or at the end
    of the answers.  Nothing else. *)
Definition main_ended_well (answers : list string) (out : (Stop + unit) * World) : Prop :=
  match fst out with
  | inr _ => In "3" answers
  | inl EOFError => stdin (snd out) = []
  | inl _ => False
  end.

(** * Properties *)

Ltac st_simpl :=
  repeat (cbv beta delta [bind ret get modify lift raise when] in *; cbn beta iota in * ).

Lemma slides_add_slide_appended {A} (layout : SlideLayout) (body : SlideM A)
    (self : PPTGenerator) :
  slides_add_slide layout body self =
    (match fst (body (new_slide layout)) with
     | inr _ => inr (slide_count self)
     | inl e => inl e
     end,
     appended self (snd (body (new_slide layout)))).
Proof.
  unfold slides_add_slide, appended, slide_count.
  destruct (body (new_slide layout)) as [r slide]. reflexivity.
Qed.

Lemma appends_one_after_layout {A} (i : nat) (body : PPTGenerator -> SlideM A) :
  appends_one (self <- get ;; slide_layout <- slide_layouts_getitem i ;;
               slides_add_slide slide_layout (body self)).
Proof.
  intros self. unfold slide_layouts_getitem. st_simpl.
  destruct (slide_layouts (presentation self) !! i) as [layout|]; cbn.
  - right. rewrite slides_add_slide_appended.
    eexists _, _. split; [reflexivity|].
    intros n. destruct (fst _); congruence.
  - left. eauto.
Qed.

Lemma run_call_appends_one (fs : FileSystem) (c : Call) : appends_one (run_call fs c).
Proof.
  destruct c; cbn [run_call];
    [ unfold add_title_slide | unfold add_content_slide | unfold add_two_column_slide
    | unfold add_image_slide | unfold add_chart_slide | unfold add_section_slide ];
    apply (appends_one_after_layout _ (fun self => _)).
Qed.

Lemma slide_count_appended (self : PPTGenerator) (slide : Slide) :
  slide_count (appended self slide) = S (slide_count self).
Proof. unfold slide_count, appended. cbn. rewrite length_app. cbn. lia. Qed.

Lemma run_call_count (fs : FileSystem) (c : Call) (self self' : PPTGenerator) (n : nat) :
  run_call fs c self = (inr n, self') ->
  slide_count self' = S (slide_count self) /\ n = slide_count self.
Proof.
  intros Hrun. destruct (run_call_appends_one fs c self) as [[e He]|(slide & r & Hr & Hn)].
  - congruence.
  - rewrite Hr in Hrun. injection Hrun as -> <-.
    split; [apply slide_count_appended | by apply Hn].
Qed.

Lemma run_calls_count (fs : FileSystem) (cs : list Call) :
  forall (self self' : PPTGenerator) (refs : list nat),
    run_calls fs cs self = (inr refs, self') ->
    slide_count self' = (slide_count self + length cs)%nat.
Proof.
  induction cs as [|c cs IH]; intros self self' refs Hrun; cbn in Hrun.
  - st_simpl. injection Hrun as _ <-. cbn. lia.
  - st_simpl.
    destruct (run_call fs c self) as [[e|n] self1] eqn:Hc; [congruence|].
    destruct (run_calls fs cs self1) as [[e|ns] self2] eqn:Hcs; [congruence|].
    injection Hrun as _ <-.
    apply run_call_count in Hc as [Hc _]. apply IH in Hcs.
    cbn. lia.
Qed.

(** ** Strings and paths *)

#[local] Arguments append _ _ : simpl nomatch.
#[local] Arguments Inches _ : simpl never.
#[local] Arguments Pt _ : simpl never.
Local Open Scope list_scope.

Example abspath_relative :
  os_path_abspath "/home/user" "decks/../out.pptx" = "/home/user/out.pptx".
Proof. reflexivity. Qed.

Example abspath_double_slash : os_path_abspath "/w" "//srv/./a.pptx" = "//srv/a.pptx".
Proof. reflexivity. Qed.

Example dirname_nested : os_path_dirname "/home/user/out.pptx" = "/home/user".
Proof. reflexivity. Qed.

Example dirname_root : os_path_dirname "/out.pptx" = "/".
Proof. reflexivity. Qed.

Example split_lines : split "010"%char ("a" +:+ LF +:+ LF +:+ "b") = ["a"; ""; "b"].
Proof. reflexivity. Qed.

Lemma append_assoc (a b c : string) : (a +:+ b) +:+ c = a +:+ (b +:+ c).
Proof. induction a as [|x a IH]; simpl; [reflexivity | by f_equal]. Qed.

Lemma append_empty_r (a : string) : a +:+ "" = a.
Proof. induction a as [|x a IH]; simpl; [reflexivity | by f_equal]. Qed.

Lemma endswith_nil (suffix : string) :
  endswith "" suffix = String.eqb "" suffix.
Proof. cbn [endswith]. apply orb_false_r. Qed.

Lemma endswith_cons (c : ascii) (s suffix : string) :
  endswith (String c s) suffix = String.eqb (String c s) suffix || endswith s suffix.
Proof. reflexivity. Qed.

Lemma endswith_spec (s suffix : string) :
  endswith s suffix = true <-> exists pre, s = pre +:+ suffix.
Proof.
  induction s as [|c s IH].
  - rewrite endswith_nil, String.eqb_eq. split.
    + intros <-. by exists "".
    + intros [[|x pre] H]; cbn in H; [done | discriminate].
  - rewrite endswith_cons, orb_true_iff, String.eqb_eq, IH. split.
    + intros [<- | [pre ->]]; [by exists "" | by exists (String c pre)].
    + intros [[|x pre] H]; cbn in H; [by left |].
      injection H as -> ->. right. by exists pre.
Qed.

Lemma endswith_app (pre suffix : string) : endswith (pre +:+ suffix) suffix = true.
Proof. apply endswith_spec. by exists pre. Qed.

Lemma endswith_app_l (pre s suffix : string) :
  endswith s suffix = true -> endswith (pre +:+ s) suffix = true.
Proof.
  rewrite !endswith_spec. intros [x ->]. exists (pre +:+ x). by rewrite append_assoc.
Qed.

Lemma startswith_app (a b : string) :
  startswith a "/" = true -> startswith (a +:+ b) "/" = true.
Proof. destruct a as [|c a]; [done|]. cbn [append startswith]. by rewrite !andb_true_r. Qed.

Lemma split_nonempty (sep : ascii) (s : string) : split sep s <> [].
Proof.
  destruct s as [|c s]; cbn; [done|].
  destruct (Ascii.eqb c sep); [done|]. by destruct (split sep s).
Qed.

Lemma split_app_sep (sep : ascii) (a b : string) :
  split sep (a +:+ String sep b) = split sep a ++ split sep b.
Proof.
  induction a as [|x a IH]; cbn [append split].
  - by rewrite Ascii.eqb_refl.
  - rewrite IH. destruct (Ascii.eqb x sep); [reflexivity|].
    destruct (split sep a) as [|w ws] eqn:Hs; [by apply split_nonempty in Hs|].
    reflexivity.
Qed.







Lemma normpath_isabs (path : string) :
  isabs path = true -> isabs (os_path_normpath path) = true.
Proof.
  unfold isabs, os_path_normpath. intros H.
  destruct (String.eqb path "") eqn:He; [apply String.eqb_eq in He; by subst|].
  rewrite H.
  destruct (startswith path "//" && negb (startswith path "///")); reflexivity.
Qed.

Lemma abspath_isabs (cwd path : string) :
  isabs cwd = true -> isabs (os_path_abspath cwd path) = true.
Proof.
  intros H. unfold os_path_abspath. apply normpath_isabs.
  destruct (isabs path) eqn:Hp; [done|]. unfold os_path_join.
  fold (isabs path). rewrite Hp.
  destruct (String.eqb cwd "" || endswith cwd "/"); by apply startswith_app.
Qed.

(** ** Resolved paths *)















(** ** Slide count *)

Lemma init_without_template (fs : FileSystem) : __init__ fs None = inr blank_generator.
Proof. reflexivity. Qed.

(** C1 (amended). After a script of [add_*] calls that all return, of
    whatever slide kinds, [get_slide_count] returns the number of slides the
    presentation had before the script plus the number of calls, and leaves
    the object as it is; when the presentation had no slide before the
    script, the count is the number of calls. *)
Theorem C1_slide_count_after_appends (fs : FileSystem) (cs : list Call)
    (self self' : PPTGenerator) (refs : list nat) :
  run_calls fs cs self = (inr refs, self') ->
  get_slide_count self' = (inr (slide_count self + length cs)%nat, self')
  /\ (slides (presentation self) = [] -> get_slide_count self' = (inr (length cs), self')).
Proof.
  intros Hrun. apply run_calls_count in Hrun.
  assert (get_slide_count self' = (inr (slide_count self + length cs)%nat, self')) as Hcount.
  { unfold get_slide_count. st_simpl. fold (slide_count self'). by rewrite Hrun. }
  split; [exact Hcount|].
  intros Hempty. rewrite Hcount. unfold slide_count. by rewrite Hempty.
Qed.

Lemma C1_slide_count_after_appends_witness :
  get_slide_count (snd (run_calls work_fs mixed_script blank_generator))
  = (inr 6%nat, snd (run_calls work_fs mixed_script blank_generator)).
Proof.
  apply (C1_slide_count_after_appends work_fs mixed_script blank_generator
           (snd (run_calls work_fs mixed_script blank_generator)) [0; 1; 2; 3; 4; 5]%nat).
  - vm_compute. reflexivity.
  - reflexivity.
Defined.

(** C1 as stated fails when the generator was built on a template file that
    already holds slides: one [add_title_slide] call then gives a count
    of 2. *)
Lemma C1_counterexample_template_with_slides :
  ~ (forall (fs : FileSystem) (template_path : option string) (cs : list Call)
            (self self' : PPTGenerator) (refs : list nat),
        __init__ fs template_path = inr self ->
        run_calls fs cs self = (inr refs, self') ->
        fst (get_slide_count self') = inr (length cs)).
Proof.
  intros H.
  pose (self := mkGen one_slide_deck (Pt 44) (Pt 28) (Pt 18)
                      (mkRGB 31 73 125) (mkRGB 79 129 189)).
  specialize (H template_fs (Some "base.pptx") [AddTitleSlide "Intro" "" ""]
                self (snd (run_calls template_fs [AddTitleSlide "Intro" "" ""] self)) [1%nat]).
  assert (Hinit : __init__ template_fs (Some "base.pptx") = inr self) by (vm_compute; reflexivity).
  assert (Hrun : run_calls template_fs [AddTitleSlide "Intro" "" ""] self
                 = (inr [1%nat], snd (run_calls template_fs [AddTitleSlide "Intro" "" ""] self)))
    by (vm_compute; reflexivity).
  specialize (H Hinit Hrun). vm_compute in H. discriminate H.
Qed.

(** ** Construction *)

(** C9. A template path that does not exist makes the constructor behave
    as without template: it returns, on the blank default presentation,
    which has no slide. *)
Theorem C9_missing_template_falls_back (fs : FileSystem) (template_path : string) :
  os_path_exists fs template_path = false ->
  __init__ fs (Some template_path) = __init__ fs None
  /\ __init__ fs (Some template_path) = inr blank_generator
  /\ presentation blank_generator = default_presentation
  /\ slide_count blank_generator = 0%nat.
Proof.
  intros Hmissing. unfold __init__. rewrite Hmissing, andb_false_r. by cbn.
Qed.

Lemma C9_missing_template_falls_back_witness :
  __init__ work_fs (Some "corporate.pptx") = __init__ work_fs None
  /\ __init__ work_fs (Some "corporate.pptx") = inr blank_generator
  /\ presentation blank_generator = default_presentation
  /\ slide_count blank_generator = 0%nat.
Proof.
  apply (C9_missing_template_falls_back work_fs "corporate.pptx").
  vm_compute. reflexivity.
Defined.

(** ** Theme colours *)

Lemma RGBColor_of_tuple_valid (color : Z * Z * Z) :
  valid_color color -> RGBColor_of_tuple color = inr (rgb_of color).
Proof.
  destruct color as [[r g] b]. unfold valid_color, valid_channel, RGBColor_of_tuple, RGBColor_new.
  intros (Hr & Hg & Hb). cbn.
  assert ((0 <=? r) && (r <=? 255) = true) as -> by lia.
  assert ((0 <=? g) && (g <=? 255) = true) as -> by lia.
  assert ((0 <=? b) && (b <=? 255) = true) as -> by lia.
  reflexivity.
Qed.

Lemma RGBColor_of_tuple_invalid (color : Z * Z * Z) :
  ~ valid_color color ->
  RGBColor_of_tuple color = inl (ValueError "RGBColor() takes three integer values 0-255").
Proof.
  destruct color as [[r g] b]. unfold valid_color, valid_channel, RGBColor_of_tuple, RGBColor_new.
  intros Hbad. cbn.
  destruct ((0 <=? r) && (r <=? 255)) eqn:Hr; [|reflexivity].
  destruct ((0 <=? g) && (g <=? 255)) eqn:Hg; [|reflexivity].
  destruct ((0 <=? b) && (b <=? 255)) eqn:Hb; [|reflexivity].
  exfalso. apply Hbad. lia.
Qed.

Lemma set_theme_colors_valid (primary accent : Z * Z * Z) (self : PPTGenerator) :
  valid_color primary -> valid_color accent ->
  set_theme_colors primary accent self
  = (inr tt, set_accent_color (rgb_of accent) (set_primary_color (rgb_of primary) self)).
Proof.
  intros Hp Ha. unfold set_theme_colors. st_simpl.
  by rewrite (RGBColor_of_tuple_valid _ Hp), (RGBColor_of_tuple_valid _ Ha).
Qed.

(** C3. [set_theme_colors] with a channel outside 0..255 in either tuple
    raises the colour range error during the call; with every channel in
    0..255 it returns, and afterwards the primary colour of the object is
    the first tuple, its accent colour the second, and its presentation and
    font sizes are as before. *)
Theorem C3_set_theme_colors_range (primary accent : Z * Z * Z) (self : PPTGenerator) :
  (~ (valid_color primary /\ valid_color accent) ->
   fst (set_theme_colors primary accent self)
   = inl (ValueError "RGBColor() takes three integer values 0-255"))
  /\ (valid_color primary -> valid_color accent ->
      exists self',
        set_theme_colors primary accent self = (inr tt, self')
        /\ self' = set_accent_color (rgb_of accent) (set_primary_color (rgb_of primary) self)
        /\ self' = mkGen (presentation self) (title_font_size self)
                     (subtitle_font_size self) (content_font_size self)
                     (rgb_of primary) (rgb_of accent)
        /\ primary_color self' = rgb_of primary
        /\ accent_color self' = rgb_of accent).
Proof.
  split.
  - unfold set_theme_colors. st_simpl. intros Hbad.
    destruct (decide (valid_color primary)) as [Hp|Hp].
    + rewrite (RGBColor_of_tuple_valid _ Hp).
      rewrite RGBColor_of_tuple_invalid; [reflexivity | tauto].
    + by rewrite (RGBColor_of_tuple_invalid _ Hp).
  - intros Hp Ha. eexists. split; [by apply set_theme_colors_valid|].
    by repeat split.
Qed.

Lemma C3_set_theme_colors_range_witness :
  fst (set_theme_colors (256, 0, 0) (79, 129, 189) blank_generator)
  = inl (ValueError "RGBColor() takes three integer values 0-255")
  /\ exists self',
       set_theme_colors (255, 0, 0) (31, 73, 125) blank_generator = (inr tt, self')
       /\ self' = set_accent_color (mkRGB 31 73 125)
                    (set_primary_color (mkRGB 255 0 0) blank_generator)
       /\ self' = mkGen default_presentation (Pt 44) (Pt 28) (Pt 18)
                    (mkRGB 255 0 0) (mkRGB 31 73 125)
       /\ primary_color self' = mkRGB 255 0 0
       /\ accent_color self' = mkRGB 31 73 125.
Proof.
  split.
  - apply (proj1 (C3_set_theme_colors_range (256, 0, 0) (79, 129, 189) blank_generator)).
    unfold valid_color, valid_channel. lia.
  - apply (proj2 (C3_set_theme_colors_range (255, 0, 0) (31, 73, 125) blank_generator));
      unfold valid_color, valid_channel; lia.
Defined.

Lemma set_theme_colors_presentation (primary accent : Z * Z * Z)
    (self self' : PPTGenerator) (r : exception + unit) :
  set_theme_colors primary accent self = (r, self') ->
  presentation self' = presentation self
  /\ title_font_size self' = title_font_size self
  /\ subtitle_font_size self' = subtitle_font_size self
  /\ content_font_size self' = content_font_size self.
Proof.
  unfold set_theme_colors. st_simpl.
  destruct (RGBColor_of_tuple primary); [by intros [= _ <-]|].
  destruct (RGBColor_of_tuple accent); by intros [= _ <-].
Qed.

Lemma text_frame_set_text_cons (t : string) :
  exists line rest, text_frame_set_text t = with_p_text line empty_paragraph :: rest.
Proof.
  unfold text_frame_set_text, set_p_text.
  destruct (split "010" t) as [|line rest] eqn:Hsplit.
  - by destruct (split_nonempty "010" t).
  - by exists (stored_text line), ((fun line => with_p_text (stored_text line) empty_paragraph)
                                    <$> rest).
Qed.

Ltac slide_ops :=
  unfold shapes_title, not_none, shape_set_text, alter_first_paragraph, alter_text_frame,
    len_placeholders, placeholders_getitem, shapes_add_textbox, shapes_add_chart;
  st_simpl.

(** On a layout with the title placeholder first and the subtitle next, as
    "Title Slide" of the default template, [add_title_slide] returns and the
    title of the new slide is in the primary colour the object has at the
    call. *)
Lemma add_title_slide_color (self : PPTGenerator) (name : string) (rest : list nat)
    (title subtitle author : string) :
  slide_layouts (presentation self) !! 0%nat = Some (mkLayout name (0 :: 1 :: rest)%nat) ->
  exists slide,
    add_title_slide title subtitle author self = (inr (slide_count self), appended self slide)
    /\ title_color slide = Some (primary_color self).
Proof.
  intros Hl. unfold add_title_slide, slide_layouts_getitem. st_simpl. rewrite Hl.
  rewrite slides_add_slide_appended. slide_ops. cbn.
  destruct (text_frame_set_text_cons title) as (line & lines & ->).
  destruct (truthy (if truthy author then _ else subtitle)); cbn;
    (eexists; split; [reflexivity|]); reflexivity.
Qed.

(** C8. [set_theme_colors] changes the two theme colours and nothing else:
    whatever its outcome, the presentation with every slide appended so far
    is as before.  A title slide appended before the call keeps the primary
    colour of that time, and a title slide appended after the call has the
    new one. *)
Theorem C8_theme_change_is_not_retroactive (self : PPTGenerator) (name : string)
    (rest : list nat) (primary accent : Z * Z * Z)
    (title1 subtitle1 author1 title2 subtitle2 author2 : string) :
  slide_layouts (presentation self) !! 0%nat = Some (mkLayout name (0 :: 1 :: rest)%nat) ->
  valid_color primary -> valid_color accent ->
  (forall colors1 colors2 s,
      presentation (snd (set_theme_colors colors1 colors2 s)) = presentation s)
  /\ exists slide1 slide2 self1 self2 self3,
      add_title_slide title1 subtitle1 author1 self = (inr (slide_count self), self1)
      /\ set_theme_colors primary accent self1 = (inr tt, self2)
      /\ add_title_slide title2 subtitle2 author2 self2 = (inr (slide_count self1), self3)
      /\ slides (presentation self1) = slides (presentation self) ++ [slide1]
      /\ slides (presentation self2) = slides (presentation self1)
      /\ slides (presentation self3) = slides (presentation self) ++ [slide1; slide2]
      /\ primary_color self2 = rgb_of primary
      /\ accent_color self2 = rgb_of accent
      /\ title_color slide1 = Some (primary_color self)
      /\ title_color slide2 = Some (rgb_of primary).
Proof.
  intros Hl Hp Ha. split.
  { intros c1 c2 s. destruct (set_theme_colors c1 c2 s) as [r s'] eqn:Hs.
    by apply set_theme_colors_presentation in Hs as [? _]. }
  destruct (add_title_slide_color self name rest title1 subtitle1 author1 Hl)
    as (slide1 & Hadd1 & Hc1).
  set (self1 := appended self slide1) in *.
  set (self2 := set_accent_color (rgb_of accent) (set_primary_color (rgb_of primary) self1)).
  assert (Hl2 : slide_layouts (presentation self2) !! 0%nat
                = Some (mkLayout name (0 :: 1 :: rest)%nat)) by exact Hl.
  destruct (add_title_slide_color self2 name rest title2 subtitle2 author2 Hl2)
    as (slide2 & Hadd2 & Hc2).
  exists slide1, slide2, self1, self2, (appended self2 slide2).
  repeat split; try done.
  - by apply set_theme_colors_valid.
  - cbn. by rewrite <- app_assoc.
Qed.

Lemma C8_theme_change_is_not_retroactive_witness :
  (forall colors1 colors2 s,
      presentation (snd (set_theme_colors colors1 colors2 s)) = presentation s)
  /\ exists slide1 slide2 self1 self2 self3,
      add_title_slide "Before" "" "" blank_generator = (inr 0%nat, self1)
      /\ set_theme_colors (200, 30, 30) (30, 200, 30) self1 = (inr tt, self2)
      /\ add_title_slide "After" "" "" self2 = (inr (slide_count self1), self3)
      /\ slides (presentation self1) = slides (presentation blank_generator) ++ [slide1]
      /\ slides (presentation self2) = slides (presentation self1)
      /\ slides (presentation self3) = slides (presentation blank_generator) ++ [slide1; slide2]
      /\ primary_color self2 = mkRGB 200 30 30
      /\ accent_color self2 = mkRGB 30 200 30
      /\ title_color slide1 = Some (mkRGB 31 73 125)
      /\ title_color slide2 = Some (mkRGB 200 30 30).
Proof.
  apply (C8_theme_change_is_not_retroactive blank_generator "Title Slide" []
           (200, 30, 30) (30, 200, 30) "Before" "" "" "After" "" "").
  - reflexivity.
  - unfold valid_color, valid_channel. lia.
  - unfold valid_color, valid_channel. lia.
Defined.

(** ** Chart slides *)

Lemma add_all_series_complete (series : list (string * list Z)) :
  forall obj,
    add_all_series (series_dict <$> series) obj
    = inr (mkChartData (categories obj) (chart_series obj ++ series)).
Proof.
  induction series as [|[name values] series IH]; intros [cats added]; cbn.
  - by rewrite app_nil_r.
  - rewrite IH. cbn. by rewrite <- app_assoc.
Qed.

Lemma chart_part_error_writable (chart_type : XL_CHART_TYPE) (cats : list string)
    (series : list (string * list Z)) :
  chart_data_writable chart_type cats series ->
  chart_part_error chart_type (mkChartData cats series) = None.
Proof.
  unfold chart_data_writable, chart_part_error. cbn [chart_series categories].
  destruct chart_type, series as [|s series], cats as [|cat cats];
    intros [H1 H2]; try done; try (by destruct H1);
    by (apply Z.ltb_ge in H2 as ->).
Qed.

(** On a layout that starts with the title placeholder, as "Title Only" of
    the default template, [add_chart_slide] returns for every dataset of the
    documented format that can be written as a chart, and puts one chart on
    the new slide, holding the labels and series as given. *)
Lemma add_chart_slide_returns (self : PPTGenerator) (name : string) (rest : list nat)
    (title : string) (cats : list string) (series : list (string * list Z))
    (chart_type : string) :
  slide_layouts (presentation self) !! 5%nat = Some (mkLayout name (0 :: rest)%nat) ->
  chart_data_writable (chart_type_map_get chart_type) cats series ->
  exists slide,
    add_chart_slide title (chart_dict cats series) chart_type self
    = (inr (slide_count self), appended self slide)
    /\ last (shapes slide)
       = Some (ChartShape (chart_type_map_get chart_type) (Inches 2) (Inches 2) (Inches 6)
                 (Inches 4.5) (mkChartData cats series))
    /\ chart_types slide = [chart_type_map_get chart_type].
Proof.
  intros Hl Hdata%chart_part_error_writable.
  unfold add_chart_slide, slide_layouts_getitem. st_simpl. rewrite Hl.
  rewrite slides_add_slide_appended. unfold shapes_add_chart. slide_ops.
  cbn [dict_series dict_categories chart_dict default]. unfold id.
  rewrite add_all_series_complete. cbn. rewrite Hdata. cbn.
  eexists. split; [reflexivity|]. cbn. split.
  - by rewrite app_comm_cons, last_snoc.
  - unfold chart_types. cbn. rewrite omap_app. cbn.
    clear Hl. induction rest as [|i rest IH]; [reflexivity | exact IH].
Qed.

(** C2 (amended). [add_chart_slide] does not compare the number of values
    of a series with the number of categories.  On a presentation whose
    layout 5 starts with the title placeholder, as in the default template,
    the call returns for every dataset of the documented format that
    python-pptx can write as a chart (a category as soon as there is a
    series, a series for a pie chart, at most 16383 series otherwise),
    whether the lengths match or not, and the chart holds the labels and
    the series as given. *)
Theorem C2_chart_lengths_are_not_checked (self : PPTGenerator) (name : string)
    (rest : list nat) (title : string) (cats : list string)
    (series : list (string * list Z)) (chart_type : string) :
  slide_layouts (presentation self) !! 5%nat = Some (mkLayout name (0 :: rest)%nat) ->
  chart_data_writable (chart_type_map_get chart_type) cats series ->
  exists slide,
    add_chart_slide title (chart_dict cats series) chart_type self
    = (inr (slide_count self), appended self slide)
    /\ last (shapes slide)
       = Some (ChartShape (chart_type_map_get chart_type) (Inches 2) (Inches 2) (Inches 6)
                 (Inches 4.5) (mkChartData cats series)).
Proof.
  intros Hl Hdata.
  destruct (add_chart_slide_returns self name rest title cats series chart_type Hl Hdata)
    as (slide & Hrun & Hlast & _).
  by exists slide.
Qed.

Lemma C2_chart_lengths_are_not_checked_witness :
  exists slide,
    add_chart_slide "Sales" (chart_dict ["Q1"; "Q2"] [("Sales", [1; 2; 3])]) "column"
      blank_generator
    = (inr 0%nat, appended blank_generator slide)
    /\ last (shapes slide)
       = Some (ChartShape COLUMN_CLUSTERED (Inches 2) (Inches 2) (Inches 6) (Inches 4.5)
                 (mkChartData ["Q1"; "Q2"] [("Sales", [1; 2; 3])])).
Proof.
  apply (C2_chart_lengths_are_not_checked blank_generator "Title Only" [] "Sales"
           ["Q1"; "Q2"] [("Sales", [1; 2; 3])] "column").
  - reflexivity.
  - split; [by right | done].
Defined.

(** C2 as stated fails: two categories with a series of three values are
    accepted by [add_chart_slide] on a new generator. *)
Lemma C2_counterexample_mismatch_accepted :
  ~ (forall (self : PPTGenerator) (title : string) (cats : list string)
            (series : list (string * list Z)) (chart_type : string),
        ~ lengths_match cats series ->
        exists e, fst (add_chart_slide title (chart_dict cats series) chart_type self) = inl e).
Proof.
  intros H.
  destruct (H blank_generator "Sales" ["Q1"; "Q2"] [("Sales", [1; 2; 3])] "column")
    as [e He].
  - intros Hmatch. apply Forall_cons in Hmatch as [Hlen _]. cbn in Hlen. discriminate Hlen.
  - vm_compute in He. discriminate He.
Qed.

Lemma chart_type_map_get_default (chart_type : string) :
  chart_type <> "column" -> chart_type <> "line" -> chart_type <> "pie" ->
  chart_type_map_get chart_type = COLUMN_CLUSTERED.
Proof.
  intros Hc%String.eqb_neq Hl%String.eqb_neq Hp%String.eqb_neq.
  unfold chart_type_map_get. by rewrite Hc, Hl, Hp.
Qed.

(** C10. A [chart_type] other than "column", "line" and "pie" is not an
    error: on every generator and every dataset the call does what it does
    for "column", and where that call returns (layout 5 starting with the
    title placeholder, dataset of the documented format that can be written
    as a column chart) the new slide holds one clustered-column chart. *)
Theorem C10_unknown_chart_type_is_column (chart_type : string) (self : PPTGenerator)
    (name : string) (rest : list nat) (title : string) (cats : list string)
    (series : list (string * list Z)) :
  chart_type <> "column" -> chart_type <> "line" -> chart_type <> "pie" ->
  slide_layouts (presentation self) !! 5%nat = Some (mkLayout name (0 :: rest)%nat) ->
  chart_data_writable COLUMN_CLUSTERED cats series ->
  chart_type_map_get chart_type = COLUMN_CLUSTERED
  /\ (forall self' title' chart_data,
        add_chart_slide title' chart_data chart_type self'
        = add_chart_slide title' chart_data "column" self')
  /\ exists slide,
        add_chart_slide title (chart_dict cats series) chart_type self
        = (inr (slide_count self), appended self slide)
        /\ chart_types slide = [COLUMN_CLUSTERED].
Proof.
  intros Hc Hl Hp Hlayout Hdata.
  pose proof (chart_type_map_get_default chart_type Hc Hl Hp) as Hget.
  split; [exact Hget|]. split.
  - intros self' title' chart_data. unfold add_chart_slide. by rewrite Hget.
  - rewrite <- Hget in Hdata.
    destruct (add_chart_slide_returns self name rest title cats series chart_type Hlayout
                Hdata) as (slide & Hrun & _ & Htypes).
    exists slide. by rewrite <- Hget.
Qed.

Lemma C10_unknown_chart_type_is_column_witness :
  chart_type_map_get "doughnut" = COLUMN_CLUSTERED
  /\ (forall self' title' chart_data,
        add_chart_slide title' chart_data "doughnut" self'
        = add_chart_slide title' chart_data "column" self')
  /\ exists slide,
        add_chart_slide "Sales" (chart_dict ["Q1"; "Q2"] [("Sales", [10; 20])]) "doughnut"
          blank_generator
        = (inr 0%nat, appended blank_generator slide)
        /\ chart_types slide = [COLUMN_CLUSTERED].
Proof.
  apply (C10_unknown_chart_type_is_column "doughnut" blank_generator "Title Only" []
           "Sales" ["Q1"; "Q2"] [("Sales", [10; 20])]).
  - apply String.eqb_neq. reflexivity.
  - apply String.eqb_neq. reflexivity.
  - apply String.eqb_neq. reflexivity.
  - reflexivity.
  - split; [by right | done].
Defined.

(** ** Saving *)

Lemma fs_key_abs (fs : FileSystem) (path : string) :
  isabs path = true -> fs_key fs path = path.
Proof. unfold fs_key. by intros ->. Qed.

Lemma save_path_isabs (fs : FileSystem) (filename : string) :
  isabs (cwd fs) = true -> isabs (save_path fs filename) = true.
Proof. apply abspath_isabs. Qed.


Lemma save_unfold (filename : string) (fs : FileSystem) (self : PPTGenerator) :
  save filename fs self =
    if can_write fs (save_path fs filename)
    then (inr (save_path fs filename), self,
          mkFS (cwd fs) (<[fs_key fs (save_path fs filename) := PptxFile (presentation self)]>
                           (files fs)))
    else (inl (OSError (save_path fs filename)), self, fs).
Proof.
  unfold save, save_path, Presentation_save.
  destruct (endswith filename ".pptx"); cbn [negb];
    by destruct (can_write fs _).
Qed.

Lemma save_returns (filename : string) (fs : FileSystem) (self : PPTGenerator) :
  isabs (cwd fs) = true ->
  can_write fs (save_path fs filename) = true ->
  save filename fs self
  = (inr (save_path fs filename), self,
     written fs (save_path fs filename) (presentation self)).
Proof.
  intros Hcwd Hw. rewrite save_unfold, Hw. unfold written.
  by rewrite (fs_key_abs _ _ (save_path_isabs fs filename Hcwd)).
Qed.

Lemma save_raises (filename : string) (fs : FileSystem) (self : PPTGenerator) :
  can_write fs (save_path fs filename) = false ->
  save filename fs self = (inl (OSError (save_path fs filename)), self, fs).
Proof. intros Hw. by rewrite save_unfold, Hw. Qed.

(** Writing a deck does not disable another write that was possible. *)
Lemma can_write_written (fs : FileSystem) (p1 p2 : string) (prs : Presentation) :
  isabs p1 = true -> isabs p2 = true ->
  can_write fs p1 = true -> can_write fs p2 = true ->
  can_write (written fs p1 prs) p2 = true.
Proof.
  intros H1 H2. unfold can_write.
  rewrite !fs_key_abs by done. cbn [files written].
  intros [Hd1 Hn1]%andb_true_iff [Hd2 Hn2]%andb_true_iff.
  apply andb_true_iff. split.
  - destruct (decide (p1 = os_path_dirname p2)) as [Heq|Hne].
    + rewrite <- Heq in Hd2. rewrite Hd2 in Hn1. discriminate Hn1.
    + by rewrite lookup_insert_ne.
  - destruct (decide (p1 = p2)) as [->|Hne].
    + by rewrite lookup_insert_eq.
    + by rewrite lookup_insert_ne.
Qed.



Lemma file_slide_count_written (fs : FileSystem) (path : string) (prs : Presentation) :
  file_slide_count (written fs path prs) path = Some (length (slides prs)).
Proof. unfold file_slide_count, written. cbn. by rewrite lookup_insert_eq. Qed.

Lemma file_slide_count_written_ne (fs : FileSystem) (p1 p2 : string) (prs : Presentation) :
  p1 <> p2 -> file_slide_count (written fs p1 prs) p2 = file_slide_count fs p2.
Proof. intros Hne. unfold file_slide_count, written. cbn. by rewrite lookup_insert_ne. Qed.

(** C7. [save] never changes the generator, and a [save] that raises leaves
    the file store as it was too.  So after a failed [save], two further
    [save] calls to different writable paths both return, and the two files
    hold decks with the slide count of the generator. *)
Theorem C7_save_leaves_presentation (self : PPTGenerator) (fs : FileSystem)
    (bad filename1 filename2 : string) :
  isabs (cwd fs) = true ->
  can_write fs (save_path fs bad) = false ->
  can_write fs (save_path fs filename1) = true ->
  can_write fs (save_path fs filename2) = true ->
  save_path fs filename1 <> save_path fs filename2 ->
  (forall filename fs0 self0,
      match save filename fs0 self0 with
      | (inr _, self', _) => self' = self0
      | (inl _, self', fs') => self' = self0 /\ fs' = fs0
      end)
  /\ exists fs1 fs2,
      save bad fs self = (inl (OSError (save_path fs bad)), self, fs)
      /\ save filename1 fs self = (inr (save_path fs filename1), self, fs1)
      /\ save filename2 fs1 self = (inr (save_path fs filename2), self, fs2)
      /\ file_slide_count fs2 (save_path fs filename1) = Some (slide_count self)
      /\ file_slide_count fs2 (save_path fs filename2) = Some (slide_count self).
Proof.
  intros Hcwd Hbad Hw1 Hw2 Hne. split.
  { intros filename fs0 self0. rewrite save_unfold. by destruct (can_write fs0 _). }
  set (p1 := save_path fs filename1) in *.
  set (p2 := save_path fs filename2) in *.
  set (fs1 := written fs p1 (presentation self)).
  exists fs1, (written fs1 p2 (presentation self)).
  split; [by apply save_raises|].
  split; [by apply save_returns|].
  assert (Hp2 : save_path fs1 filename2 = p2) by reflexivity.
  split.
  - rewrite <- Hp2. apply save_returns; [exact Hcwd|]. rewrite Hp2.
    apply can_write_written; try done; by apply save_path_isabs.
  - split.
    + rewrite file_slide_count_written_ne by done. apply file_slide_count_written.
    + apply file_slide_count_written.
Qed.

Lemma C7_save_leaves_presentation_witness :
  exists fs1 fs2,
    save "missing/deck" work_fs blank_generator
    = (inl (OSError "/work/missing/deck.pptx"), blank_generator, work_fs)
    /\ save "first" work_fs blank_generator = (inr "/work/first.pptx", blank_generator, fs1)
    /\ save "second.pptx" fs1 blank_generator = (inr "/work/second.pptx", blank_generator, fs2)
    /\ file_slide_count fs2 "/work/first.pptx" = Some 0%nat
    /\ file_slide_count fs2 "/work/second.pptx" = Some 0%nat.
Proof.
  destruct (C7_save_leaves_presentation blank_generator work_fs
              "missing/deck" "first" "second.pptx") as [_ Hruns].
  - reflexivity.
  - vm_compute. reflexivity.
  - vm_compute. reflexivity.
  - vm_compute. reflexivity.
  - vm_compute. discriminate.
  - exact Hruns.
Defined.

(** ** Image slides *)

Lemma alter_snoc {A} (f : A -> A) (l : list A) (x : A) :
  alter f (length l) (l ++ [x]) = l ++ [f x].
Proof. induction l as [|a l IH]; cbn; [reflexivity | by rewrite IH]. Qed.

(** With an image path that does not exist, [add_image_slide] adds the
    title text box to the placeholders of the layout and nothing else. *)
Lemma add_image_slide_missing (fs : FileSystem) (self : PPTGenerator) (name : string)
    (rest : list nat) (title image_path caption : string) :
  slide_layouts (presentation self) !! 6%nat = Some (mkLayout name rest) ->
  os_path_exists fs image_path = false ->
  exists slide,
    add_image_slide fs title image_path caption self
    = (inr (slide_count self), appended self slide)
    /\ shapes slide
       = shapes (new_slide (mkLayout name rest))
         ++ [TextBoxShape (Inches 1) (Inches 0.5) (Inches 8) (Inches 1)
               (alter (set_p_alignment CENTER ∘ title_format (Pt 36) (primary_color self))
                      0%nat (text_frame_set_text title))].
Proof.
  intros Hl Hmissing. unfold add_image_slide, slide_layouts_getitem. st_simpl. rewrite Hl.
  rewrite slides_add_slide_appended. rewrite Hmissing. slide_ops. cbn.
  eexists. split; [reflexivity|]. cbn. by rewrite !alter_snoc.
Qed.

(** C4 (amended). For an image path that does not exist, [add_image_slide]
    returns and appends one slide, which carries the title text box and no
    picture; the missing image is skipped for good, and a later [save]
    returns whenever its file can be written. *)
Theorem C4_missing_image_is_skipped (fs : FileSystem) (self : PPTGenerator)
    (name : string) (rest : list nat) (title image_path caption filename : string) :
  slide_layouts (presentation self) !! 6%nat = Some (mkLayout name rest) ->
  os_path_exists fs image_path = false ->
  isabs (cwd fs) = true ->
  can_write fs (save_path fs filename) = true ->
  exists slide,
    add_image_slide fs title image_path caption self
    = (inr (slide_count self), appended self slide)
    /\ slide_count (appended self slide) = S (slide_count self)
    /\ Forall (fun sh => is_picture sh = false) (shapes slide)
    /\ save filename fs (appended self slide)
       = (inr (save_path fs filename), appended self slide,
          written fs (save_path fs filename) (presentation (appended self slide))).
Proof.
  intros Hl Hmissing Hcwd Hw.
  destruct (add_image_slide_missing fs self name rest title image_path caption Hl Hmissing)
    as (slide & Hrun & Hshapes).
  exists slide. split; [exact Hrun|].
  split; [apply slide_count_appended|]. split.
  - rewrite Hshapes. apply Forall_app. split.
    + cbn. by apply Forall_fmap, Forall_true.
    + by apply Forall_singleton.
  - by apply save_returns.
Qed.

Lemma C4_missing_image_is_skipped_witness :
  exists slide,
    add_image_slide work_fs "Picture" "missing.png" "caption" blank_generator
    = (inr 0%nat, appended blank_generator slide)
    /\ slide_count (appended blank_generator slide) = 1%nat
    /\ Forall (fun sh => is_picture sh = false) (shapes slide)
    /\ save "out" work_fs (appended blank_generator slide)
       = (inr "/work/out.pptx", appended blank_generator slide,
          written work_fs "/work/out.pptx" (presentation (appended blank_generator slide))).
Proof.
  apply (C4_missing_image_is_skipped work_fs blank_generator "Blank" []
           "Picture" "missing.png" "caption" "out").
  - reflexivity.
  - vm_compute. reflexivity.
  - reflexivity.
  - vm_compute. reflexivity.
Defined.

(** C4 as stated fails: after a slide with a missing image, [save]
    returns. *)
Lemma C4_counterexample_save_returns :
  ~ (forall (fs : FileSystem) (self self' : PPTGenerator)
            (title image_path caption filename : string) (n : nat),
        os_path_exists fs image_path = false ->
        add_image_slide fs title image_path caption self = (inr n, self') ->
        exists e, fst (fst (save filename fs self')) = inl e).
Proof.
  intros H.
  destruct (H work_fs blank_generator
              (snd (add_image_slide work_fs "Picture" "missing.png" "" blank_generator))
              "Picture" "missing.png" "" "out" 0%nat) as [e He].
  - vm_compute. reflexivity.
  - vm_compute. reflexivity.
  - vm_compute in He. discriminate He.
Qed.

(** ** Content slides *)

Lemma stored_text_one_line (t : string) : one_line t = true -> stored_text t = t.
Proof.
  induction t as [|c t IH]; [done|]. cbn.
  destruct (Ascii.eqb c "010"); [done|]. cbn. by intros ->%IH.
Qed.

Lemma stored_text_app (a b : string) :
  stored_text (a +:+ b) = stored_text a +:+ stored_text b.
Proof. induction a as [|c a IH]; [done|]. cbn. by rewrite IH. Qed.

Lemma one_line_string_of_uint (u : Decimal.uint) : one_line (NilZero.string_of_uint u) = true.
Proof.
  assert (forall v, one_line (NilEmpty.string_of_uint v) = true) as H
    by (induction v; cbn; done).
  destruct u; cbn; try done; apply H.
Qed.

Lemma stored_text_numbered (i : nat) (item : string) :
  stored_text (numbered_text i item) = numbered_text i (stored_text item).
Proof.
  unfold numbered_text. rewrite !stored_text_app. f_equal.
  apply stored_text_one_line, one_line_string_of_uint.
Qed.

Lemma stored_text_items (items : list string) :
  Forall (fun item => one_line item = true) items -> stored_text <$> items = items.
Proof.
  induction 1 as [|item items Hitem _ IH]; [done|].
  cbn. by rewrite (stored_text_one_line item Hitem), IH.
Qed.

Lemma content_paragraph_first (self : PPTGenerator) (set_level numbered : bool)
    (item : string) (p : Paragraph) (ps : TextFrame) :
  content_paragraph self set_level numbered 0 item (p :: ps)
  = content_format self set_level numbered 0 item p :: ps.
Proof. unfold content_paragraph, content_format. by destruct set_level, numbered. Qed.

Lemma content_paragraph_next (self : PPTGenerator) (set_level numbered : bool)
    (i : nat) (item : string) (text_frame : TextFrame) :
  content_paragraph self set_level numbered (S i) item text_frame
  = text_frame ++ [content_format self set_level numbered (S i) item empty_paragraph].
Proof.
  unfold content_paragraph, content_format, TextFrame in *. cbn [Nat.eqb].
  destruct set_level, numbered; by rewrite !alter_snoc.
Qed.

(** From the second item on, the loop appends one formatted paragraph per
    item. *)
Lemma for_enumerate_content_from (self : PPTGenerator) (set_level numbered : bool)
    (content : list string) :
  forall (i : nat) (text_frame : TextFrame),
    for_enumerate (content_paragraph self set_level numbered) (S i) content text_frame
    = text_frame
      ++ imap (fun j item => content_format self set_level numbered (S i + j) item
                               empty_paragraph) content.
Proof.
  induction content as [|item content IH]; intros i text_frame; cbn [for_enumerate imap].
  - by rewrite app_nil_r.
  - rewrite content_paragraph_next, IH, <- app_assoc. cbn [app].
    rewrite Nat.add_0_r. do 2 f_equal.
    apply imap_ext. intros j x _. cbn. by rewrite Nat.add_succ_r.
Qed.

Lemma p_text_content_format (self : PPTGenerator) (set_level : bool) (i : nat)
    (item : string) (p : Paragraph) :
  p_text (content_format self set_level true i item p) = numbered_text i (stored_text item).
Proof. unfold content_format. destruct set_level; apply stored_text_numbered. Qed.

(** The texts a numbered loop leaves in a frame cleared to one paragraph. *)
Lemma for_enumerate_numbered_texts (self : PPTGenerator) (set_level : bool)
    (item : string) (content : list string) (p : Paragraph) :
  p_text <$> for_enumerate (content_paragraph self set_level true) 0 (item :: content) [p]
  = imap numbered_text (stored_text <$> (item :: content)).
Proof.
  cbn [for_enumerate imap]. rewrite content_paragraph_first, for_enumerate_content_from.
  cbn [app fmap list_fmap imap]. rewrite p_text_content_format. f_equal.
  rewrite fmap_imap, imap_fmap. apply imap_ext. intros j x _. unfold compose.
  by rewrite p_text_content_format.
Qed.

(** On a layout with the title placeholder first and the body next, as
    "Title and Content" of the default template, [add_content_slide] returns
    and the body of the new slide is what the loop over [content] made of
    the cleared frame. *)
Lemma add_content_slide_body (self : PPTGenerator) (name : string) (rest : list nat)
    (title : string) (content : list string) (layout_type : string) :
  slide_layouts (presentation self) !! 1%nat = Some (mkLayout name (0 :: 1 :: rest)%nat) ->
  exists slide,
    add_content_slide title content layout_type self
    = (inr (slide_count self), appended self slide)
    /\ placeholder_text_frame 1 slide
       = Some (for_enumerate
                 (content_paragraph self true (String.eqb layout_type "numbered"))
                 0 content [set_p_text "" empty_paragraph]).
Proof.
  intros Hl. unfold add_content_slide, slide_layouts_getitem. st_simpl. rewrite Hl.
  rewrite slides_add_slide_appended. slide_ops. cbn.
  eexists. split; reflexivity.
Qed.

Example numbered_texts_AB : imap numbered_text ["A"; "B"] = ["1. A"; "2. B"].
Proof. reflexivity. Qed.

(** C5 (amended). A content slide with [layout_type="numbered"] holds each
    item prefixed with its 1-based position, in insertion order, from the
    [add_content_slide] call on: the prefixed text is what the accumulated
    slide stores, and [save] writes the slides as they are.  The text of an
    item is stored the way python-pptx stores a paragraph text, a line feed
    as a line break; items without a line feed are stored as given behind
    their prefix. *)
Theorem C5_numbered_items_are_stored_prefixed (self : PPTGenerator) (fs : FileSystem)
    (name : string) (rest : list nat) (title : string) (content : list string)
    (filename : string) :
  slide_layouts (presentation self) !! 1%nat = Some (mkLayout name (0 :: 1 :: rest)%nat) ->
  isabs (cwd fs) = true ->
  can_write fs (save_path fs filename) = true ->
  exists slide fs',
    add_content_slide title content "numbered" self
    = (inr (slide_count self), appended self slide)
    /\ body_texts slide
       = Some (match content with
               | [] => [""]
               | _ :: _ => imap numbered_text (stored_text <$> content)
               end)
    /\ (Forall (fun item => one_line item = true) content ->
        body_texts slide
        = Some (match content with
                | [] => [""]
                | _ :: _ => imap numbered_text content
                end))
    /\ save filename fs (appended self slide)
       = (inr (save_path fs filename), appended self slide, fs')
    /\ files fs' !! save_path fs filename
       = Some (PptxFile (mkPresentation (slide_layouts (presentation self))
                           (slides (presentation self) ++ [slide]))).
Proof.
  intros Hl Hcwd Hw.
  destruct (add_content_slide_body self name rest title content "numbered" Hl)
    as (slide & Hrun & Hbody).
  exists slide, (written fs (save_path fs filename) (presentation (appended self slide))).
  assert (body_texts slide
          = Some (match content with
                  | [] => [""]
                  | _ :: _ => imap numbered_text (stored_text <$> content)
                  end)) as Htexts.
  { unfold body_texts. rewrite Hbody. rewrite String.eqb_refl. cbn [option_map].
    destruct content as [|item content]; [reflexivity|].
    f_equal. apply (for_enumerate_numbered_texts self true item content). }
  split; [exact Hrun|]. split; [exact Htexts|]. split.
  - intros Hlines. rewrite Htexts, (stored_text_items content Hlines).
    by destruct content.
  - split; [by apply save_returns|].
    cbn. by rewrite lookup_insert_eq.
Qed.

Lemma C5_numbered_items_are_stored_prefixed_witness :
  exists slide fs',
    add_content_slide "Steps" ["A"; "B"] "numbered" blank_generator
    = (inr 0%nat, appended blank_generator slide)
    /\ body_texts slide = Some ["1. A"; "2. B"]
    /\ save "steps" work_fs (appended blank_generator slide)
       = (inr "/work/steps.pptx", appended blank_generator slide, fs')
    /\ files fs' !! "/work/steps.pptx"
       = Some (PptxFile (mkPresentation default_layouts [slide])).
Proof.
  destruct (C5_numbered_items_are_stored_prefixed blank_generator work_fs
              "Title and Content" [] "Steps" ["A"; "B"] "steps")
    as (slide & fs' & Hrun & _ & Hlines & Hsave & Hfile).
  - reflexivity.
  - reflexivity.
  - vm_compute. reflexivity.
  - exists slide, fs'. split; [exact Hrun|]. split; [|by split].
    apply Hlines. by repeat constructor.
Defined.

(** C5 as stated fails: the slide accumulated for items "A" and "B" does
    not store them as given, to be prefixed when saving; it stores
    "1. A" and "2. B". *)
Lemma C5_counterexample_prefix_is_stored :
  ~ (forall (self self' : PPTGenerator) (title : string) (content : list string) (n : nat),
        add_content_slide title content "numbered" self = (inr n, self') ->
        exists slide,
          last (slides (presentation self')) = Some slide
          /\ body_texts slide = Some content).
Proof.
  intros H.
  destruct (H blank_generator
              (snd (add_content_slide "Steps" ["A"; "B"] "numbered" blank_generator))
              "Steps" ["A"; "B"] 0%nat) as (slide & Hlast & Hbody).
  - vm_compute. reflexivity.
  - vm_compute in Hlast. injection Hlast as <-.
    vm_compute in Hbody. discriminate Hbody.
Qed.

(** * Further properties of the methods *)

(** ** What a call does to the generator *)

Lemma same_settings_refl (self : PPTGenerator) : same_settings self self.
Proof. by repeat split. Qed.

Lemma same_settings_trans (a b c : PPTGenerator) :
  same_settings a b -> same_settings b c -> same_settings a c.
Proof.
  intros (H1 & H2 & H3 & H4 & H5 & H6) (K1 & K2 & K3 & K4 & K5 & K6).
  repeat split; congruence.
Qed.

Lemma same_settings_appended (self : PPTGenerator) (slide : Slide) :
  same_settings self (appended self slide).
Proof. by repeat split. Qed.

(** The call asks for the layout [layout_index c] first. *)
Lemma run_call_layout_missing (fs : FileSystem) (c : Call) (self : PPTGenerator) :
  slide_layouts (presentation self) !! layout_index c = None ->
  run_call fs c self = (inl (IndexError "slide layout index out of range"), self).
Proof.
  intros Hl. destruct c; cbn [run_call layout_index] in *;
    [ unfold add_title_slide | unfold add_content_slide | unfold add_two_column_slide
    | unfold add_image_slide | unfold add_chart_slide | unfold add_section_slide ];
    unfold slide_layouts_getitem; st_simpl; by rewrite Hl.
Qed.

(** ** Placeholders of a new slide *)

Lemma keeps_placeholders_ret {A} (a : A) : keeps_placeholders (ret a).
Proof. by intros s. Qed.

Lemma keeps_placeholders_raise {A} (e : exception) : keeps_placeholders (@raise Slide A e).
Proof. by intros s. Qed.

Lemma keeps_placeholders_lift {A} (r : exception + A) : keeps_placeholders (lift r).
Proof. by intros s. Qed.

Lemma keeps_placeholders_bind {A B} (m : SlideM A) (k : A -> SlideM B) :
  keeps_placeholders m -> (forall a, keeps_placeholders (k a)) ->
  keeps_placeholders (bind m k).
Proof.
  intros Hm Hk s. unfold bind. specialize (Hm s).
  destruct (m s) as [[e|a] s']; cbn in *; [exact Hm|].
  destruct (Hk a s') as [H1 H2]. destruct Hm as [H3 H4]. split; congruence.
Qed.

Lemma keeps_placeholders_when (cond : bool) (body : SlideM unit) :
  keeps_placeholders body -> keeps_placeholders (when cond body).
Proof. intros H. destruct cond; [exact H | apply keeps_placeholders_ret]. Qed.

Lemma ph_idx_alter_text_frame (f : TextFrame -> TextFrame) (sh : Shape) :
  ph_idx (shape_alter_text_frame f sh) = ph_idx sh.
Proof. by destruct sh. Qed.

Lemma omap_ph_idx_alter (f : TextFrame -> TextFrame) (pos : nat) (shs : list Shape) :
  omap ph_idx (alter (shape_alter_text_frame f) pos shs) = omap ph_idx shs.
Proof.
  revert pos. induction shs as [|sh shs IH]; intros [|pos]; cbn; try reflexivity.
  - by rewrite ph_idx_alter_text_frame.
  - by rewrite IH.
Qed.

Lemma keeps_placeholders_alter_text_frame (pos : nat) (f : TextFrame -> TextFrame) :
  keeps_placeholders (alter_text_frame pos f).
Proof. intros s. cbn. split; [reflexivity | apply omap_ph_idx_alter]. Qed.

Lemma keeps_placeholders_add_shape (sh : Shape) :
  ph_idx sh = None ->
  keeps_placeholders (s <- get ;; modify (set_shapes (shapes s ++ [sh])) ;;; ret (length (shapes s))).
Proof.
  intros Hsh s. cbn. split; [reflexivity|].
  rewrite omap_app. cbn. rewrite Hsh. by rewrite app_nil_r.
Qed.

Lemma keeps_placeholders_add_textbox (left top width height : Z) :
  keeps_placeholders (shapes_add_textbox left top width height).
Proof. by apply keeps_placeholders_add_shape. Qed.

Lemma keeps_placeholders_add_chart (chart_type : XL_CHART_TYPE) (x y cx cy : Z)
    (chart_data : CategoryChartData) :
  keeps_placeholders (shapes_add_chart chart_type x y cx cy chart_data).
Proof.
  unfold shapes_add_chart. destruct (chart_part_error chart_type chart_data).
  - apply keeps_placeholders_raise.
  - by apply keeps_placeholders_add_shape.
Qed.

Lemma keeps_placeholders_add_picture (fs : FileSystem) (image_file : string)
    (left top width : Z) :
  keeps_placeholders (shapes_add_picture fs image_file left top width).
Proof.
  unfold shapes_add_picture.
  destruct (files fs !! fs_key fs image_file) as [[]|];
    try apply keeps_placeholders_raise.
  by apply keeps_placeholders_add_shape.
Qed.

Lemma keeps_placeholders_shapes_title : keeps_placeholders shapes_title.
Proof. by intros s. Qed.

Lemma keeps_placeholders_len : keeps_placeholders len_placeholders.
Proof. by intros s. Qed.

Lemma keeps_placeholders_getitem (idx : nat) : keeps_placeholders (placeholders_getitem idx).
Proof.
  intros s. unfold placeholders_getitem. st_simpl.
  by destruct (find_index (has_ph_idx idx) (shapes s)).
Qed.

Lemma keeps_placeholders_not_none (shape : option nat) (attr : string) :
  keeps_placeholders (not_none shape attr).
Proof. by destruct shape. Qed.

Lemma keeps_placeholders_set_background (f : Fill) :
  keeps_placeholders (modify (set_background_fill f)).
Proof. by intros s. Qed.

(** Every statement of a method body is one of the operations above;
    the tactic follows the structure of the body. *)
Ltac keeps_placeholders_tac :=
  lazymatch goal with
  | |- keeps_placeholders (bind _ _) =>
      apply keeps_placeholders_bind; [keeps_placeholders_tac | intros ?; keeps_placeholders_tac]
  | |- keeps_placeholders (when _ _) =>
      apply keeps_placeholders_when; keeps_placeholders_tac
  | |- keeps_placeholders (ret _) => apply keeps_placeholders_ret
  | |- keeps_placeholders (raise _) => apply keeps_placeholders_raise
  | |- keeps_placeholders (lift _) => apply keeps_placeholders_lift
  | |- keeps_placeholders shapes_title => apply keeps_placeholders_shapes_title
  | |- keeps_placeholders len_placeholders => apply keeps_placeholders_len
  | |- keeps_placeholders (placeholders_getitem _) => apply keeps_placeholders_getitem
  | |- keeps_placeholders (not_none _ _) => apply keeps_placeholders_not_none
  | |- keeps_placeholders (shape_set_text _ _) => apply keeps_placeholders_alter_text_frame
  | |- keeps_placeholders (alter_first_paragraph _ _) =>
      apply keeps_placeholders_alter_text_frame
  | |- keeps_placeholders (alter_text_frame _ _) => apply keeps_placeholders_alter_text_frame
  | |- keeps_placeholders (shapes_add_textbox _ _ _ _) => apply keeps_placeholders_add_textbox
  | |- keeps_placeholders (shapes_add_picture _ _ _ _ _) =>
      apply keeps_placeholders_add_picture
  | |- keeps_placeholders (shapes_add_chart _ _ _ _ _ _) => apply keeps_placeholders_add_chart
  | |- keeps_placeholders (modify (set_background_fill _)) =>
      apply keeps_placeholders_set_background
  | |- keeps_placeholders (match ?x with _ => _ end) => destruct x; keeps_placeholders_tac
  | |- keeps_placeholders (let _ := _ in _) => cbv zeta; keeps_placeholders_tac
  end.

Lemma new_slide_placeholders (layout : SlideLayout) :
  omap ph_idx (shapes (new_slide layout)) = layout_placeholders layout.
Proof.
  cbn. induction (layout_placeholders layout) as [|i l IH]; cbn; [reflexivity | by rewrite IH].
Qed.

Lemma add_method_layout_found {A} (i : nat) (body : PPTGenerator -> SlideM A)
    (self : PPTGenerator) (layout : SlideLayout) :
  slide_layouts (presentation self) !! i = Some layout ->
  (self <- get ;; slide_layout <- slide_layouts_getitem i ;;
   slides_add_slide slide_layout (body self)) self
  = slides_add_slide layout (body self) self.
Proof. intros Hl. unfold slide_layouts_getitem. st_simpl. by rewrite Hl. Qed.

Lemma add_bodies_keep_placeholders (fs : FileSystem) (c : Call) (self : PPTGenerator)
    (layout : SlideLayout) :
  slide_layouts (presentation self) !! layout_index c = Some layout ->
  exists (A : Type) (body : SlideM A),
    keeps_placeholders body
    /\ run_call fs c self = slides_add_slide layout body self.
Proof.
  intros Hl. destruct c; cbn [run_call layout_index] in *;
    [ unfold add_title_slide | unfold add_content_slide | unfold add_two_column_slide
    | unfold add_image_slide | unfold add_chart_slide | unfold add_section_slide ].
  all: eexists _, _; split;
    [| apply (add_method_layout_found _ (fun self => _) self layout Hl) ].
  all: cbn beta; keeps_placeholders_tac.
Qed.

(** X1. A call whose layout number is beyond the layouts of the
    presentation raises [IndexError] before anything is added: the
    generator is as before the call. *)
Theorem X1_missing_layout_raises_unchanged (fs : FileSystem) (c : Call)
    (self : PPTGenerator) :
  (length (slide_layouts (presentation self)) <= layout_index c)%nat ->
  run_call fs c self = (inl (IndexError "slide layout index out of range"), self).
Proof. intros Hlen. apply run_call_layout_missing. by apply lookup_ge_None. Qed.

Lemma X1_missing_layout_raises_unchanged_witness :
  run_call work_fs (AddChartSlide "Sales" quarterly "pie") three_layout_generator
  = (inl (IndexError "slide layout index out of range"), three_layout_generator).
Proof.
  apply (X1_missing_layout_raises_unchanged work_fs (AddChartSlide "Sales" quarterly "pie")
           three_layout_generator).
  cbn. lia.
Defined.

(** X2. A call whose layout exists appends exactly one slide, whether it
    returns or raises afterwards; the slide is on the layout asked for and
    its placeholders are those of the layout, in the layout's order. *)
Theorem X2_new_slide_has_layout_placeholders (fs : FileSystem) (c : Call)
    (self : PPTGenerator) (layout : SlideLayout) :
  slide_layouts (presentation self) !! layout_index c = Some layout ->
  exists r slide,
    run_call fs c self = (r, appended self slide)
    /\ slide_layout slide = layout
    /\ omap ph_idx (shapes slide) = layout_placeholders layout.
Proof.
  intros Hl.
  destruct (add_bodies_keep_placeholders fs c self layout Hl) as (A & body & Hkeep & ->).
  rewrite slides_add_slide_appended. eexists _, _. split; [reflexivity|].
  destruct (Hkeep (new_slide layout)) as [Hlayout Hph].
  split; [exact Hlayout|]. by rewrite Hph, new_slide_placeholders.
Qed.

Lemma X2_new_slide_has_layout_placeholders_witness :
  exists r slide,
    run_call work_fs (AddTwoColumnSlide "Pro and con" ["a"] ["b"; "c"]) blank_generator
    = (r, appended blank_generator slide)
    /\ slide_layout slide = mkLayout "Two Content" [0; 1; 2]%nat
    /\ omap ph_idx (shapes slide) = [0; 1; 2]%nat.
Proof.
  apply (X2_new_slide_has_layout_placeholders work_fs
           (AddTwoColumnSlide "Pro and con" ["a"] ["b"; "c"]) blank_generator
           (mkLayout "Two Content" [0; 1; 2]%nat)).
  reflexivity.
Defined.

(** ** Scripts *)

Lemma run_calls_frame (fs : FileSystem) (cs : list Call) :
  forall (self self' : PPTGenerator) (r : exception + list nat),
    run_calls fs cs self = (r, self') ->
    same_settings self self'
    /\ exists new,
        slides (presentation self') = slides (presentation self) ++ new
        /\ (length new <= length cs)%nat
        /\ (forall refs, r = inr refs ->
              length new = length cs /\ refs = seq (slide_count self) (length cs)).
Proof.
  induction cs as [|c cs IH]; intros self self' r Hrun; cbn in Hrun; st_simpl.
  - injection Hrun as <- <-. split; [apply same_settings_refl|].
    exists []. rewrite app_nil_r. split; [done|]. split; [done|].
    by intros refs [= <-].
  - destruct (run_call fs c self) as [[e|n] self1] eqn:Hc.
    + injection Hrun as <- <-.
      destruct (run_call_appends_one fs c self) as [[e' He]|(slide & r' & Hr & _)].
      * rewrite He in Hc. injection Hc as _ <-.
        split; [apply same_settings_refl|]. exists []. rewrite app_nil_r.
        split; [done|]. split; [cbn; lia|]. intros refs Hrefs. discriminate Hrefs.
      * rewrite Hr in Hc. injection Hc as _ <-.
        split; [apply same_settings_appended|]. exists [slide].
        split; [done|]. split; [cbn; lia|]. intros refs Hrefs. discriminate Hrefs.
    + destruct (run_call_count fs c self self1 n Hc) as [Hcount ->].
      destruct (run_call_appends_one fs c self) as [[e' He]|(slide & r' & Hr & _)];
        [congruence|].
      rewrite Hr in Hc. injection Hc as _ <-.
      destruct (run_calls fs cs (appended self slide)) as [[e|ns] self2] eqn:Hcs;
        injection Hrun as <- <-;
        destruct (IH _ _ _ Hcs) as (Hset & new & Hnew & Hlen & Hrefs).
      * split; [by eapply same_settings_trans; [apply same_settings_appended|]|].
        exists (slide :: new). rewrite Hnew. cbn. rewrite <- app_assoc.
        split; [done|]. split; [lia|]. intros refs Hr'. discriminate Hr'.
      * split; [by eapply same_settings_trans; [apply same_settings_appended|]|].
        exists (slide :: new). rewrite Hnew. cbn. rewrite <- app_assoc.
        destruct (Hrefs ns eq_refl) as [Hl ->].
        split; [done|]. split; [lia|].
        intros refs' [= <-]. split; [lia|]. by rewrite Hcount.
Qed.

(** X3. A script of [add_*] calls only appends: whether it runs to its end
    or stops at a call that raises, the slides present before are still
    there, unchanged and in place, at most one slide per call was added,
    and layouts, font sizes and theme colours are as before. *)
Theorem X3_scripts_only_append (fs : FileSystem) (cs : list Call)
    (self self' : PPTGenerator) (r : exception + list nat) :
  run_calls fs cs self = (r, self') ->
  same_settings self self'
  /\ exists new,
      slides (presentation self') = slides (presentation self) ++ new
      /\ (length new <= length cs)%nat.
Proof.
  intros Hrun. destruct (run_calls_frame fs cs self self' r Hrun) as (Hs & new & Hn & Hl & _).
  split; [exact Hs|]. by exists new.
Qed.

Lemma X3_scripts_only_append_witness :
  same_settings three_layout_generator
    (snd (run_calls work_fs mixed_script three_layout_generator))
  /\ exists new,
      slides (presentation (snd (run_calls work_fs mixed_script three_layout_generator)))
      = slides (presentation three_layout_generator) ++ new
      /\ (length new <= length mixed_script)%nat.
Proof.
  apply (X3_scripts_only_append work_fs mixed_script three_layout_generator _
           (fst (run_calls work_fs mixed_script three_layout_generator))).
  by destruct (run_calls work_fs mixed_script three_layout_generator).
Defined.

(** X4. The references a script returns are the positions of the new
    slides: consecutive numbers starting at the slide count before the
    script. *)
Theorem X4_returned_references_are_positions (fs : FileSystem) (cs : list Call)
    (self self' : PPTGenerator) (refs : list nat) :
  run_calls fs cs self = (inr refs, self') ->
  refs = seq (slide_count self) (length cs).
Proof.
  intros Hrun. destruct (run_calls_frame fs cs self self' _ Hrun) as (_ & new & _ & _ & Hrefs).
  by destruct (Hrefs refs eq_refl).
Qed.

Lemma X4_returned_references_are_positions_witness :
  [0; 1; 2; 3; 4; 5]%nat = seq (slide_count blank_generator) (length mixed_script).
Proof.
  apply (X4_returned_references_are_positions work_fs mixed_script blank_generator
           (snd (run_calls work_fs mixed_script blank_generator))).
  vm_compute. reflexivity.
Defined.

(** ** Layouts without the expected placeholders *)

Lemma find_index_placeholders (idx : nat) (l : list nat) :
  find_index (has_ph_idx idx) ((fun i => PlaceholderShape i [empty_paragraph]) <$> l)
  = find_index (fun i => (i =? idx)%nat) l.
Proof.
  induction l as [|i l IH]; [reflexivity|].
  rewrite fmap_cons. cbn [find_index]. rewrite IH. reflexivity.
Qed.

Lemma find_index_new_slide (idx : nat) (layout : SlideLayout) :
  find_index (has_ph_idx idx) (shapes (new_slide layout))
  = find_index (fun i => (i =? idx)%nat) (layout_placeholders layout).
Proof. apply find_index_placeholders. Qed.

Lemma find_index_absent (idx : nat) (l : list nat) :
  idx ∉ l -> find_index (fun i => (i =? idx)%nat) l = None.
Proof.
  induction l as [|i l IH]; intros Hnotin; cbn; [reflexivity|].
  apply not_elem_of_cons in Hnotin as [Hne Hnotin].
  destruct (Nat.eqb_spec i idx) as [->|_]; [done|]. by rewrite IH.
Qed.

(** X5. Every method but [add_image_slide] writes the title into the
    placeholder with [idx] 0.  On a layout without that placeholder the
    call raises [AttributeError], and the slide it had created stays in the
    presentation, untouched. *)
Theorem X5_no_title_placeholder_leaves_bare_slide (fs : FileSystem) (c : Call)
    (self : PPTGenerator) (layout : SlideLayout) :
  uses_title_placeholder c = true ->
  slide_layouts (presentation self) !! layout_index c = Some layout ->
  0%nat ∉ layout_placeholders layout ->
  run_call fs c self
  = (inl (AttributeError "'NoneType' object has no attribute 'text'"),
     appended self (new_slide layout))
  /\ slide_count (appended self (new_slide layout)) = S (slide_count self).
Proof.
  intros Huses Hl Hno. split; [|apply slide_count_appended].
  pose proof (find_index_new_slide 0 layout) as Hfind.
  rewrite (find_index_absent 0 _ Hno) in Hfind.
  destruct c; try discriminate Huses; cbn [run_call layout_index] in *;
    [ unfold add_title_slide | unfold add_content_slide | unfold add_two_column_slide
    | unfold add_chart_slide | unfold add_section_slide ];
    unfold slide_layouts_getitem; st_simpl; rewrite Hl;
    rewrite slides_add_slide_appended; slide_ops; by rewrite Hfind.
Qed.

Lemma X5_no_title_placeholder_leaves_bare_slide_witness :
  run_call work_fs (AddSectionSlide "Intro" None) bare_layout_generator
  = (inl (AttributeError "'NoneType' object has no attribute 'text'"),
     appended bare_layout_generator (new_slide (mkLayout "Bare" [])))
  /\ slide_count (appended bare_layout_generator (new_slide (mkLayout "Bare" []))) = 1%nat.
Proof.
  apply (X5_no_title_placeholder_leaves_bare_slide work_fs (AddSectionSlide "Intro" None)
           bare_layout_generator (mkLayout "Bare" [])).
  - reflexivity.
  - reflexivity.
  - apply not_elem_of_nil.
Defined.

(** ** Section slides *)

(** The slide [add_section_slide] appends on a layout that starts with the
    title placeholder, whatever the background colour. *)
Lemma add_section_slide_result (self : PPTGenerator) (name : string) (rest : list nat)
    (section_title : string) (background_color : option (Z * Z * Z)) :
  slide_layouts (presentation self) !! 2%nat = Some (mkLayout name (0 :: rest)%nat) ->
  exists slide line,
    add_section_slide section_title background_color self
    = (match background_color with
       | Some color =>
           match RGBColor_of_tuple color with
           | inr _ => inr (slide_count self)
           | inl e => inl e
           end
       | None => inr (slide_count self)
       end, appended self slide)
    /\ title_paragraph slide
       = Some (mkParagraph line (Some (Pt 54)) (Some (mkRGB 255 255 255)) (Some true) 0
                 (Some CENTER))
    /\ background_fill slide
       = match background_color with
         | Some color =>
             match RGBColor_of_tuple color with
             | inr rgb => FillSolid (Some rgb)
             | inl _ => FillSolid None
             end
         | None => FillInherited
         end.
Proof.
  intros Hl. unfold add_section_slide, slide_layouts_getitem. st_simpl. rewrite Hl.
  rewrite slides_add_slide_appended. slide_ops. cbn.
  destruct (text_frame_set_text_cons section_title) as (line & lines & ->).
  destruct background_color as [color|]; cbn;
    [destruct (RGBColor_of_tuple color); cbn|];
    (eexists _, line; split; [reflexivity|]; split; reflexivity).
Qed.

(** X6. [add_section_slide] checks the background colour last.  With a
    channel outside 0..255 it raises the colour range error after the slide
    was appended: the presentation has one more slide, its title
    placeholder holding the section title in 54 points, white, bold and
    centred, its other placeholders untouched, with a solid background that
    has no colour. *)
Theorem X6_section_bad_color_leaves_slide (self : PPTGenerator) (name : string)
    (rest : list nat) (section_title : string) (color : Z * Z * Z) :
  slide_layouts (presentation self) !! 2%nat = Some (mkLayout name (0 :: rest)%nat) ->
  ~ valid_color color ->
  exists slide,
    add_section_slide section_title (Some color) self
    = (inl (ValueError "RGBColor() takes three integer values 0-255"), appended self slide)
    /\ slide_count (appended self slide) = S (slide_count self)
    /\ shapes slide
       = PlaceholderShape 0
           (alter (set_p_alignment CENTER ∘ title_format (Pt 54) (mkRGB 255 255 255)) 0%nat
              (text_frame_set_text section_title))
         :: ((fun idx => PlaceholderShape idx [empty_paragraph]) <$> rest)
    /\ background_fill slide = FillSolid None.
Proof.
  intros Hl Hbad. unfold add_section_slide, slide_layouts_getitem. st_simpl. rewrite Hl.
  rewrite slides_add_slide_appended. slide_ops. cbn.
  rewrite (RGBColor_of_tuple_invalid _ Hbad). cbn.
  eexists. split; [reflexivity|]. split; [apply slide_count_appended|].
  split; reflexivity.
Qed.

Lemma X6_section_bad_color_leaves_slide_witness :
  exists slide,
    add_section_slide "Intro" (Some (31, 73, 300)) blank_generator
    = (inl (ValueError "RGBColor() takes three integer values 0-255"),
       appended blank_generator slide)
    /\ slide_count (appended blank_generator slide) = 1%nat
    /\ shapes slide
       = [PlaceholderShape 0
            (alter (set_p_alignment CENTER ∘ title_format (Pt 54) (mkRGB 255 255 255)) 0%nat
               (text_frame_set_text "Intro"));
          PlaceholderShape 1 [empty_paragraph]]
    /\ background_fill slide = FillSolid None.
Proof.
  apply (X6_section_bad_color_leaves_slide blank_generator "Section Header" [1%nat]
           "Intro" (31, 73, 300)).
  - reflexivity.
  - unfold valid_color, valid_channel. lia.
Defined.

(** X7. A section slide does not use the theme: its title is white, 54
    points, bold and centred whatever the primary and accent colours are.
    The background is left to the layout without a colour argument and is
    solid in the given colour with a valid one. *)
Theorem X7_section_slide_ignores_theme (self : PPTGenerator) (name : string)
    (rest : list nat) (section_title : string) (background_color : option (Z * Z * Z)) :
  slide_layouts (presentation self) !! 2%nat = Some (mkLayout name (0 :: rest)%nat) ->
  match background_color with
  | Some color => valid_color color
  | None => True
  end ->
  exists slide line,
    add_section_slide section_title background_color self
    = (inr (slide_count self), appended self slide)
    /\ title_paragraph slide
       = Some (mkParagraph line (Some (Pt 54)) (Some (mkRGB 255 255 255)) (Some true) 0
                 (Some CENTER))
    /\ background_fill slide
       = match background_color with
         | Some color => FillSolid (Some (rgb_of color))
         | None => FillInherited
         end.
Proof.
  intros Hl Hvalid.
  destruct (add_section_slide_result self name rest section_title background_color Hl)
    as (slide & line & Hrun & Htitle & Hfill).
  exists slide, line.
  destruct background_color as [color|];
    [rewrite (RGBColor_of_tuple_valid _ Hvalid) in Hrun, Hfill|]; done.
Qed.

Lemma X7_section_slide_ignores_theme_witness :
  exists slide line,
    add_section_slide "Intro" (Some (140, 85, 45))
      (set_primary_color (mkRGB 1 2 3) blank_generator)
    = (inr 0%nat, appended (set_primary_color (mkRGB 1 2 3) blank_generator) slide)
    /\ title_paragraph slide
       = Some (mkParagraph line (Some (Pt 54)) (Some (mkRGB 255 255 255)) (Some true) 0
                 (Some CENTER))
    /\ background_fill slide = FillSolid (Some (mkRGB 140 85 45)).
Proof.
  apply (X7_section_slide_ignores_theme (set_primary_color (mkRGB 1 2 3) blank_generator)
           "Section Header" [1%nat] "Intro" (Some (140, 85, 45))).
  - reflexivity.
  - unfold valid_color, valid_channel. lia.
Defined.

(** ** Chart slides with incomplete series *)

Lemma add_all_series_missing (good : list (string * list Z)) (bad : SeriesDict)
    (more : list SeriesDict) (key : string) :
  missing_key bad = Some key ->
  forall obj,
    add_all_series ((series_dict <$> good) ++ bad :: more) obj = inl (KeyError key).
Proof.
  intros Hkey. induction good as [|[name values] good IH]; intros obj; cbn.
  - unfold missing_key in Hkey.
    destruct (series_name bad); cbn; [|congruence].
    destruct (series_values bad); cbn; congruence.
  - apply IH.
Qed.

(** X8. When a series dictionary lacks ["name"] or ["values"],
    [add_chart_slide] raises [KeyError] for the first key missing in the
    first such series.  By then the slide is in the presentation: its
    title placeholder holds the title in 36 points, bold and in the primary
    colour, the other placeholders are untouched, and there is no chart. *)
Theorem X8_incomplete_series_leaves_chartless_slide (self : PPTGenerator) (name : string)
    (rest : list nat) (title : string) (cats : option (list string))
    (good : list (string * list Z)) (bad : SeriesDict) (more : list SeriesDict)
    (key chart_type : string) :
  slide_layouts (presentation self) !! 5%nat = Some (mkLayout name (0 :: rest)%nat) ->
  missing_key bad = Some key ->
  exists slide,
    add_chart_slide title (mkChartDict cats (Some ((series_dict <$> good) ++ bad :: more)))
      chart_type self
    = (inl (KeyError key), appended self slide)
    /\ slide_count (appended self slide) = S (slide_count self)
    /\ shapes slide
       = PlaceholderShape 0
           (alter (title_format (Pt 36) (primary_color self)) 0%nat
              (text_frame_set_text title))
         :: ((fun idx => PlaceholderShape idx [empty_paragraph]) <$> rest)
    /\ chart_types slide = [].
Proof.
  intros Hl Hkey. unfold add_chart_slide, slide_layouts_getitem. st_simpl. rewrite Hl.
  rewrite slides_add_slide_appended. slide_ops.
  cbn [dict_series default]. unfold id.
  rewrite (add_all_series_missing good bad more key Hkey). cbn.
  eexists. split; [reflexivity|]. split; [apply slide_count_appended|].
  split; [reflexivity|].
  unfold chart_types. cbn. clear Hl.
  induction rest as [|i rest IH]; [reflexivity | exact IH].
Qed.

Lemma X8_incomplete_series_leaves_chartless_slide_witness :
  exists slide,
    add_chart_slide "Sales"
      (mkChartDict (Some ["Q1"; "Q2"])
         (Some ((series_dict <$> [("North", [1; 2])]) ++ mkSeries (Some "South") None :: [])))
      "line" blank_generator
    = (inl (KeyError "values"), appended blank_generator slide)
    /\ slide_count (appended blank_generator slide) = 1%nat
    /\ shapes slide
       = [PlaceholderShape 0
            (alter (title_format (Pt 36) (mkRGB 31 73 125)) 0%nat
               (text_frame_set_text "Sales"))]
    /\ chart_types slide = [].
Proof.
  apply (X8_incomplete_series_leaves_chartless_slide blank_generator "Title Only" []
           "Sales" (Some ["Q1"; "Q2"]) [("North", [1; 2])] (mkSeries (Some "South") None) []
           "values" "line").
  - reflexivity.
  - reflexivity.
Defined.

(** ** Chart slides with data that cannot be written *)

(** X30. What python-pptx refuses when it writes the chart is a matter of
    emptiness, not of lengths.  Series without any category are refused
    with [ValueError] for every chart type, also when every series has as
    many values as there are categories, none; and a pie chart without a
    series is refused with [IndexError], whatever the categories.  Either
    way the slide is in the presentation by then, holding its title and no
    chart. *)
Theorem X30_unwritable_chart_data_leaves_chartless_slide (self : PPTGenerator)
    (name : string) (rest : list nat) (title : string) :
  slide_layouts (presentation self) !! 5%nat = Some (mkLayout name (0 :: rest)%nat) ->
  let titled :=
    PlaceholderShape 0
      (alter (title_format (Pt 36) (primary_color self)) 0%nat (text_frame_set_text title))
    :: ((fun idx => PlaceholderShape idx [empty_paragraph]) <$> rest) in
  (forall (s : string * list Z) (series : list (string * list Z)) (chart_type : string),
      add_chart_slide title (chart_dict [] (s :: series)) chart_type self
      = (inl (ValueError "chart data contains no categories"),
         appended self (mkSlide (mkLayout name (0 :: rest)%nat) titled FillInherited)))
  /\ (forall cats : list string,
        add_chart_slide title (chart_dict cats []) "pie" self
        = (inl (IndexError "list index out of range"),
           appended self (mkSlide (mkLayout name (0 :: rest)%nat) titled FillInherited))).
Proof.
  intros Hl titled. split.
  - intros s series chart_type.
    unfold add_chart_slide, slide_layouts_getitem. st_simpl. rewrite Hl.
    rewrite slides_add_slide_appended. unfold shapes_add_chart. slide_ops.
    cbn [dict_series dict_categories chart_dict default]. unfold id.
    rewrite add_all_series_complete. cbn.
    by destruct (chart_type_map_get chart_type).
  - intros cats.
    unfold add_chart_slide, slide_layouts_getitem. st_simpl. rewrite Hl.
    rewrite slides_add_slide_appended. unfold shapes_add_chart. slide_ops.
    reflexivity.
Qed.

Lemma X30_unwritable_chart_data_leaves_chartless_slide_witness :
  lengths_match [] [("Sales", [])]
  /\ add_chart_slide "Sales" (chart_dict [] [("Sales", [])]) "column" blank_generator
     = (inl (ValueError "chart data contains no categories"),
        appended blank_generator
          (mkSlide (mkLayout "Title Only" [0%nat])
             [PlaceholderShape 0
                (alter (title_format (Pt 36) (mkRGB 31 73 125)) 0%nat
                   (text_frame_set_text "Sales"))]
             FillInherited))
  /\ add_chart_slide "Sales" (chart_dict ["Q1"; "Q2"] []) "pie" blank_generator
     = (inl (IndexError "list index out of range"),
        appended blank_generator
          (mkSlide (mkLayout "Title Only" [0%nat])
             [PlaceholderShape 0
                (alter (title_format (Pt 36) (mkRGB 31 73 125)) 0%nat
                   (text_frame_set_text "Sales"))]
             FillInherited)).
Proof.
  split; [by repeat constructor|].
  destruct (X30_unwritable_chart_data_leaves_chartless_slide blank_generator "Title Only" []
              "Sales" eq_refl) as [Hvalue Hindex].
  split; [apply (Hvalue ("Sales", []) [] "column") | apply (Hindex ["Q1"; "Q2"])].
Defined.

(** ** Bullet lists and columns *)

Lemma for_enumerate_content (self : PPTGenerator) (set_level numbered : bool)
    (item : string) (content : list string) (p : Paragraph) :
  for_enumerate (content_paragraph self set_level numbered) 0 (item :: content) [p]
  = content_format self set_level numbered 0 item p
    :: imap (fun j it => content_format self set_level numbered (S j) it empty_paragraph)
         content.
Proof.
  cbn [for_enumerate]. by rewrite content_paragraph_first, for_enumerate_content_from.
Qed.

Lemma p_text_content_format_plain (self : PPTGenerator) (set_level : bool) (i : nat)
    (item : string) (p : Paragraph) :
  p_text (content_format self set_level false i item p) = stored_text item.
Proof. unfold content_format. by destruct set_level. Qed.

Lemma content_format_formatted (self : PPTGenerator) (set_level numbered : bool) (i : nat)
    (item : string) (p : Paragraph) :
  content_formatted self (content_format self set_level numbered i item p).
Proof. unfold content_format, content_formatted. by destruct set_level, numbered. Qed.

Lemma imap_items {A} (l : list A) : imap (fun _ x => x) l = l.
Proof. rewrite <- (list_fmap_id l) at 2. apply (imap_const id). Qed.

Lemma for_enumerate_plain_texts (self : PPTGenerator) (set_level : bool)
    (content : list string) (p : Paragraph) :
  p_text <$> for_enumerate (content_paragraph self set_level false) 0 content
               [set_p_text "" p]
  = texts_or_blank (stored_text <$> content).
Proof.
  destruct content as [|item content]; [reflexivity|].
  rewrite for_enumerate_content. cbn [fmap list_fmap texts_or_blank].
  rewrite p_text_content_format_plain. f_equal.
  rewrite fmap_imap. rewrite <- (imap_items (stored_text <$> content)), imap_fmap.
  apply imap_ext. intros j x _. unfold compose.
  by rewrite p_text_content_format_plain.
Qed.

Lemma for_enumerate_formatted (self : PPTGenerator) (set_level numbered : bool)
    (item : string) (content : list string) (p : Paragraph) :
  Forall (content_formatted self)
    (for_enumerate (content_paragraph self set_level numbered) 0 (item :: content) [p]).
Proof.
  rewrite for_enumerate_content. apply Forall_cons. split.
  - apply content_format_formatted.
  - apply Forall_forall. intros q Hq.
    apply elem_of_lookup_imap in Hq as (j & it & -> & _).
    apply content_format_formatted.
Qed.

(** X9. With any [layout_type] other than "numbered" a content slide holds
    one paragraph per item in their order, each in the content font size
    and dark grey.  The text of a paragraph is the item the way python-pptx
    stores a paragraph text, a line feed as a line break, so items without
    a line feed are held as given.  With no item the body keeps a single
    empty, unformatted paragraph. *)
Theorem X9_bullet_items_are_stored_as_given (self : PPTGenerator) (name : string)
    (rest : list nat) (title : string) (content : list string) (layout_type : string) :
  slide_layouts (presentation self) !! 1%nat = Some (mkLayout name (0 :: 1 :: rest)%nat) ->
  layout_type <> "numbered" ->
  exists slide (text_frame : list Paragraph),
    add_content_slide title content layout_type self
    = (inr (slide_count self), appended self slide)
    /\ placeholder_text_frame 1 slide = Some text_frame
    /\ p_text <$> text_frame = texts_or_blank (stored_text <$> content)
    /\ (Forall (fun item => one_line item = true) content ->
        p_text <$> text_frame = texts_or_blank content)
    /\ match content with
       | [] => text_frame = [empty_paragraph]
       | _ :: _ => Forall (content_formatted self) text_frame
       end.
Proof.
  intros Hl Hbullet%String.eqb_neq.
  destruct (add_content_slide_body self name rest title content layout_type Hl)
    as (slide & Hrun & Hbody).
  rewrite Hbullet in Hbody.
  eexists slide, _. split; [exact Hrun|]. split; [exact Hbody|]. split; [|split].
  - apply for_enumerate_plain_texts.
  - intros Hlines. rewrite <- (stored_text_items content Hlines) at 2.
    apply for_enumerate_plain_texts.
  - destruct content as [|item content]; [reflexivity | apply for_enumerate_formatted].
Qed.

Lemma X9_bullet_items_are_stored_as_given_witness :
  exists slide (text_frame : list Paragraph),
    add_content_slide "Steps" ["A"; "B"] "Numbered" blank_generator
    = (inr 0%nat, appended blank_generator slide)
    /\ placeholder_text_frame 1 slide = Some text_frame
    /\ p_text <$> text_frame = ["A"; "B"]
    /\ Forall (content_formatted blank_generator) text_frame.
Proof.
  destruct (X9_bullet_items_are_stored_as_given blank_generator "Title and Content" []
              "Steps" ["A"; "B"] "Numbered")
    as (slide & text_frame & Hrun & Hbody & _ & Hlines & Hformat).
  - reflexivity.
  - apply String.eqb_neq. reflexivity.
  - exists slide, text_frame. split; [exact Hrun|]. split; [exact Hbody|].
    split; [|exact Hformat]. apply Hlines. by repeat constructor.
Defined.

Example stored_text_two_lines : stored_text two_lines = "x" +:+ VT +:+ "y".
Proof. reflexivity. Qed.

(** An item of two lines is held as one paragraph with a line break, behind
    its number on a numbered slide. *)
Example items_of_two_lines :
  body_texts (mkSlide (mkLayout "Title and Content" [0; 1]%nat)
                [PlaceholderShape 0 [empty_paragraph];
                 PlaceholderShape 1
                   (for_enumerate (content_paragraph blank_generator true false) 0
                      [two_lines] [empty_paragraph])]
                FillInherited)
  = Some ["x" +:+ VT +:+ "y"]
  /\ (exists slide,
        add_content_slide "Steps" ["A"; two_lines] "numbered" blank_generator
        = (inr 0%nat, appended blank_generator slide)
        /\ body_texts slide = Some ["1. A"; "2. x" +:+ VT +:+ "y"]).
Proof. split; [reflexivity|]. eexists. split; vm_compute; reflexivity. Qed.

(** On a layout with title and two bodies, as "Two Content" of the default
    template, [add_two_column_slide] returns and each body is what the loop
    over its list made of the cleared frame. *)
Lemma add_two_column_slide_bodies (self : PPTGenerator) (name : string) (rest : list nat)
    (title : string) (left_content right_content : list string) :
  slide_layouts (presentation self) !! 3%nat
  = Some (mkLayout name (0 :: 1 :: 2 :: rest)%nat) ->
  exists slide,
    add_two_column_slide title left_content right_content self
    = (inr (slide_count self), appended self slide)
    /\ placeholder_text_frame 1 slide
       = Some (for_enumerate (content_paragraph self false false) 0 left_content
                 [set_p_text "" empty_paragraph])
    /\ placeholder_text_frame 2 slide
       = Some (for_enumerate (content_paragraph self false false) 0 right_content
                 [set_p_text "" empty_paragraph]).
Proof.
  intros Hl. unfold add_two_column_slide, slide_layouts_getitem. st_simpl. rewrite Hl.
  rewrite slides_add_slide_appended. slide_ops. cbn.
  eexists. split; [reflexivity|]. split; reflexivity.
Qed.

(** X10. The two columns of a two-column slide are filled independently:
    the left list goes to placeholder 1 and the right list to placeholder
    2, each in order and whatever their lengths, an item without a line
    feed as given and a line feed as a line break; a column without items
    keeps one empty paragraph. *)
Theorem X10_columns_are_independent (self : PPTGenerator) (name : string)
    (rest : list nat) (title : string) (left_content right_content : list string) :
  slide_layouts (presentation self) !! 3%nat
  = Some (mkLayout name (0 :: 1 :: 2 :: rest)%nat) ->
  exists slide,
    add_two_column_slide title left_content right_content self
    = (inr (slide_count self), appended self slide)
    /\ placeholder_texts 1 slide = Some (texts_or_blank (stored_text <$> left_content))
    /\ placeholder_texts 2 slide = Some (texts_or_blank (stored_text <$> right_content))
    /\ (Forall (fun item => one_line item = true) left_content ->
        placeholder_texts 1 slide = Some (texts_or_blank left_content))
    /\ (Forall (fun item => one_line item = true) right_content ->
        placeholder_texts 2 slide = Some (texts_or_blank right_content)).
Proof.
  intros Hl.
  destruct (add_two_column_slide_bodies self name rest title left_content right_content Hl)
    as (slide & Hrun & Hleft & Hright).
  exists slide. split; [exact Hrun|]. unfold placeholder_texts.
  rewrite Hleft, Hright. cbn [option_map].
  assert (forall content,
             List.map p_text (for_enumerate (content_paragraph self false false) 0 content
                                [set_p_text "" empty_paragraph])
             = texts_or_blank (stored_text <$> content)) as Htexts
    by (intros content; apply (for_enumerate_plain_texts self false content)).
  rewrite !Htexts. split; [done|]. split; [done|].
  split; intros Hlines; by rewrite (stored_text_items _ Hlines).
Qed.

Lemma X10_columns_are_independent_witness :
  exists slide,
    add_two_column_slide "Pro and con" ["a"; "b"; "c"] [] blank_generator
    = (inr 0%nat, appended blank_generator slide)
    /\ placeholder_texts 1 slide = Some ["a"; "b"; "c"]
    /\ placeholder_texts 2 slide = Some [""].
Proof.
  destruct (X10_columns_are_independent blank_generator "Two Content" []
              "Pro and con" ["a"; "b"; "c"] [])
    as (slide & Hrun & _ & _ & Hleft & Hright); [reflexivity|].
  exists slide. split; [exact Hrun|].
  split; [apply Hleft | apply Hright]; by repeat constructor.
Defined.

(** X11. On a layout that has the title and one body only,
    [add_two_column_slide] fills the left column, an item without a line
    feed as given and a line feed as a line break, and drops the right list
    without an error: the call returns, and is the call with an empty right
    list. *)
Theorem X11_right_column_dropped_without_placeholder (self : PPTGenerator) (name : string)
    (title : string) (left_content right_content : list string) :
  slide_layouts (presentation self) !! 3%nat = Some (mkLayout name [0; 1]%nat) ->
  add_two_column_slide title left_content right_content self
  = add_two_column_slide title left_content [] self
  /\ exists slide,
      add_two_column_slide title left_content right_content self
      = (inr (slide_count self), appended self slide)
      /\ placeholder_texts 1 slide = Some (texts_or_blank (stored_text <$> left_content))
      /\ (Forall (fun item => one_line item = true) left_content ->
          placeholder_texts 1 slide = Some (texts_or_blank left_content))
      /\ length (shapes slide) = 2%nat.
Proof.
  intros Hl. unfold add_two_column_slide, slide_layouts_getitem. st_simpl. rewrite Hl.
  rewrite !slides_add_slide_appended. slide_ops. cbn.
  split; [reflexivity|].
  eexists. split; [reflexivity|].
  assert (forall content,
             List.map p_text (for_enumerate (content_paragraph self false false) 0 content
                                [set_p_text "" empty_paragraph])
             = texts_or_blank (stored_text <$> content)) as Htexts
    by (intros content; apply (for_enumerate_plain_texts self false content)).
  unfold placeholder_texts. cbn. rewrite Htexts.
  split; [done|]. split; [|reflexivity].
  intros Hlines. by rewrite (stored_text_items _ Hlines).
Qed.

Lemma X11_right_column_dropped_without_placeholder_witness :
  add_two_column_slide "Pro and con" ["a"] ["b"; "c"] single_body_generator
  = add_two_column_slide "Pro and con" ["a"] [] single_body_generator
  /\ exists slide,
      add_two_column_slide "Pro and con" ["a"] ["b"; "c"] single_body_generator
      = (inr 0%nat, appended single_body_generator slide)
      /\ placeholder_texts 1 slide = Some ["a"]
      /\ length (shapes slide) = 2%nat.
Proof.
  destruct (X11_right_column_dropped_without_placeholder single_body_generator
              "Title and Content" "Pro and con" ["a"] ["b"; "c"])
    as (Hsame & slide & Hrun & _ & Hleft & Hshapes); [reflexivity|].
  split; [exact Hsame|]. exists slide. split; [exact Hrun|]. split; [|exact Hshapes].
  apply Hleft. by repeat constructor.
Defined.

(** X12. On a layout that has the title placeholder only,
    [add_content_slide] drops the items without an error: the call returns
    and the slide holds the title alone. *)
Theorem X12_items_dropped_without_body_placeholder (self : PPTGenerator) (name : string)
    (title : string) (content : list string) (layout_type : string) :
  slide_layouts (presentation self) !! 1%nat = Some (mkLayout name [0%nat]) ->
  exists slide,
    add_content_slide title content layout_type self
    = (inr (slide_count self), appended self slide)
    /\ shapes slide
       = [PlaceholderShape 0
            (alter (title_format (Pt 36) (primary_color self)) 0%nat
               (text_frame_set_text title))].
Proof.
  intros Hl. unfold add_content_slide, slide_layouts_getitem. st_simpl. rewrite Hl.
  rewrite slides_add_slide_appended. slide_ops. cbn.
  eexists. split; reflexivity.
Qed.

Lemma X12_items_dropped_without_body_placeholder_witness :
  exists slide,
    add_content_slide "Steps" ["A"; "B"] "numbered" title_only_generator
    = (inr 0%nat, appended title_only_generator slide)
    /\ shapes slide
       = [PlaceholderShape 0
            (alter (title_format (Pt 36) (mkRGB 31 73 125)) 0%nat
               (text_frame_set_text "Steps"))].
Proof.
  apply (X12_items_dropped_without_body_placeholder title_only_generator "Title Only"
           "Steps" ["A"; "B"] "numbered").
  reflexivity.
Defined.

(** X13. Placeholders are looked up by their [idx], not by position.  On a
    layout with the title and a second placeholder whose [idx] is not 1,
    [add_content_slide] raises [KeyError]; the slide stays in the
    presentation, its title placeholder holding the title in 36 points,
    bold and in the primary colour, its other placeholders untouched. *)
Theorem X13_body_lookup_is_by_idx (self : PPTGenerator) (name : string) (idx : nat)
    (rest : list nat) (title : string) (content : list string) (layout_type : string) :
  slide_layouts (presentation self) !! 1%nat = Some (mkLayout name (0 :: idx :: rest)%nat) ->
  1%nat ∉ idx :: rest ->
  exists slide,
    add_content_slide title content layout_type self
    = (inl (KeyError "no placeholder on this slide with idx == 1"), appended self slide)
    /\ slide_count (appended self slide) = S (slide_count self)
    /\ shapes slide
       = PlaceholderShape 0
           (alter (title_format (Pt 36) (primary_color self)) 0%nat
              (text_frame_set_text title))
         :: ((fun i => PlaceholderShape i [empty_paragraph]) <$> idx :: rest).
Proof.
  intros Hl Hno. unfold add_content_slide, slide_layouts_getitem. st_simpl. rewrite Hl.
  rewrite slides_add_slide_appended. slide_ops.
  pose proof (find_index_placeholders 1 (idx :: rest)) as Hfind.
  rewrite (find_index_absent 1 _ Hno) in Hfind.
  cbn. cbn in Hfind. rewrite Hfind. cbn.
  eexists. split; [reflexivity|]. split; [apply slide_count_appended|]. reflexivity.
Qed.

Lemma X13_body_lookup_is_by_idx_witness :
  exists slide,
    add_content_slide "Steps" ["A"] "bullet" custom_idx_generator
    = (inl (KeyError "no placeholder on this slide with idx == 1"),
       appended custom_idx_generator slide)
    /\ slide_count (appended custom_idx_generator slide) = 1%nat
    /\ shapes slide
       = [PlaceholderShape 0
            (alter (title_format (Pt 36) (mkRGB 31 73 125)) 0%nat
               (text_frame_set_text "Steps"));
          PlaceholderShape 13 [empty_paragraph]].
Proof.
  apply (X13_body_lookup_is_by_idx custom_idx_generator "Custom" 13 [] "Steps" ["A"] "bullet").
  - reflexivity.
  - intros Hin. apply list_elem_of_singleton in Hin. discriminate Hin.
Defined.

(** ** Title slides *)

(** The subtitle placeholder after [add_title_slide], on a layout with the
    title placeholder first and the subtitle next. *)
Lemma add_title_slide_subtitle (self : PPTGenerator) (name : string) (rest : list nat)
    (title subtitle author : string) :
  slide_layouts (presentation self) !! 0%nat = Some (mkLayout name (0 :: 1 :: rest)%nat) ->
  exists slide,
    add_title_slide title subtitle author self
    = (inr (slide_count self), appended self slide)
    /\ placeholder_text_frame 1 slide
       = Some (let full_subtitle :=
                 if truthy author
                 then subtitle +:+ LF +:+ LF +:+ "Presented by: " +:+ author
                 else subtitle in
               if truthy full_subtitle
               then alter (set_p_font_color (accent_color self)
                           ∘ set_p_font_size (subtitle_font_size self)) 0%nat
                      (text_frame_set_text full_subtitle)
               else [empty_paragraph]).
Proof.
  intros Hl. unfold add_title_slide, slide_layouts_getitem. st_simpl. rewrite Hl.
  rewrite slides_add_slide_appended. slide_ops. cbn.
  destruct (truthy (if truthy author then _ else subtitle)); cbn;
    (eexists; split; [reflexivity|]); reflexivity.
Qed.

(** A line of a text holds no line feed, so it is stored as it is. *)
Lemma split_one_line (t : string) :
  Forall (fun line => one_line line = true) (split "010" t).
Proof.
  induction t as [|c t IH]; cbn [split]; [by repeat constructor|].
  destruct (Ascii.eqb c "010") eqn:Hc; [by constructor|].
  destruct (split "010" t) as [|w ws]; [by repeat constructor; cbn; rewrite Hc|].
  apply Forall_cons in IH as [Hw Hws]. constructor; [|exact Hws].
  cbn. by rewrite Hc.
Qed.

Lemma truthy_app_l (a b : string) : truthy b = true -> truthy (a +:+ b) = true.
Proof.
  unfold truthy. destruct a as [|x a]; [done|]. reflexivity.
Qed.

(** X14. With an author, the subtitle placeholder of a title slide holds
    the lines of the subtitle, an empty line and the attribution
    "Presented by: " followed by the author.  Only the first of these
    paragraphs gets the subtitle font size and the accent colour; the
    others, the attribution among them, carry no font setting. *)
Theorem X14_author_is_attributed_after_subtitle (self : PPTGenerator) (name : string)
    (rest : list nat) (title subtitle author : string) :
  slide_layouts (presentation self) !! 0%nat = Some (mkLayout name (0 :: 1 :: rest)%nat) ->
  author <> "" ->
  exists slide first others,
    add_title_slide title subtitle author self
    = (inr (slide_count self), appended self slide)
    /\ placeholder_text_frame 1 slide = Some (first :: others)
    /\ p_text <$> (first :: others)
       = split "010"%char subtitle ++ "" :: split "010"%char ("Presented by: " +:+ author)
    /\ p_font_size first = Some (subtitle_font_size self)
    /\ p_font_color first = Some (accent_color self)
    /\ Forall (fun p => p_font_size p = None /\ p_font_color p = None) others.
Proof.
  intros Hl Hauthor%String.eqb_neq.
  destruct (add_title_slide_subtitle self name rest title subtitle author Hl)
    as (slide & Hrun & Hsub).
  assert (truthy author = true) as Htruthy by (unfold truthy; by rewrite Hauthor).
  rewrite Htruthy in Hsub. cbv zeta in Hsub.
  rewrite truthy_app_l in Hsub.
  2:{ unfold LF. reflexivity. }
  unfold text_frame_set_text, LF in Hsub.
  change (subtitle +:+ String "010" "" +:+ String "010" "" +:+ "Presented by: " +:+ author)
    with (subtitle +:+ String "010"%char (String "010"%char ("Presented by: " +:+ author)))
    in Hsub.
  rewrite split_app_sep in Hsub.
  change (split "010" (String "010" ("Presented by: " +:+ author)))
    with ("" :: split "010"%char ("Presented by: " +:+ author)) in Hsub.
  destruct (split "010"%char subtitle) as [|line lines] eqn:Hs;
    [by apply split_nonempty in Hs|].
  cbn in Hsub.
  pose proof (split_one_line subtitle) as Hlines. rewrite Hs in Hlines.
  eexists slide, _, _. split; [exact Hrun|]. split; [exact Hsub|].
  split.
  - transitivity (stored_text <$> ((line :: lines)
                                   ++ "" :: split "010" ("Presented by: " +:+ author))).
    { cbn. f_equal. by rewrite <- list_fmap_compose. }
    apply stored_text_items, Forall_app. split; [exact Hlines|].
    constructor; [done | apply split_one_line].
  - split; [reflexivity|]. split; [reflexivity|].
    apply Forall_fmap, Forall_true. by intros p.
Qed.

Lemma X14_author_is_attributed_after_subtitle_witness :
  exists slide first others,
    add_title_slide "Deck" "Overview" "Team" blank_generator
    = (inr 0%nat, appended blank_generator slide)
    /\ placeholder_text_frame 1 slide = Some (first :: others)
    /\ p_text <$> (first :: others) = ["Overview"; ""; "Presented by: Team"]
    /\ p_font_size first = Some (Pt 28)
    /\ p_font_color first = Some (mkRGB 79 129 189)
    /\ Forall (fun p => p_font_size p = None /\ p_font_color p = None) others.
Proof.
  apply (X14_author_is_attributed_after_subtitle blank_generator "Title Slide" []
           "Deck" "Overview" "Team").
  - reflexivity.
  - apply String.eqb_neq. reflexivity.
Defined.

(** ** Image slides with a file at the path *)

Lemma os_path_exists_found (fs : FileSystem) (path : string) (f : File) :
  path <> "" -> files fs !! fs_key fs path = Some f -> os_path_exists fs path = true.
Proof.
  intros Hne%String.eqb_neq Hf. unfold os_path_exists. rewrite Hne, Hf. reflexivity.
Qed.

(** X15. When the path holds an image, the image slide carries, after the
    placeholders of its layout, the centred title box and the picture,
    placed at 2 in, 2 in and 6 in wide; the caption box follows exactly
    when the caption is not empty. *)
Theorem X15_picture_and_optional_caption (fs : FileSystem) (self : PPTGenerator)
    (name : string) (rest : list nat) (title image_path caption : string) :
  slide_layouts (presentation self) !! 6%nat = Some (mkLayout name rest) ->
  image_path <> "" ->
  files fs !! fs_key fs image_path = Some ImageFile ->
  exists slide,
    add_image_slide fs title image_path caption self
    = (inr (slide_count self), appended self slide)
    /\ shapes slide
       = shapes (new_slide (mkLayout name rest))
         ++ [TextBoxShape (Inches 1) (Inches 0.5) (Inches 8) (Inches 1)
               (alter (set_p_alignment CENTER ∘ title_format (Pt 36) (primary_color self))
                      0%nat (text_frame_set_text title));
             PictureShape image_path (Inches 2) (Inches 2) (Inches 6)]
         ++ (if truthy caption
             then [TextBoxShape (Inches 1) (Inches 6.5) (Inches 8) (Inches 0.5)
                     (alter (set_p_alignment CENTER ∘ set_p_font_color (mkRGB 96 96 96)
                             ∘ set_p_font_size (Pt 14))
                            0%nat (text_frame_set_text caption))]
             else []).
Proof.
  intros Hl Hne Himg.
  pose proof (os_path_exists_found fs image_path _ Hne Himg) as Hex.
  unfold add_image_slide, slide_layouts_getitem. st_simpl. rewrite Hl.
  rewrite slides_add_slide_appended. rewrite Hex.
  unfold shapes_add_picture. rewrite Himg. slide_ops. cbn.
  destruct (truthy caption); cbn; (eexists; split; [reflexivity|]); cbn.
  - rewrite !alter_snoc. by rewrite <- !app_assoc.
  - rewrite !alter_snoc. by rewrite <- !app_assoc.
Qed.

Lemma X15_picture_and_optional_caption_witness :
  exists slide,
    add_image_slide photo_fs "Picture" "photo.png" "" blank_generator
    = (inr 0%nat, appended blank_generator slide)
    /\ shapes slide
       = [TextBoxShape (Inches 1) (Inches 0.5) (Inches 8) (Inches 1)
            (alter (set_p_alignment CENTER ∘ title_format (Pt 36) (mkRGB 31 73 125))
                   0%nat (text_frame_set_text "Picture"));
          PictureShape "photo.png" (Inches 2) (Inches 2) (Inches 6)].
Proof.
  apply (X15_picture_and_optional_caption photo_fs blank_generator "Blank" []
           "Picture" "photo.png" "").
  - reflexivity.
  - apply String.eqb_neq. reflexivity.
  - vm_compute. reflexivity.
Defined.

(** X16. When something other than an image is at the path,
    [add_image_slide] raises, and the slide with its title box, appended
    before the picture was tried, stays in the presentation. *)
Theorem X16_unreadable_image_leaves_slide (fs : FileSystem) (self : PPTGenerator)
    (name : string) (rest : list nat) (title image_path caption : string) (f : File) :
  slide_layouts (presentation self) !! 6%nat = Some (mkLayout name rest) ->
  image_path <> "" ->
  files fs !! fs_key fs image_path = Some f ->
  f <> ImageFile ->
  exists e slide,
    add_image_slide fs title image_path caption self = (inl e, appended self slide)
    /\ slide_count (appended self slide) = S (slide_count self)
    /\ length (shapes slide) = S (length rest).
Proof.
  intros Hl Hne Hf Hnot.
  pose proof (os_path_exists_found fs image_path _ Hne Hf) as Hex.
  unfold add_image_slide, slide_layouts_getitem. st_simpl. rewrite Hl.
  rewrite slides_add_slide_appended. rewrite Hex.
  unfold shapes_add_picture. rewrite Hf. slide_ops.
  destruct f; try done; cbn;
    (eexists _, _; split; [reflexivity|]; split; [apply slide_count_appended|]);
    cbn; rewrite !length_alter, length_app, length_fmap; cbn; lia.
Qed.

Lemma X16_unreadable_image_leaves_slide_witness :
  exists e slide,
    add_image_slide template_fs "Picture" "base.pptx" "caption" blank_generator
    = (inl e, appended blank_generator slide)
    /\ slide_count (appended blank_generator slide) = 1%nat
    /\ length (shapes slide) = 1%nat.
Proof.
  apply (X16_unreadable_image_leaves_slide template_fs blank_generator "Blank" []
           "Picture" "base.pptx" "caption" (PptxFile one_slide_deck)).
  - reflexivity.
  - apply String.eqb_neq. reflexivity.
  - vm_compute. reflexivity.
  - discriminate.
Defined.

(** ** More on saving *)

Lemma save_path_with_extension (fs : FileSystem) (filename : string) :
  endswith filename ".pptx" = false ->
  save_path fs (filename +:+ ".pptx") = save_path fs filename.
Proof.
  intros Hno. unfold save_path. by rewrite Hno, endswith_app.
Qed.

(** X17. Giving [save] a name without the extension is the same as giving
    it the name with ".pptx" appended: same path returned, same file
    written, same error otherwise. *)
Theorem X17_save_extension_is_optional (filename : string) (fs : FileSystem)
    (self : PPTGenerator) :
  endswith filename ".pptx" = false ->
  save filename fs self = save (filename +:+ ".pptx") fs self.
Proof.
  intros Hno. by rewrite !save_unfold, (save_path_with_extension fs filename Hno).
Qed.

Lemma X17_save_extension_is_optional_witness :
  save "report.v2" work_fs blank_generator = save ("report.v2" +:+ ".pptx") work_fs blank_generator.
Proof.
  apply (X17_save_extension_is_optional "report.v2" work_fs blank_generator).
  reflexivity.
Defined.

Lemma written_written (fs : FileSystem) (path : string) (a b : Presentation) :
  written (written fs path a) path b = written fs path b.
Proof. unfold written. cbn. by rewrite insert_insert_eq. Qed.

(** X18. Saving again under the same name overwrites the file: after a
    [save] that returned, a second [save] of the generator in any later
    state returns the same path, and the file store is the one a single
    [save] of that later state would have left. *)
Theorem X18_resave_overwrites (filename : string) (fs fs1 : FileSystem)
    (self later : PPTGenerator) (path : string) :
  isabs (cwd fs) = true ->
  save filename fs self = (inr path, self, fs1) ->
  save filename fs1 later = (inr path, later, written fs path (presentation later))
  /\ save filename fs later = (inr path, later, written fs path (presentation later))
  /\ file_slide_count (written fs path (presentation later)) path = Some (slide_count later).
Proof.
  intros Hcwd Hsave. rewrite save_unfold in Hsave.
  destruct (can_write fs (save_path fs filename)) eqn:Hw; [|discriminate Hsave].
  pose proof (save_path_isabs fs filename Hcwd) as Habs.
  rewrite (fs_key_abs _ _ Habs) in Hsave. injection Hsave as <- <-.
  set (p := save_path fs filename) in *.
  set (fs1 := mkFS (cwd fs) (<[p := PptxFile (presentation self)]> (files fs))).
  change fs1 with (written fs p (presentation self)).
  split; [|split].
  - rewrite save_returns.
    + change (save_path (written fs p (presentation self)) filename) with p.
      by rewrite written_written.
    + exact Hcwd.
    + change (save_path (written fs p (presentation self)) filename) with p.
      by apply can_write_written.
  - by apply save_returns.
  - apply file_slide_count_written.
Qed.

Lemma X18_resave_overwrites_witness :
  save "deck" (written work_fs "/work/deck.pptx" default_presentation)
    (snd (add_section_slide "Intro" None blank_generator))
  = (inr "/work/deck.pptx", snd (add_section_slide "Intro" None blank_generator),
     written work_fs "/work/deck.pptx"
       (presentation (snd (add_section_slide "Intro" None blank_generator))))
  /\ save "deck" work_fs (snd (add_section_slide "Intro" None blank_generator))
     = (inr "/work/deck.pptx", snd (add_section_slide "Intro" None blank_generator),
        written work_fs "/work/deck.pptx"
          (presentation (snd (add_section_slide "Intro" None blank_generator))))
  /\ file_slide_count
       (written work_fs "/work/deck.pptx"
          (presentation (snd (add_section_slide "Intro" None blank_generator))))
       "/work/deck.pptx"
     = Some (slide_count (snd (add_section_slide "Intro" None blank_generator))).
Proof.
  apply (X18_resave_overwrites "deck" work_fs
           (written work_fs "/work/deck.pptx" default_presentation) blank_generator
           (snd (add_section_slide "Intro" None blank_generator)) "/work/deck.pptx").
  - reflexivity.
  - vm_compute. reflexivity.
Defined.

(** ** More on theme colours and construction *)

(** X19. [set_theme_colors] converts and assigns the primary colour before
    it looks at the accent colour.  With a valid primary and an invalid
    accent tuple it raises with the primary colour already replaced and the
    accent colour as before; with an invalid primary tuple it raises with
    both colours as before, whatever the accent tuple. *)
Theorem X19_theme_update_is_not_atomic (primary accent : Z * Z * Z) (self : PPTGenerator) :
  (valid_color primary -> ~ valid_color accent ->
   exists self',
     set_theme_colors primary accent self
     = (inl (ValueError "RGBColor() takes three integer values 0-255"), self')
     /\ self' = mkGen (presentation self) (title_font_size self)
                  (subtitle_font_size self) (content_font_size self)
                  (rgb_of primary) (accent_color self)
     /\ primary_color self' = rgb_of primary
     /\ accent_color self' = accent_color self)
  /\ (~ valid_color primary ->
      set_theme_colors primary accent self
      = (inl (ValueError "RGBColor() takes three integer values 0-255"), self)).
Proof.
  unfold set_theme_colors. st_simpl. split.
  - intros Hp Ha.
    rewrite (RGBColor_of_tuple_valid _ Hp), (RGBColor_of_tuple_invalid _ Ha).
    eexists. split; [reflexivity|]. by repeat split.
  - intros Hp. by rewrite (RGBColor_of_tuple_invalid _ Hp).
Qed.

Lemma X19_theme_update_is_not_atomic_witness :
  (exists self',
     set_theme_colors (10, 20, 30) (0, 0, 256) blank_generator
     = (inl (ValueError "RGBColor() takes three integer values 0-255"), self')
     /\ self' = mkGen default_presentation (Pt 44) (Pt 28) (Pt 18)
                  (mkRGB 10 20 30) (mkRGB 79 129 189)
     /\ primary_color self' = mkRGB 10 20 30
     /\ accent_color self' = mkRGB 79 129 189)
  /\ set_theme_colors (-1, 20, 30) (1, 2, 3) blank_generator
     = (inl (ValueError "RGBColor() takes three integer values 0-255"), blank_generator).
Proof.
  split.
  - apply (proj1 (X19_theme_update_is_not_atomic (10, 20, 30) (0, 0, 256) blank_generator));
      unfold valid_color, valid_channel; lia.
  - apply (proj2 (X19_theme_update_is_not_atomic (-1, 20, 30) (1, 2, 3) blank_generator)).
    unfold valid_color, valid_channel. lia.
Defined.

(** X20. A template path that names a stored deck gives a generator on
    that deck, with the layouts and the slides of the file, and with the
    same font sizes and theme colours as a generator without template. *)
Theorem X20_template_brings_its_slides (fs : FileSystem) (template_path : string)
    (prs : Presentation) :
  template_path <> "" ->
  files fs !! fs_key fs template_path = Some (PptxFile prs) ->
  __init__ fs (Some template_path)
  = inr (mkGen prs (Pt 44) (Pt 28) (Pt 18) (mkRGB 31 73 125) (mkRGB 79 129 189))
  /\ __init__ fs None
     = inr (mkGen default_presentation (Pt 44) (Pt 28) (Pt 18)
              (mkRGB 31 73 125) (mkRGB 79 129 189)).
Proof.
  intros Hne Hf.
  pose proof (os_path_exists_found fs template_path _ Hne Hf) as Hex.
  unfold __init__. unfold truthy. apply String.eqb_neq in Hne. rewrite Hne, Hex.
  cbn [negb andb Presentation_open]. by rewrite Hf.
Qed.

Lemma X20_template_brings_its_slides_witness :
  __init__ template_fs (Some "base.pptx")
  = inr (mkGen one_slide_deck (Pt 44) (Pt 28) (Pt 18) (mkRGB 31 73 125) (mkRGB 79 129 189))
  /\ __init__ template_fs None
     = inr (mkGen default_presentation (Pt 44) (Pt 28) (Pt 18)
              (mkRGB 31 73 125) (mkRGB 79 129 189)).
Proof.
  apply (X20_template_brings_its_slides template_fs "base.pptx" one_slide_deck).
  - apply String.eqb_neq. reflexivity.
  - vm_compute. reflexivity.
Defined.

(** * The example scripts *)

(** Only [add_image_slide] looks at the file store. *)
Lemma run_call_fs_irrelevant (fs fs' : FileSystem) (c : Call) :
  uses_title_placeholder c = true -> run_call fs c = run_call fs' c.
Proof. by destruct c. Qed.

Lemma run_calls_fs_irrelevant (fs fs' : FileSystem) (cs : list Call) :
  Forall (fun c => uses_title_placeholder c = true) cs ->
  run_calls fs cs = run_calls fs' cs.
Proof.
  induction 1 as [|c cs Hc _ IH]; cbn [run_calls]; [reflexivity|].
  by rewrite (run_call_fs_irrelevant fs fs' c Hc), IH.
Qed.

Lemma save_path_stamped (fs : FileSystem) (stem : string) :
  save_path fs (stem +:+ ".pptx") = os_path_abspath (cwd fs) (stem +:+ ".pptx").
Proof. unfold save_path. by rewrite endswith_app. Qed.

Lemma save_saved_or_raised (filename : string) (fs : FileSystem) (self : PPTGenerator) :
  isabs (cwd fs) = true ->
  (let '(r, _, fs') := save filename fs self in (r, fs'))
  = saved_or_raised fs (save_path fs filename) (presentation self).
Proof.
  intros Hcwd. unfold saved_or_raised.
  destruct (can_write fs (save_path fs filename)) eqn:Hw.
  - by rewrite save_returns.
  - by rewrite save_raises.
Qed.

(** A script without image slides whose calls all return on a new
    generator ends in [save] on any file store. *)
Lemma run_script_result (fs : FileSystem) (theme : option ((Z * Z * Z) * (Z * Z * Z)))
    (calls : list Call) (filename : string) (refs : list nat) :
  Forall (fun c => uses_title_placeholder c = true) calls ->
  fst ((match theme with
        | Some (primary, accent) => set_theme_colors primary accent
        | None => ret tt
        end ;;; run_calls work_fs calls) blank_generator) = inr refs ->
  isabs (cwd fs) = true ->
  run_script fs theme calls filename
  = saved_or_raised fs (save_path fs filename) (presentation (script_generator theme calls)).
Proof.
  intros Hcalls Hrun Hcwd. unfold run_script, script_generator.
  rewrite init_without_template.
  rewrite (run_calls_fs_irrelevant fs work_fs calls Hcalls).
  destruct ((match theme with Some _ => _ | None => _ end ;;; run_calls work_fs calls)
              blank_generator) as [[e|r] ppt]; [discriminate Hrun|].
  cbn [snd]. rewrite <- (save_saved_or_raised filename fs ppt Hcwd).
  by destruct (save filename fs ppt) as [[[e|path] ppt'] fs'].
Qed.

Ltac no_image_slides := repeat (apply List.Forall_cons; [reflexivity|]); apply List.Forall_nil.

(** X21. [create_simple_presentation] works on any file store: it saves
    under [simple_example.pptx] in the working directory.  When that file
    can be written, it returns its absolute path and the file holds the
    four slides the script builds, on the layouts "Title Slide", "Title and
    Content", "Two Content" and "Section Header"; otherwise it raises the
    error of [save] and the store is as before. *)
Theorem X21_simple_presentation_has_four_slides (fs : FileSystem) :
  isabs (cwd fs) = true ->
  exists deck,
    create_simple_presentation fs
    = saved_or_raised fs (os_path_abspath (cwd fs) "simple_example.pptx") deck
    /\ length (slides deck) = 4%nat
    /\ layout_names deck
       = ["Title Slide"; "Title and Content"; "Two Content"; "Section Header"].
Proof.
  intros Hcwd. exists (presentation (script_generator None simple_calls)).
  split; [|split; vm_compute; reflexivity].
  unfold create_simple_presentation.
  rewrite (run_script_result fs None simple_calls "simple_example.pptx" (seq 0 4));
    [reflexivity | no_image_slides | vm_compute; reflexivity | exact Hcwd].
Qed.

Lemma X21_simple_presentation_has_four_slides_witness :
  exists deck,
    create_simple_presentation work_fs
    = (inr "/work/simple_example.pptx", written work_fs "/work/simple_example.pptx" deck)
    /\ length (slides deck) = 4%nat
    /\ layout_names deck
       = ["Title Slide"; "Title and Content"; "Two Content"; "Section Header"].
Proof.
  destruct (X21_simple_presentation_has_four_slides work_fs) as (deck & Hrun & Hlen & Hnames).
  - reflexivity.
  - exists deck. split; [exact Hrun|]. by split.
Defined.

Lemma save_path_prefixed (fs : FileSystem) (prefix now : string) :
  save_path fs (prefix +:+ now +:+ ".pptx")
  = os_path_abspath (cwd fs) (prefix +:+ now +:+ ".pptx").
Proof.
  unfold save_path. rewrite endswith_app_l; [reflexivity | apply endswith_app].
Qed.

(** X22. [create_sample_devops_presentation] saves fourteen slides, one of
    them with a clustered-column chart, under
    [devops_presentation_<time stamp>.pptx], the extension being written
    once.  The theme colours it sets are the default ones, so the deck is
    the one the script builds without that call. *)
Theorem X22_devops_presentation_has_fourteen_slides (now : string) (fs : FileSystem) :
  isabs (cwd fs) = true ->
  exists deck,
    create_sample_devops_presentation now fs
    = saved_or_raised fs
        (os_path_abspath (cwd fs) ("devops_presentation_" +:+ now +:+ ".pptx")) deck
    /\ length (slides deck) = 14%nat
    /\ deck_chart_types deck = [COLUMN_CLUSTERED]
    /\ deck = presentation (script_generator None devops_calls).
Proof.
  intros Hcwd.
  exists (presentation (script_generator (Some ((31, 73, 125), (79, 129, 189))) devops_calls)).
  split; [|split; [|split]; vm_compute; reflexivity].
  unfold create_sample_devops_presentation.
  rewrite (run_script_result fs _ devops_calls _ (seq 0 14));
    [by rewrite save_path_prefixed | no_image_slides | vm_compute; reflexivity | exact Hcwd].
Qed.

Lemma X22_devops_presentation_has_fourteen_slides_witness :
  exists deck,
    create_sample_devops_presentation "20250101_120000" work_fs
    = (inr "/work/devops_presentation_20250101_120000.pptx",
       written work_fs "/work/devops_presentation_20250101_120000.pptx" deck)
    /\ length (slides deck) = 14%nat
    /\ deck_chart_types deck = [COLUMN_CLUSTERED]
    /\ deck = presentation (script_generator None devops_calls).
Proof.
  destruct (X22_devops_presentation_has_fourteen_slides "20250101_120000" work_fs)
    as (deck & Hrun & Hrest).
  - reflexivity.
  - exists deck. split; [exact Hrun | exact Hrest].
Defined.

(** X23. [create_comprehensive_demo] saves the twenty-three slides its
    comments count, under [comprehensive_demo_<time stamp>.pptx]; the four
    charts are of the kinds column, line, pie and column, in this order. *)
Theorem X23_comprehensive_demo_has_23_slides (now : string) (fs : FileSystem) :
  isabs (cwd fs) = true ->
  exists deck,
    create_comprehensive_demo now fs
    = saved_or_raised fs
        (os_path_abspath (cwd fs) ("comprehensive_demo_" +:+ now +:+ ".pptx")) deck
    /\ length (slides deck) = 23%nat
    /\ deck_chart_types deck = [COLUMN_CLUSTERED; LINE; PIE; COLUMN_CLUSTERED].
Proof.
  intros Hcwd.
  exists (presentation (script_generator (Some ((45, 85, 140), (70, 130, 200))) demo_calls)).
  split; [|split; vm_compute; reflexivity].
  unfold create_comprehensive_demo.
  rewrite (run_script_result fs _ demo_calls _ (seq 0 23));
    [by rewrite save_path_prefixed | no_image_slides | vm_compute; reflexivity | exact Hcwd].
Qed.

Lemma X23_comprehensive_demo_has_23_slides_witness :
  exists deck,
    create_comprehensive_demo "20250101_120000" work_fs
    = (inr "/work/comprehensive_demo_20250101_120000.pptx",
       written work_fs "/work/comprehensive_demo_20250101_120000.pptx" deck)
    /\ length (slides deck) = 23%nat
    /\ deck_chart_types deck = [COLUMN_CLUSTERED; LINE; PIE; COLUMN_CLUSTERED].
Proof.
  destruct (X23_comprehensive_demo_has_23_slides "20250101_120000" work_fs)
    as (deck & Hrun & Hrest).
  - reflexivity.
  - exists deck. split; [exact Hrun | exact Hrest].
Defined.

(** X24. [create_python_introduction_ppt] saves the thirty slides its
    comments count, under [python_introduction_<time stamp>.pptx]; every
    title is in the blue the script sets as primary colour, except those of
    the section slides, which are white. *)
Theorem X24_python_introduction_has_30_slides (now : string) (fs : FileSystem) :
  isabs (cwd fs) = true ->
  exists deck,
    create_python_introduction_ppt now fs
    = saved_or_raised fs
        (os_path_abspath (cwd fs) ("python_introduction_" +:+ now +:+ ".pptx")) deck
    /\ length (slides deck) = 30%nat
    /\ title_color <$> slides deck
       = (fun s => Some (if String.eqb (layout_name (slide_layout s)) "Section Header"
                         then mkRGB 255 255 255 else mkRGB 55 118 171))
         <$> slides deck.
Proof.
  intros Hcwd.
  exists (presentation
            (script_generator (Some ((55, 118, 171), (255, 212, 59))) python_introduction_calls)).
  split; [|split; vm_compute; reflexivity].
  unfold create_python_introduction_ppt.
  rewrite (run_script_result fs _ python_introduction_calls _ (seq 0 30));
    [by rewrite save_path_prefixed | no_image_slides | vm_compute; reflexivity | exact Hcwd].
Qed.

Lemma X24_python_introduction_has_30_slides_witness :
  exists deck,
    create_python_introduction_ppt "20250101_120000" work_fs
    = (inr "/work/python_introduction_20250101_120000.pptx",
       written work_fs "/work/python_introduction_20250101_120000.pptx" deck)
    /\ length (slides deck) = 30%nat
    /\ title_color <$> slides deck
       = (fun s => Some (if String.eqb (layout_name (slide_layout s)) "Section Header"
                         then mkRGB 255 255 255 else mkRGB 55 118 171))
         <$> slides deck.
Proof.
  destruct (X24_python_introduction_has_30_slides "20250101_120000" work_fs)
    as (deck & Hrun & Hrest).
  - reflexivity.
  - exists deck. split; [exact Hrun | exact Hrest].
Defined.

(** ** Running all examples *)

Lemma create_simple_presentation_result (fs : FileSystem) :
  isabs (cwd fs) = true ->
  create_simple_presentation fs
  = saved_or_raised fs (os_path_abspath (cwd fs) "simple_example.pptx")
      (presentation (script_generator None simple_calls)).
Proof.
  intros Hcwd. unfold create_simple_presentation.
  rewrite (run_script_result fs None simple_calls "simple_example.pptx" (seq 0 4));
    [reflexivity | no_image_slides | vm_compute; reflexivity | exact Hcwd].
Qed.

Lemma create_sample_devops_presentation_result (now : string) (fs : FileSystem) :
  isabs (cwd fs) = true ->
  create_sample_devops_presentation now fs
  = saved_or_raised fs
      (os_path_abspath (cwd fs) ("devops_presentation_" +:+ now +:+ ".pptx"))
      (presentation (script_generator (Some ((31, 73, 125), (79, 129, 189))) devops_calls)).
Proof.
  intros Hcwd. unfold create_sample_devops_presentation.
  rewrite (run_script_result fs _ devops_calls _ (seq 0 14));
    [by rewrite save_path_prefixed | no_image_slides | vm_compute; reflexivity | exact Hcwd].
Qed.

Lemma create_comprehensive_demo_result (now : string) (fs : FileSystem) :
  isabs (cwd fs) = true ->
  create_comprehensive_demo now fs
  = saved_or_raised fs
      (os_path_abspath (cwd fs) ("comprehensive_demo_" +:+ now +:+ ".pptx"))
      (presentation (script_generator (Some ((45, 85, 140), (70, 130, 200))) demo_calls)).
Proof.
  intros Hcwd. unfold create_comprehensive_demo.
  rewrite (run_script_result fs _ demo_calls _ (seq 0 23));
    [by rewrite save_path_prefixed | no_image_slides | vm_compute; reflexivity | exact Hcwd].
Qed.

(** Writing a deck changes nothing about which files can be written. *)
Lemma can_write_after_write (fs : FileSystem) (p1 p2 : string) (prs : Presentation) :
  isabs p1 = true -> isabs p2 = true ->
  can_write fs p1 = true ->
  can_write (written fs p1 prs) p2 = can_write fs p2.
Proof.
  intros H1 H2. unfold can_write.
  rewrite !fs_key_abs by done. cbn [files written].
  intros [_ Hn1]%andb_true_iff. f_equal.
  - destruct (decide (p1 = os_path_dirname p2)) as [Heq|Hne].
    + rewrite <- Heq, lookup_insert_eq. cbn.
      destruct (is_directory (files fs !! p1)); [discriminate Hn1 | reflexivity].
    + by rewrite lookup_insert_ne.
  - destruct (decide (p1 = p2)) as [->|Hne].
    + rewrite lookup_insert_eq. cbn. by rewrite Hn1.
    + by rewrite lookup_insert_ne.
Qed.

Lemma try_example_saved_or_raised (name description : string)
    (create : FileSystem -> (exception + string) * FileSystem)
    (examples : list Example) (fs : FileSystem) (path : string) (prs : Presentation) :
  create fs = saved_or_raised fs path prs ->
  try_example name description create (examples, fs)
  = if can_write fs path
    then (examples ++ [mkExample name path description], written fs path prs)
    else (examples, fs).
Proof.
  intros Hc. unfold try_example, saved_or_raised in *. rewrite Hc.
  by destruct (can_write fs path).
Qed.

(** X25. [run_all_examples] runs the three scripts one after the other and
    catches what each raises: the list it returns holds, in the order
    simple, DevOps, demo, an entry with the saved path for exactly those
    scripts whose file can be written in the file store it started with; a
    script that fails neither stops nor affects the ones after it. *)
Theorem X25_examples_fail_independently (now_devops now_demo : string) (fs : FileSystem) :
  isabs (cwd fs) = true ->
  let p1 := os_path_abspath (cwd fs) "simple_example.pptx" in
  let p2 := os_path_abspath (cwd fs) ("devops_presentation_" +:+ now_devops +:+ ".pptx") in
  let p3 := os_path_abspath (cwd fs) ("comprehensive_demo_" +:+ now_demo +:+ ".pptx") in
  fst (run_all_examples now_devops now_demo fs)
  = (if can_write fs p1
     then [mkExample "Simple Example" p1 "Basic demonstration with 4 slides"] else [])
    ++ (if can_write fs p2
        then [mkExample "DevOps Best Practices" p2
                "Comprehensive DevOps presentation with charts"] else [])
    ++ (if can_write fs p3
        then [mkExample "Comprehensive Demo" p3 "23-slide showcase of all features"]
        else []).
Proof.
  intros Hcwd p1 p2 p3.
  assert (Ha1 : isabs p1 = true) by by apply abspath_isabs.
  assert (Ha2 : isabs p2 = true) by by apply abspath_isabs.
  assert (Ha3 : isabs p3 = true) by by apply abspath_isabs.
  unfold run_all_examples.
  rewrite (try_example_saved_or_raised _ _ _ _ fs p1 _
             (create_simple_presentation_result fs Hcwd)).
  fold p1.
  destruct (can_write fs p1) eqn:Hw1.
  - rewrite (try_example_saved_or_raised _ _ _ _ _ p2 _
               (create_sample_devops_presentation_result now_devops
                  (written fs p1 _) Hcwd)).
    rewrite (can_write_after_write fs p1 p2 _ Ha1 Ha2 Hw1).
    destruct (can_write fs p2) eqn:Hw2.
    + rewrite (try_example_saved_or_raised _ _ _ _ _ p3 _
                 (create_comprehensive_demo_result now_demo (written (written fs p1 _) p2 _)
                    Hcwd)).
      rewrite (can_write_after_write _ p2 p3 _ Ha2 Ha3)
        by by rewrite (can_write_after_write fs p1 p2 _ Ha1 Ha2 Hw1).
      rewrite (can_write_after_write fs p1 p3 _ Ha1 Ha3 Hw1).
      by destruct (can_write fs p3).
    + rewrite (try_example_saved_or_raised _ _ _ _ _ p3 _
                 (create_comprehensive_demo_result now_demo (written fs p1 _) Hcwd)).
      rewrite (can_write_after_write fs p1 p3 _ Ha1 Ha3 Hw1).
      by destruct (can_write fs p3).
  - rewrite (try_example_saved_or_raised _ _ _ _ fs p2 _
               (create_sample_devops_presentation_result now_devops fs Hcwd)).
    destruct (can_write fs p2) eqn:Hw2.
    + rewrite (try_example_saved_or_raised _ _ _ _ _ p3 _
                 (create_comprehensive_demo_result now_demo (written fs p2 _) Hcwd)).
      rewrite (can_write_after_write fs p2 p3 _ Ha2 Ha3 Hw2).
      by destruct (can_write fs p3).
    + rewrite (try_example_saved_or_raised _ _ _ _ fs p3 _
                 (create_comprehensive_demo_result now_demo fs Hcwd)).
      by destruct (can_write fs p3).
Qed.

Lemma X25_examples_fail_independently_witness :
  fst (run_all_examples "20250101_120000" "20250101_120001" blocked_fs)
  = [ mkExample "Simple Example" "/work/simple_example.pptx"
        "Basic demonstration with 4 slides";
      mkExample "Comprehensive Demo" "/work/comprehensive_demo_20250101_120001.pptx"
        "23-slide showcase of all features" ].
Proof.
  pose proof (X25_examples_fail_independently "20250101_120000" "20250101_120001"
                blocked_fs eq_refl) as H.
  cbv zeta in H. rewrite H. vm_compute. reflexivity.
Defined.

(** * The interactive builder *)

Local Open Scope io_scope.

Example custom_session_minimal :
  create_custom_presentation (fun _ => "20250101_120000")
    (menu_world ["Deck"; "Overview"; "Team"; "4"; ""] work_fs)
  = (inr tt,
     mkWorld []
       (written work_fs "/work/custom_presentation_20250101_120000.pptx"
          (presentation (snd (add_title_slide "Deck" "Overview" "Team" blank_generator))))
       1).
Proof. vm_compute. reflexivity. Qed.

Lemma read_points_from_spec (answers : list string) :
  match read_points_from answers with
  | (inl stop, rest) => stop = EOFError /\ rest = []
  | (inr _, rest) => (length rest < length answers)%nat
  end.
Proof.
  induction answers as [|point answers IH]; cbn; [done|].
  destruct (truthy point); [|cbn; lia].
  destruct (read_points_from answers) as [[stop|content] rest]; cbn in *; [done | lia].
Qed.

Lemma ended_well_mono (fs : FileSystem) (m n : nat) (out : (Stop + unit) * World) :
  (m <= n)%nat -> ended_well fs n out -> ended_well fs m out.
Proof.
  unfold ended_well. intros Hle. destruct (fst out) as [[]|]; try done.
  intros (filename & ppt & Hfs & Hcount). exists filename, ppt. split; [done | lia].
Qed.

(** On the default layouts the three methods the menu calls return. *)
Lemma call_add_content_slide (ppt : PPTGenerator) (title : string) (content : list string)
    (w : World) :
  on_default_template ppt ->
  exists slide,
    call (add_content_slide title content "bullet") ppt w = (inr (appended ppt slide), w).
Proof.
  intros Hd.
  destruct (add_content_slide_body ppt "Title and Content" [] title content "bullet")
    as (slide & Hrun & _); [by rewrite Hd|].
  exists slide. unfold call. by rewrite Hrun.
Qed.

Lemma call_add_two_column_slide (ppt : PPTGenerator) (title : string)
    (left_content right_content : list string) (w : World) :
  on_default_template ppt ->
  exists slide,
    call (add_two_column_slide title left_content right_content) ppt w
    = (inr (appended ppt slide), w).
Proof.
  intros Hd.
  destruct (add_two_column_slide_bodies ppt "Two Content" [] title left_content right_content)
    as (slide & Hrun & _); [by rewrite Hd|].
  exists slide. unfold call. by rewrite Hrun.
Qed.

Lemma call_add_section_slide (ppt : PPTGenerator) (title : string) (w : World) :
  on_default_template ppt ->
  exists slide,
    call (add_section_slide title None) ppt w = (inr (appended ppt slide), w).
Proof.
  intros Hd.
  destruct (add_section_slide_result ppt "Section Header" [1%nat] title None)
    as (slide & line & Hrun & _); [by rewrite Hd|].
  exists slide. unfold call. by rewrite Hrun.
Qed.

Lemma call_add_title_slide (ppt : PPTGenerator) (title subtitle author : string) (w : World) :
  on_default_template ppt ->
  exists slide,
    call (add_title_slide title subtitle author) ppt w = (inr (appended ppt slide), w).
Proof.
  intros Hd.
  destruct (add_title_slide_color ppt "Title Slide" [] title subtitle author)
    as (slide & Hrun & _); [by rewrite Hd|].
  exists slide. unfold call. by rewrite Hrun.
Qed.

Lemma io_bind_returns {A B} (m : IO A) (k : A -> IO B) (w w' : World) (a : A) :
  m w = (inr a, w') -> io_bind m k w = k a w'.
Proof. unfold io_bind. by intros ->. Qed.

Lemma io_bind_stops {A B} (m : IO A) (k : A -> IO B) (w w' : World) (stop : Stop) :
  m w = (inl stop, w') -> io_bind m k w = (inl stop, w').
Proof. unfold io_bind. by intros ->. Qed.

Lemma input_answer (answer : string) (rest : list string) (fs : FileSystem) (t : nat) :
  input (mkWorld (answer :: rest) fs t) = (inr answer, mkWorld rest fs t).
Proof. reflexivity. Qed.

Lemma input_eof (fs : FileSystem) (t : nat) :
  input (mkWorld [] fs t) = (inl EOFError, mkWorld [] fs t).
Proof. reflexivity. Qed.

Lemma read_points_world (answers : list string) (fs : FileSystem) (t : nat) :
  read_points (mkWorld answers fs t)
  = (fst (read_points_from answers), mkWorld (snd (read_points_from answers)) fs t).
Proof. unfold read_points. cbn. by destruct (read_points_from answers). Qed.

(** After an optional method call on the default layouts the generator is
    still on them and has no fewer slides. *)
Lemma optional_call {A} (cond : bool) (m : M A) (ppt : PPTGenerator) (w : World) :
  on_default_template ppt ->
  (exists slide, call m ppt w = (inr (appended ppt slide), w)) ->
  exists ppt',
    (if cond then call m ppt else io_ret ppt) w = (inr ppt', w)
    /\ on_default_template ppt'
    /\ (slide_count ppt <= slide_count ppt')%nat.
Proof.
  intros Hd [slide Hcall]. destruct cond.
  - exists (appended ppt slide). split; [exact Hcall|]. split; [exact Hd|].
    rewrite slide_count_appended. lia.
  - exists ppt. by split.
Qed.

Lemma custom_loop_ends_well (clock : nat -> string) :
  forall (fuel : nat) (ppt : PPTGenerator) (answers : list string) (fs : FileSystem)
         (t : nat),
    (length answers < fuel)%nat ->
    on_default_template ppt ->
    isabs (cwd fs) = true ->
    ended_well fs (slide_count ppt) (custom_loop clock fuel ppt (mkWorld answers fs t)).
Proof.
  induction fuel as [|fuel IH]; intros ppt answers fs t Hlen Hd Hcwd; [lia|].
  cbn [custom_loop].
  destruct answers as [|choice answers]; [by rewrite (io_bind_stops _ _ _ _ _ (input_eof fs t))|].
  rewrite (io_bind_returns _ _ _ _ _ (input_answer choice answers fs t)).
  cbn [length] in Hlen.
  destruct (String.eqb choice "1"); [|destruct (String.eqb choice "2");
    [|destruct (String.eqb choice "3"); [|destruct (String.eqb choice "4")]]].
  - (* content slide *)
    destruct answers as [|title answers];
      [by rewrite (io_bind_stops _ _ _ _ _ (input_eof fs t))|].
    rewrite (io_bind_returns _ _ _ _ _ (input_answer title answers fs t)).
    pose proof (read_points_from_spec answers) as Hpoints.
    pose proof (read_points_world answers fs t) as Hread.
    destruct (read_points_from answers) as [[stop|content] rest]; cbn [fst snd] in *.
    + destruct Hpoints as [-> ->]. by rewrite (io_bind_stops _ _ _ _ _ Hread).
    + rewrite (io_bind_returns _ _ _ _ _ Hread).
      destruct (optional_call (nonempty content) (add_content_slide title content "bullet")
                  ppt (mkWorld rest fs t) Hd (call_add_content_slide _ _ _ _ Hd))
        as (ppt' & Hcall & Hd' & Hcount).
      rewrite (io_bind_returns _ _ _ _ _ Hcall).
      apply (ended_well_mono _ _ _ _ Hcount). apply IH; [cbn in *; lia | done | done].
  - (* two-column slide *)
    destruct answers as [|title answers];
      [by rewrite (io_bind_stops _ _ _ _ _ (input_eof fs t))|].
    rewrite (io_bind_returns _ _ _ _ _ (input_answer title answers fs t)).
    pose proof (read_points_from_spec answers) as Hleft.
    pose proof (read_points_world answers fs t) as Hread.
    destruct (read_points_from answers) as [[stop|left_content] rest]; cbn [fst snd] in *.
    + destruct Hleft as [-> ->]. by rewrite (io_bind_stops _ _ _ _ _ Hread).
    + rewrite (io_bind_returns _ _ _ _ _ Hread).
      pose proof (read_points_from_spec rest) as Hright.
      pose proof (read_points_world rest fs t) as Hread'.
      destruct (read_points_from rest) as [[stop|right_content] rest']; cbn [fst snd] in *.
      * destruct Hright as [-> ->]. by rewrite (io_bind_stops _ _ _ _ _ Hread').
      * rewrite (io_bind_returns _ _ _ _ _ Hread').
        destruct (optional_call (nonempty left_content || nonempty right_content)
                    (add_two_column_slide title left_content right_content)
                    ppt (mkWorld rest' fs t) Hd (call_add_two_column_slide _ _ _ _ _ Hd))
          as (ppt' & Hcall & Hd' & Hcount).
        rewrite (io_bind_returns _ _ _ _ _ Hcall).
        apply (ended_well_mono _ _ _ _ Hcount). apply IH; [cbn in *; lia | done | done].
  - (* section slide *)
    destruct answers as [|title answers];
      [by rewrite (io_bind_stops _ _ _ _ _ (input_eof fs t))|].
    rewrite (io_bind_returns _ _ _ _ _ (input_answer title answers fs t)).
    destruct (optional_call (truthy title) (add_section_slide title None)
                ppt (mkWorld answers fs t) Hd (call_add_section_slide _ _ _ Hd))
      as (ppt' & Hcall & Hd' & Hcount).
    rewrite (io_bind_returns _ _ _ _ _ Hcall).
    apply (ended_well_mono _ _ _ _ Hcount). apply IH; [cbn in *; lia | done | done].
  - (* save *)
    destruct answers as [|filename answers];
      [by rewrite (io_bind_stops _ _ _ _ _ (input_eof fs t))|].
    rewrite (io_bind_returns _ _ _ _ _ (input_answer filename answers fs t)).
    assert (exists name t',
              (if truthy filename then io_ret filename
               else now <~ strftime_now clock ;; io_ret ("custom_presentation_" +:+ now))
                (mkWorld answers fs t)
              = (inr name, mkWorld answers fs t')) as (name & t' & Hname).
    { destruct (truthy filename); by eexists _, _. }
    rewrite (io_bind_returns _ _ _ _ _ Hname). cbn [world_fs].
    rewrite save_unfold. destruct (can_write fs (save_path fs name)) eqn:Hw.
    + unfold ended_well. cbn. exists name, ppt. split; [|lia].
      unfold written. by rewrite (fs_key_abs _ _ (save_path_isabs fs name Hcwd)).
    + apply IH; [cbn in *; lia | done | done].
  - (* invalid choice *)
    apply IH; [lia | done | done].
Qed.

Lemma create_custom_presentation_ends_well (clock : nat -> string) (answers : list string)
    (fs : FileSystem) (t : nat) :
  isabs (cwd fs) = true ->
  ended_well fs 1 (create_custom_presentation clock (mkWorld answers fs t)).
Proof.
  intros Hcwd. unfold create_custom_presentation. cbn [world_fs].
  rewrite init_without_template.
  destruct answers as [|title answers];
    [by rewrite (io_bind_stops _ _ _ _ _ (input_eof fs t))|].
  rewrite (io_bind_returns _ _ _ _ _ (input_answer title answers fs t)).
  destruct answers as [|subtitle answers];
    [by rewrite (io_bind_stops _ _ _ _ _ (input_eof fs t))|].
  rewrite (io_bind_returns _ _ _ _ _ (input_answer subtitle answers fs t)).
  destruct answers as [|author answers];
    [by rewrite (io_bind_stops _ _ _ _ _ (input_eof fs t))|].
  rewrite (io_bind_returns _ _ _ _ _ (input_answer author answers fs t)).
  destruct (call_add_title_slide blank_generator title subtitle author
              (mkWorld answers fs t) eq_refl) as [slide Hcall].
  rewrite (io_bind_returns _ _ _ _ _ Hcall). cbn [stdin].
  apply (custom_loop_ends_well clock _ (appended blank_generator slide)); [lia | done | done].
Qed.

(** X26. Whatever the user answers, [create_custom_presentation] ends in
    one of two ways: by a [save] that returned, and then exactly one file
    was written, a deck that starts with the title slide; or by [input]
    finding no further answer, and then all answers were read and the file
    store is as it was.  No other exception leaves the function, a [save]
    that raises only leads back to the menu, and the menu loop makes no
    more iterations than there are answers. *)
Theorem X26_custom_session_saves_or_runs_out_of_input (clock : nat -> string)
    (answers : list string) (fs : FileSystem) (t : nat) :
  isabs (cwd fs) = true ->
  match create_custom_presentation clock (mkWorld answers fs t) with
  | (inr _, w') =>
      exists filename ppt,
        world_fs w' = written fs (save_path fs filename) (presentation ppt)
        /\ (1 <= slide_count ppt)%nat
  | (inl EOFError, w') => world_fs w' = fs /\ stdin w' = []
  | (inl _, _) => False
  end.
Proof.
  intros Hcwd.
  pose proof (create_custom_presentation_ends_well clock answers fs t Hcwd) as H.
  unfold ended_well in H.
  by destruct (create_custom_presentation clock (mkWorld answers fs t)) as [[[]|[]] w'].
Qed.

Lemma X26_custom_session_saves_or_runs_out_of_input_witness :
  world_fs (snd (create_custom_presentation (fun _ => "20250101_120000")
                   (mkWorld ["Deck"; ""; ""; "1"; "Steps"; "A"] work_fs 0)))
  = work_fs
  /\ stdin (snd (create_custom_presentation (fun _ => "20250101_120000")
                   (mkWorld ["Deck"; ""; ""; "1"; "Steps"; "A"] work_fs 0)))
     = [].
Proof.
  pose proof (X26_custom_session_saves_or_runs_out_of_input (fun _ => "20250101_120000")
                ["Deck"; ""; ""; "1"; "Steps"; "A"] work_fs 0 eq_refl) as H.
  vm_compute in H. vm_compute. exact H.
Defined.

Lemma read_points_from_points (points rest : list string) :
  Forall (fun p => p <> "") points ->
  read_points_from (points ++ "" :: rest) = (inr points, rest).
Proof.
  induction 1 as [|point points Hp _ IH]; [reflexivity|].
  cbn [app read_points_from]. apply String.eqb_neq in Hp. unfold truthy at 1.
  by rewrite Hp, IH.
Qed.

(** X27. Choice "1" of the menu reads a title and then points up to the
    first empty answer, and goes back to the menu.  With at least one point
    it has appended a bullet slide whose body holds exactly these points in
    order, each stored as a paragraph text; an answer is a line, and points
    without a line feed are held as given.  With no point it has appended
    nothing. *)
Theorem X27_menu_choice_1_adds_bullet_slide (clock : nat -> string) (fuel : nat)
    (ppt : PPTGenerator) (title : string) (points rest : list string)
    (fs : FileSystem) (t : nat) :
  on_default_template ppt ->
  Forall (fun p => p <> "") points ->
  exists ppt',
    custom_loop clock (S fuel) ppt (mkWorld ("1" :: title :: points ++ "" :: rest) fs t)
    = custom_loop clock fuel ppt' (mkWorld rest fs t)
    /\ match points with
       | [] => ppt' = ppt
       | _ :: _ =>
           exists slide,
             ppt' = appended ppt slide
             /\ add_content_slide title points "bullet" ppt
                = (inr (slide_count ppt), appended ppt slide)
             /\ placeholder_texts 1 slide = Some (stored_text <$> points)
             /\ (Forall (fun p => one_line p = true) points ->
                 placeholder_texts 1 slide = Some points)
       end.
Proof.
  intros Hd Hpoints. cbn [custom_loop].
  rewrite (io_bind_returns _ _ _ _ _ (input_answer "1" _ fs t)).
  rewrite String.eqb_refl.
  rewrite (io_bind_returns _ _ _ _ _ (input_answer title _ fs t)).
  pose proof (read_points_world (points ++ "" :: rest) fs t) as Hread.
  rewrite (read_points_from_points points rest Hpoints) in Hread. cbn [fst snd] in Hread.
  rewrite (io_bind_returns _ _ _ _ _ Hread).
  destruct points as [|point points].
  - exists ppt. split; [reflexivity | reflexivity].
  - destruct (add_content_slide_body ppt "Title and Content" [] title (point :: points)
                "bullet") as (slide & Hrun & Hbody); [by rewrite Hd|].
    exists (appended ppt slide). split.
    + cbn [nonempty]. unfold io_bind at 1, call. by rewrite Hrun.
    + exists slide. split; [reflexivity|]. split; [exact Hrun|].
      assert (placeholder_texts 1 slide = Some (stored_text <$> point :: points)) as Htexts.
      { unfold placeholder_texts. rewrite Hbody.
        change (String.eqb "bullet" "numbered") with false. cbn [option_map].
        f_equal. apply (for_enumerate_plain_texts ppt true (point :: points)). }
      split; [exact Htexts|].
      intros Hlines. by rewrite Htexts, (stored_text_items _ Hlines).
Qed.

Lemma X27_menu_choice_1_adds_bullet_slide_witness :
  exists ppt',
    custom_loop (fun _ => "20250101_120000") 2 blank_generator
      (mkWorld ["1"; "Steps"; "Plan"; "Build"; ""; "4"] work_fs 0)
    = custom_loop (fun _ => "20250101_120000") 1 ppt' (mkWorld ["4"] work_fs 0)
    /\ exists slide,
         ppt' = appended blank_generator slide
         /\ add_content_slide "Steps" ["Plan"; "Build"] "bullet" blank_generator
            = (inr (slide_count blank_generator), appended blank_generator slide)
         /\ placeholder_texts 1 slide = Some ["Plan"; "Build"].
Proof.
  destruct (X27_menu_choice_1_adds_bullet_slide (fun _ => "20250101_120000") 1
              blank_generator "Steps" ["Plan"; "Build"] ["4"] work_fs 0 eq_refl)
    as (ppt' & Hloop & slide & Hppt & Hrun & _ & Hlines).
  - repeat (apply List.Forall_cons; [discriminate|]). apply List.Forall_nil.
  - exists ppt'. split; [exact Hloop|]. exists slide. split; [exact Hppt|].
    split; [exact Hrun|]. apply Hlines. by repeat constructor.
Defined.

(** X28. Choice "4" of the menu reads a file name; an empty answer stands
    for [custom_presentation_] followed by the time stamp, for which the
    clock is read once.  If the file can be written the session ends with
    the deck stored under that name with [.pptx]; if not, the error is
    caught and the menu comes back with the slides and the file store as
    they were. *)
Theorem X28_menu_choice_4_saves_or_returns_to_menu (clock : nat -> string) (fuel : nat)
    (ppt : PPTGenerator) (answer : string) (rest : list string)
    (fs : FileSystem) (t : nat) :
  isabs (cwd fs) = true ->
  let filename := if truthy answer then answer
                  else "custom_presentation_" +:+ clock t in
  let t' := if truthy answer then t else S t in
  custom_loop clock (S fuel) ppt (mkWorld ("4" :: answer :: rest) fs t)
  = if can_write fs (save_path fs filename)
    then (inr tt, mkWorld rest (written fs (save_path fs filename) (presentation ppt)) t')
    else custom_loop clock fuel ppt (mkWorld rest fs t').
Proof.
  intros Hcwd filename t'. cbn [custom_loop].
  rewrite (io_bind_returns _ _ _ _ _ (input_answer "4" _ fs t)).
  change (String.eqb "4" "1") with false. change (String.eqb "4" "2") with false.
  change (String.eqb "4" "3") with false. rewrite String.eqb_refl.
  rewrite (io_bind_returns _ _ _ _ _ (input_answer answer rest fs t)).
  assert ((if truthy answer then io_ret answer
           else now <~ strftime_now clock ;; io_ret ("custom_presentation_" +:+ now))
            (mkWorld rest fs t)
          = (inr filename, mkWorld rest fs t')) as Hname.
  { subst filename t'. by destruct (truthy answer). }
  rewrite (io_bind_returns _ _ _ _ _ Hname). cbn [world_fs].
  rewrite save_unfold. destruct (can_write fs (save_path fs filename)); [|reflexivity].
  unfold written, set_world_fs. cbn [stdin ticks].
  by rewrite (fs_key_abs _ _ (save_path_isabs fs filename Hcwd)).
Qed.

Lemma X28_menu_choice_4_saves_or_returns_to_menu_witness :
  custom_loop (fun _ => "20250101_120000") 1 blank_generator
    (mkWorld ["4"; ""; "1"] work_fs 0)
  = (inr tt,
     mkWorld ["1"]
       (written work_fs "/work/custom_presentation_20250101_120000.pptx"
          (presentation blank_generator)) 1).
Proof.
  exact (X28_menu_choice_4_saves_or_returns_to_menu (fun _ => "20250101_120000") 0
           blank_generator "" ["1"] work_fs 0 eq_refl).
Defined.

(** * The main menu *)

Lemma reads_ahead_ret {A} (a : A) : reads_ahead (io_ret a).
Proof. intros w. reflexivity. Qed.

Lemma reads_ahead_bind {A B} (m : IO A) (k : A -> IO B) :
  reads_ahead m -> (forall a, reads_ahead (k a)) -> reads_ahead (io_bind m k).
Proof.
  intros Hm Hk w. unfold io_bind. specialize (Hm w).
  destruct (m w) as [[stop|a] w']; cbn [snd] in *; [exact Hm|].
  by etrans; [apply Hk|].
Qed.

Lemma reads_ahead_input : reads_ahead input.
Proof.
  intros [answers fs t]. unfold input. cbn [stdin].
  destruct answers as [|answer rest]; [reflexivity|]. cbn. by apply suffix_cons_r.
Qed.

Lemma reads_ahead_strftime_now (clock : nat -> string) : reads_ahead (strftime_now clock).
Proof. intros w. reflexivity. Qed.

Lemma reads_ahead_call {A} (m : M A) (ppt : PPTGenerator) : reads_ahead (call m ppt).
Proof. intros w. unfold call. by destruct (m ppt) as [[e|a] ppt']. Qed.

Lemma read_points_from_suffix (answers : list string) :
  snd (read_points_from answers) `suffix_of` answers.
Proof.
  induction answers as [|point rest IH]; [reflexivity|]. cbn [read_points_from].
  destruct (truthy point); [|by apply suffix_cons_r].
  destruct (read_points_from rest) as [[stop|content] rest']; by apply suffix_cons_r.
Qed.

Lemma reads_ahead_read_points : reads_ahead read_points.
Proof.
  intros [answers fs t]. unfold read_points. cbn [stdin].
  pose proof (read_points_from_suffix answers) as H.
  by destruct (read_points_from answers) as [r rest].
Qed.

Lemma reads_ahead_if {A} (cond : bool) (m1 m2 : IO A) :
  reads_ahead m1 -> reads_ahead m2 -> reads_ahead (if cond then m1 else m2).
Proof. by destruct cond. Qed.

Lemma reads_ahead_custom_loop (clock : nat -> string) (fuel : nat) :
  forall ppt, reads_ahead (custom_loop clock fuel ppt).
Proof.
  induction fuel as [|fuel IH]; intros ppt; [intros w; reflexivity|].
  cbn [custom_loop].
  apply reads_ahead_bind; [apply reads_ahead_input|]. intros choice.
  repeat apply reads_ahead_if.
  - apply reads_ahead_bind; [apply reads_ahead_input|]. intros title.
    apply reads_ahead_bind; [apply reads_ahead_read_points|]. intros content.
    apply reads_ahead_bind; [|exact IH].
    apply reads_ahead_if; [apply reads_ahead_call | apply reads_ahead_ret].
  - apply reads_ahead_bind; [apply reads_ahead_input|]. intros title.
    apply reads_ahead_bind; [apply reads_ahead_read_points|]. intros left_content.
    apply reads_ahead_bind; [apply reads_ahead_read_points|]. intros right_content.
    apply reads_ahead_bind; [|exact IH].
    apply reads_ahead_if; [apply reads_ahead_call | apply reads_ahead_ret].
  - apply reads_ahead_bind; [apply reads_ahead_input|]. intros title.
    apply reads_ahead_bind; [|exact IH].
    apply reads_ahead_if; [apply reads_ahead_call | apply reads_ahead_ret].
  - apply reads_ahead_bind; [apply reads_ahead_input|]. intros answer.
    apply reads_ahead_bind.
    + apply reads_ahead_if; [apply reads_ahead_ret|].
      apply reads_ahead_bind; [apply reads_ahead_strftime_now|].
      intros now. apply reads_ahead_ret.
    + intros filename w.
      destruct (save filename (world_fs w) ppt) as [[[e|path] ppt'] fs']; [|reflexivity].
      apply (IH ppt (set_world_fs fs' w)).
  - apply IH.
Qed.

Lemma reads_ahead_create_custom_presentation (clock : nat -> string) :
  reads_ahead (create_custom_presentation clock).
Proof.
  intros w. unfold create_custom_presentation.
  destruct (__init__ (world_fs w) None) as [e|ppt]; [reflexivity|].
  revert w. change (reads_ahead
    (title <~ input ;; subtitle <~ input ;; author <~ input ;;
     ppt <~ call (add_title_slide title subtitle author) ppt ;;
     fun w => custom_loop clock (S (length (stdin w))) ppt w)).
  apply reads_ahead_bind; [apply reads_ahead_input|]. intros title.
  apply reads_ahead_bind; [apply reads_ahead_input|]. intros subtitle.
  apply reads_ahead_bind; [apply reads_ahead_input|]. intros author.
  apply reads_ahead_bind; [apply reads_ahead_call|]. intros ppt' w.
  apply reads_ahead_custom_loop.
Qed.

Lemma cwd_saved_or_raised (fs : FileSystem) (path : string) (prs : Presentation) :
  cwd (snd (saved_or_raised fs path prs)) = cwd fs.
Proof. unfold saved_or_raised. by destruct (can_write fs path). Qed.

Lemma main_loop_ends_well (clock : nat -> string) :
  forall (fuel : nat) (answers : list string) (fs : FileSystem) (t : nat),
    (length answers < fuel)%nat ->
    isabs (cwd fs) = true ->
    main_ended_well answers (main_loop clock fuel (mkWorld answers fs t)).
Proof.
  induction fuel as [|fuel IH]; intros answers fs t Hlen Hcwd; [lia|].
  cbn [main_loop].
  destruct answers as [|choice answers]; [by rewrite (io_bind_stops _ _ _ _ _ (input_eof fs t))|].
  rewrite (io_bind_returns _ _ _ _ _ (input_answer choice answers fs t)).
  cbn [length] in Hlen.
  assert (forall out, main_ended_well answers out -> main_ended_well (choice :: answers) out)
    as Hmore.
  { intros out. unfold main_ended_well. destruct (fst out) as [[]|]; try done. by right. }
  destruct (String.eqb choice "1"); [|destruct (String.eqb choice "2");
    [|destruct (String.eqb choice "3") eqn:Hquit]].
  - (* the sample presentation; what it raises is caught *)
    unfold io_bind, strftime_now. cbn [stdin world_fs ticks].
    pose proof (cwd_saved_or_raised fs
      (os_path_abspath (cwd fs) ("devops_presentation_" +:+ clock t +:+ ".pptx"))
      (presentation (script_generator (Some ((31, 73, 125), (79, 129, 189))) devops_calls)))
      as Hcwd'.
    rewrite <- (create_sample_devops_presentation_result (clock t) fs Hcwd) in Hcwd'.
    destruct (create_sample_devops_presentation (clock t) fs) as [r fs']. cbn [snd] in Hcwd'.
    unfold set_world_fs. cbn [stdin ticks].
    apply Hmore, IH; [lia | by rewrite Hcwd'].
  - (* the interactive builder; what it raises is not caught *)
    pose proof (create_custom_presentation_ends_well clock answers fs t Hcwd) as Hend.
    pose proof (reads_ahead_create_custom_presentation clock (mkWorld answers fs t)) as Hread.
    unfold io_bind.
    destruct (create_custom_presentation clock (mkWorld answers fs t))
      as [[stop|[]] [answers' fs' t']]; unfold ended_well in Hend; cbn [fst snd stdin world_fs] in *.
    + unfold main_ended_well. cbn [fst snd]. by destruct stop; [destruct Hend| |].
    + destruct Hend as (filename & ppt & -> & _).
      pose proof (suffix_length _ _ Hread) as Hlen'. destruct Hread as [read ->].
      apply Hmore.
      assert (main_ended_well answers'
                (main_loop clock fuel
                   (mkWorld answers' (written fs (save_path fs filename) (presentation ppt)) t')))
        as Hrest by (apply IH; [lia | exact Hcwd]).
      unfold main_ended_well in *. destruct (fst _) as [[]|]; try done.
      apply in_or_app. by right.
  - (* exit *)
    apply String.eqb_eq in Hquit as ->. unfold main_ended_well. cbn. by left.
  - (* invalid choice *)
    apply Hmore, IH; [lia | exact Hcwd].
Qed.

(** X29. Whatever the user answers, [main] ends in one of two ways: it
    returns, and then "3" was among the answers; or [input] finds no
    further answer, and then all answers were read.  An error of the sample
    presentation is caught, the interactive builder raises nothing but the
    end of the input, an unknown choice only leads back to the menu, and
    the menu loop makes no more iterations than there are answers. *)
Theorem X29_main_ends_on_exit_or_end_of_input (clock : nat -> string)
    (answers : list string) (fs : FileSystem) (t : nat) :
  isabs (cwd fs) = true ->
  match main clock (mkWorld answers fs t) with
  | (inr _, _) => In "3" answers
  | (inl EOFError, w') => stdin w' = []
  | (inl _, _) => False
  end.
Proof.
  intros Hcwd.
  pose proof (main_loop_ends_well clock (S (length answers)) answers fs t
                (Nat.lt_succ_diag_r _) Hcwd) as H.
  unfold main_ended_well in H. unfold main. cbn [stdin].
  by destruct (main_loop clock (S (length answers)) (mkWorld answers fs t)) as [[[]|[]] w'].
Qed.

Lemma X29_main_ends_on_exit_or_end_of_input_witness :
  stdin (snd (main (fun _ => "20250101_120000")
                (mkWorld ["7"; "2"; "Deck"; ""; ""; "3"; "Part"; "4"; "out"] work_fs 0)))
  = [].
Proof.
  pose proof (X29_main_ends_on_exit_or_end_of_input (fun _ => "20250101_120000")
                ["7"; "2"; "Deck"; ""; ""; "3"; "Part"; "4"; "out"] work_fs 0 eq_refl) as H.
  vm_compute in H. vm_compute. exact H.
Defined.
